(** * Guru Meditation: a shallow embedding of guru.cpp (release 1.3)

    The error-handling core of the repository is a handful of functions over
    process-wide globals.  The globals become one record [Guru]; every
    function becomes a state transformer returning an [Outcome], which says
    whether the call returned, called [exit], or is blocked in the loop that
    shows the halt notice.  The preprocessor switches of guru.h become a
    [Build] value.

    The repository holds two generations of the same file.  The model
    follows release 1.3 (guru.cpp); release 1.2 differs in that it has no
    printf-style rendering, always compiles the stack trace, and lets
    [halt] return in a build without front end.

    Conventions of the model:
    - clock readings are an argument [now] (ticks of the system clock, taken
      as nanoseconds); one call reads one value of the clock;
    - [elapsed_seconds] is a [std::chrono::duration<float>]: the tick
      difference is converted to single precision and divided by the ticks
      per second in single precision, both rounded to nearest, ties to even
      (see [to_float]);
    - [localtime] is taken as UTC;
    - [__PRETTY_FUNCTION__] is rendered the way GCC does. *)

From Stdlib Require Import ZArith List String Ascii Bool Lia.
From Stdlib Require Import DecimalString DecimalNat.
From Stdlib Require Import QArith Qround Qpower Lqa.
Import ListNotations.

Close Scope Q_scope.

Open Scope string_scope.
Open Scope Z_scope.

(** ** Build configuration (guru.h) *)

Inductive Frontend : Set :=
| Headless   (* none of the GURU_USING_* front ends is defined *)
| Console    (* GURU_USING_CONSOLE *)
| Curses     (* GURU_USING_CURSES *)
| Libtcod.   (* GURU_USING_LIBTCOD *)

Record Build : Set := mkBuild {
  frontend : Frontend;
  stack_trace_on : bool   (* GURU_USING_STACK_TRACE *)
}.

(** ** Constants *)

Definition CASCADE_THRESHOLD : Z := 20.
Definition CASCADE_TIMEOUT : Z := 30.
Definition CASCADE_WEIGHT_CRITICAL : Z := 4.
Definition CASCADE_WEIGHT_ERROR : Z := 2.
Definition CASCADE_WEIGHT_WARNING : Z := 1.
Definition FILENAME_LOG : string := "log.txt".

Definition GURU_INFO : Z := 0.
Definition GURU_WARN : Z := 1.
Definition GURU_ERROR : Z := 2.
Definition GURU_CRITICAL : Z := 3.
Definition GURU_STACK : Z := 4.

Definition EXIT_FAILURE : Z := 1.

Definition SIGILL : Z := 4.
Definition SIGABRT : Z := 6.
Definition SIGFPE : Z := 8.
Definition SIGSEGV : Z := 11.

Definition KEY_ESCAPE : Z := 27.
Definition KEY_RESIZE : Z := 410.

Definition UINT_MODULUS : Z := 2 ^ 32.
Definition TICKS_PER_SECOND : Z := 1000000000.

Definition newline : string := String (ascii_of_nat 10) EmptyString.

(** ** printf-style rendering

    [halt], [log] and [nonfatal] pass their message through [vsprintf].
    The model renders the directives [%%], [%d], [%i], [%s] and [%c],
    written without flags, width or precision.  A missing or ill-typed
    argument, a lone [%] at the end of the text, or a rendering that does
    not fit the buffer of [size + 1024] bytes is undefined behaviour in C
    and yields [None].  Every other directive yields [None] as well: with
    no argument left it reads a missing argument, which is undefined; with
    an argument present ([%x], [%u], a width, ...) it is defined in C but
    outside the fragment modelled here. *)

Inductive Arg : Set :=
| ArgInt (z : Z)
| ArgStr (s : string)
| ArgChar (c : ascii).

Definition string_of_Z (z : Z) : string := NilZero.string_of_int (Z.to_int z).
Definition to_string (n : nat) : string := NilZero.string_of_uint (Nat.to_uint n).

Definition is_percent (c : ascii) : bool := Ascii.eqb c "%"%char.

Definition in_int_range (z : Z) : bool := (- 2 ^ 31 <=? z) && (z <? 2 ^ 31).

Fixpoint format (fmt : string) (ap : list Arg) : option string :=
  match fmt with
  | EmptyString => Some EmptyString
  | String c rest =>
      if is_percent c then
        match rest with
        | EmptyString => None
        | String d rest' =>
            if is_percent d then option_map (String "%"%char) (format rest' ap)
            else if (Ascii.eqb d "d"%char || Ascii.eqb d "i"%char)%bool then
              match ap with
              | ArgInt z :: ap' =>
                  if in_int_range z
                  then option_map (append (string_of_Z z)) (format rest' ap')
                  else None
              | _ => None
              end
            else if Ascii.eqb d "s"%char then
              match ap with
              | ArgStr s :: ap' => option_map (append s) (format rest' ap')
              | _ => None
              end
            else if Ascii.eqb d "c"%char then
              match ap with
              | ArgChar a :: ap' => option_map (String a) (format rest' ap')
              | _ => None
              end
            else None
        end
      else option_map (String c) (format rest ap)
  end.

(** [char *buffer = new char[msg.size() + 1024]; vsprintf(buffer, ...)]:
    the rendering and its terminating NUL must fit the buffer. *)
Definition vsprintf (fmt : string) (ap : list Arg) : option string :=
  match format fmt ap with
  | Some r =>
      if (Z.of_nat (String.length r) <? Z.of_nat (String.length fmt) + 1024)
      then Some r else None
  | None => None
  end.

(** A text without any [%]: rendering leaves it as it is. *)
Fixpoint plain (s : string) : bool :=
  match s with
  | EmptyString => true
  | String c rest => negb (is_percent c) && plain rest
  end.

(** ** Timestamps: [strftime(buffer, 32, "%H:%M:%S", localtime(&now))] *)

Definition two_digits (n : Z) : string :=
  if n <? 10 then "0" ++ string_of_Z n else string_of_Z n.

Definition time_str (now : Z) : string :=
  let secs := (now / TICKS_PER_SECOND) mod 86400 in
  two_digits (secs / 3600) ++ ":" ++ two_digits ((secs / 60) mod 60)
    ++ ":" ++ two_digits (secs mod 60).

(** ** The process-wide state *)

(** [std::ofstream]: whether a file is open, the stream's error flag, and
    the lines written to the file so far. *)
Record Ofstream : Set := mkOfstream {
  is_open : bool;
  failbit : bool;
  lines : list string
}.

Definition ofstream_closed : Ofstream := mkOfstream false false [].

(** [syslog.open(name)] after [remove(name)]: an open stream refuses to be
    opened again and raises its error flag; otherwise the file is created
    empty, or the error flag is raised when it cannot be created. *)
Definition ofstream_open (can_create : bool) (f : Ofstream) : Ofstream :=
  if is_open f then mkOfstream true true (lines f)
  else if can_create then mkOfstream true false []
  else mkOfstream false true (lines f).

Definition ofstream_close (f : Ofstream) : Ofstream :=
  if is_open f then mkOfstream false (failbit f) (lines f)
  else mkOfstream false true (lines f).

(** [syslog << msg << std::endl] *)
Definition ofstream_put_line (l : string) (f : Ofstream) : Ofstream :=
  if (is_open f && negb (failbit f))%bool
  then mkOfstream (is_open f) (failbit f) (lines f ++ [l])
  else mkOfstream (is_open f) true (lines f).

Inductive Disposition : Set :=
| SIG_DFL
| SIG_IGN
| Handler.   (* guru::intercept_signal *)

(** The dispositions of the four signals the system hooks. *)
Record SignalTable : Set := mkSignalTable {
  on_SIGABRT : Disposition;
  on_SIGSEGV : Disposition;
  on_SIGILL : Disposition;
  on_SIGFPE : Disposition
}.

Definition signals_default : SignalTable :=
  mkSignalTable SIG_DFL SIG_DFL SIG_DFL SIG_DFL.

Definition set_disposition (sig : Z) (d : Disposition) (t : SignalTable)
  : SignalTable :=
  if sig =? SIGABRT then mkSignalTable d (on_SIGSEGV t) (on_SIGILL t) (on_SIGFPE t)
  else if sig =? SIGSEGV then mkSignalTable (on_SIGABRT t) d (on_SIGILL t) (on_SIGFPE t)
  else if sig =? SIGILL then mkSignalTable (on_SIGABRT t) (on_SIGSEGV t) d (on_SIGFPE t)
  else if sig =? SIGFPE then mkSignalTable (on_SIGABRT t) (on_SIGSEGV t) (on_SIGILL t) d
  else t.

Definition disposition (sig : Z) (t : SignalTable) : Disposition :=
  if sig =? SIGABRT then on_SIGABRT t
  else if sig =? SIGSEGV then on_SIGSEGV t
  else if sig =? SIGILL then on_SIGILL t
  else if sig =? SIGFPE then on_SIGFPE t
  else SIG_DFL.

Record Guru : Set := mkGuru {
  cascade_count : Z;            (* unsigned int *)
  cascade_failure : bool;
  cascade_timer : Z;            (* time point, in ticks *)
  dead_already : bool;
  fully_active : bool;
  last_log_message : string;
  message : string;
  syslog : Ofstream;
  funcs : list string;          (* StackTrace::funcs, top of the stack first *)
  signals : SignalTable;
  terminal : list string        (* what the front end has shown, in order *)
}.

(** The globals as their initialisers leave them. *)
Definition guru_init : Guru :=
  mkGuru 0 false 0 false false EmptyString EmptyString ofstream_closed [] signals_default [].

Definition set_cascade_count (v : Z) (s : Guru) : Guru :=
  mkGuru v (cascade_failure s) (cascade_timer s) (dead_already s)
    (fully_active s) (last_log_message s) (message s) (syslog s) (funcs s)
    (signals s) (terminal s).
Definition set_cascade_failure (v : bool) (s : Guru) : Guru :=
  mkGuru (cascade_count s) v (cascade_timer s) (dead_already s)
    (fully_active s) (last_log_message s) (message s) (syslog s) (funcs s)
    (signals s) (terminal s).
Definition set_cascade_timer (v : Z) (s : Guru) : Guru :=
  mkGuru (cascade_count s) (cascade_failure s) v (dead_already s)
    (fully_active s) (last_log_message s) (message s) (syslog s) (funcs s)
    (signals s) (terminal s).
Definition set_fully_active (v : bool) (s : Guru) : Guru :=
  mkGuru (cascade_count s) (cascade_failure s) (cascade_timer s)
    (dead_already s) v (last_log_message s) (message s) (syslog s) (funcs s)
    (signals s) (terminal s).
Definition set_last_log_message (v : string) (s : Guru) : Guru :=
  mkGuru (cascade_count s) (cascade_failure s) (cascade_timer s)
    (dead_already s) (fully_active s) v (message s) (syslog s) (funcs s)
    (signals s) (terminal s).
Definition set_message (v : string) (s : Guru) : Guru :=
  mkGuru (cascade_count s) (cascade_failure s) (cascade_timer s)
    (dead_already s) (fully_active s) (last_log_message s) v (syslog s)
    (funcs s) (signals s) (terminal s).
Definition set_syslog (v : Ofstream) (s : Guru) : Guru :=
  mkGuru (cascade_count s) (cascade_failure s) (cascade_timer s)
    (dead_already s) (fully_active s) (last_log_message s) (message s) v
    (funcs s) (signals s) (terminal s).
Definition set_funcs (v : list string) (s : Guru) : Guru :=
  mkGuru (cascade_count s) (cascade_failure s) (cascade_timer s)
    (dead_already s) (fully_active s) (last_log_message s) (message s)
    (syslog s) v (signals s) (terminal s).
Definition set_signals (v : SignalTable) (s : Guru) : Guru :=
  mkGuru (cascade_count s) (cascade_failure s) (cascade_timer s)
    (dead_already s) (fully_active s) (last_log_message s) (message s)
    (syslog s) (funcs s) v (terminal s).
Definition set_terminal (v : list string) (s : Guru) : Guru :=
  mkGuru (cascade_count s) (cascade_failure s) (cascade_timer s)
    (dead_already s) (fully_active s) (last_log_message s) (message s)
    (syslog s) (funcs s) (signals s) v.

(** ** Outcomes of a call *)

Inductive Outcome : Set :=
| Returned (s : Guru)               (* the call returned to its caller *)
| Exited (code : Z) (s : Guru)      (* the call ended the process with exit(code) *)
| Presenting (s : Guru)             (* the call sits in the loop that shows the notice *)
| Undefined.                        (* a vsprintf/printf the model gives no result for *)

Definition bind (o : Outcome) (k : Guru -> Outcome) : Outcome :=
  match o with
  | Returned s => k s
  | other => other
  end.

Notation "x <- c ;; k" := (bind c (fun x => k))
  (at level 61, c at next level, right associativity).

Definition outcome_state (o : Outcome) : option Guru :=
  match o with
  | Returned s | Exited _ s | Presenting s => Some s
  | Undefined => None
  end.

Definition has_returned (o : Outcome) : bool :=
  match o with Returned _ => true | _ => false end.

(** ** The stack-trace system *)

Inductive Func : Set :=
| FAffirm | FCloseSyslog | FHalt | FHaltException | FInterceptSignal | FNonfatal.

(** [__PRETTY_FUNCTION__] inside each function of the namespace. *)
Definition pretty_function (f : Func) : string :=
  match f with
  | FAffirm => "void guru::affirm(int, std::string)"
  | FCloseSyslog => "void guru::close_syslog()"
  | FHalt => "void guru::halt(std::string, ...)"
  | FHaltException => "void guru::halt(std::exception&)"
  | FInterceptSignal => "void guru::intercept_signal(int)"
  | FNonfatal => "void guru::nonfatal(std::string, int, ...)"
  end.

(** [StackTrace::StackTrace(const char *func) { funcs.push(func); }] *)
Definition stack_push (func : string) (s : Guru) : Guru :=
  set_funcs (func :: funcs s) s.

(** [StackTrace::~StackTrace() { if (!funcs.empty()) funcs.pop(); }] *)
Definition stack_pop (s : Guru) : Guru :=
  match funcs s with
  | [] => s
  | _ :: below => set_funcs below s
  end.

(** ** Logging *)

Definition txt_tag (type : Z) : string :=
  if type =? GURU_WARN then "[WARN] "
  else if type =? GURU_ERROR then "[ERROR] "
  else if type =? GURU_CRITICAL then "[CRITICAL] "
  else EmptyString.

Definition log_line (now : Z) (type : Z) (msg : string) : string :=
  "[" ++ time_str now ++ "] " ++ txt_tag type ++ msg.

(** [void log(std::string msg, int type, ...)] *)
Definition log (msg : string) (type : Z) (ap : list Arg) (now : Z) (s : Guru)
  : Outcome :=
  if negb (is_open (syslog s)) then Returned s
  else if String.eqb msg (last_log_message s) then Returned s
  else
    match vsprintf msg ap with
    | None => Undefined
    | Some msg' =>
        let s1 := set_last_log_message msg' s in
        Returned (set_syslog (ofstream_put_line (log_line now type msg') (syslog s1)) s1)
    end.

Definition BANNER : string := "Software Failure, Halting Execution".
Definition BANNER_TCOD : string := "Software Failure: Halting Execution".
Definition MSG_TRACE_FOLLOWS : string := "Stack trace follows:".
Definition MSG_DIE_PEACEFULLY : string :=
  "Detected cleanup in process, attempting to die peacefully.".
Definition MSG_CASCADE : string := "Cascade failure detected!".
Definition MSG_BAD_SEVERITY : string :=
  "Nonfatal error reported with incorrect severity specified.".
Definition MSG_SHUTTING_DOWN : string := "Guru system shutting down.".
Definition MSG_SILENCE : string := "The rest is silence.".
Definition MSG_ONLINE : string :=
  "Guru error-handling system is online. Hooking signals...".

(** [void log(std::string msg, int type)] of release 1.2 (the older
    generation of the same file): the message is written as it is, without
    any rendering. *)
Definition log_1_2 (msg : string) (type : Z) (now : Z) (s : Guru) : Outcome :=
  if negb (is_open (syslog s)) then Returned s
  else if String.eqb msg (last_log_message s) then Returned s
  else
    let s1 := set_last_log_message msg s in
    Returned (set_syslog (ofstream_put_line (log_line now type msg) (syslog s1)) s1).

(** The loop of [halt] over the stack: log the top frame with its depth,
    pop it unless it is the last one.  [fs] is [StackTrace::funcs] as the
    iteration finds it. *)
Fixpoint drain_loop (fs : list string) (now : Z) (s : Guru) : Outcome :=
  match fs with
  | [] => Returned s   (* the loop is only entered on a non-empty stack *)
  | top :: below =>
      s1 <- log (to_string (List.length fs - 1) ++ ": " ++ top) GURU_STACK [] now s ;;
      match below with
      | [] => Returned s1
      | _ :: _ => drain_loop below now (set_funcs below s1)
      end
  end.

(** [if (StackTrace::funcs.size()) { log("Stack trace follows:"); while ... }] *)
Definition drain_stack (now : Z) (s : Guru) : Outcome :=
  match funcs s with
  | [] => Returned s
  | _ :: _ =>
      s1 <- log MSG_TRACE_FOLLOWS GURU_STACK [] now s ;;
      drain_loop (funcs s1) now s1
  end.

Section Core.

Variable b : Build.

(** [stack_trace();] at the head of a function declares a local
    [StackTrace]: its constructor pushes the frame on entry, its destructor
    pops when the function returns; [exit] runs no destructor of a local
    object.  Without GURU_USING_STACK_TRACE the macro is not there. *)
Definition enter (f : Func) (s : Guru) : Guru :=
  if stack_trace_on b then stack_push (pretty_function f) s else s.

Definition leave (s : Guru) : Guru :=
  if stack_trace_on b then stack_pop s else s.

Definition scoped (f : Func) (body : Guru -> Outcome) (s : Guru) : Outcome :=
  s' <- body (enter f s) ;; Returned (leave s').

(** [void close_syslog()] *)
Definition close_syslog (now : Z) (s : Guru) : Outcome :=
  scoped FCloseSyslog (fun s =>
    s <- log MSG_SHUTTING_DOWN GURU_INFO [] now s ;;
    s <- log MSG_SILENCE GURU_INFO [] now s ;;
    Returned (set_syslog (ofstream_close (syslog s)) s)) s.

(** [void console_ready(bool ready)] *)
Definition console_ready (ready : bool) (s : Guru) : Outcome :=
  Returned (set_fully_active ready s).

(** One drawing of the notice by the Curses front end. *)
Definition draw_curses (s : Guru) : Guru :=
  set_terminal (terminal s ++ [BANNER; message s]) s.

(** The tail of [halt] after [message = error]: what each front end does.
    The console build prints and exits.  The Curses build cuts the message
    to 39 characters, draws the notice in the first pass of its loop and
    waits in [getch].  The libtcod build draws the notice in the first pass
    of its loop and stays in it until Escape or the closing of the window.
    A build without front end exits. *)
Definition present (s : Guru) : Outcome :=
  match frontend b with
  | Console =>
      match format (message s ++ newline) [] with
      | None => Undefined
      | Some out =>
          Exited EXIT_FAILURE
            (set_terminal (terminal s ++ [BANNER ++ newline; out]) s)
      end
  | Curses =>
      let s1 :=
        if (39 <? String.length (message s))%nat
        then set_message (substring 0 39 (message s)) s else s in
      Presenting (draw_curses s1)
  | Libtcod =>
      match format (message s) [] with
      | None => Undefined
      | Some out => Presenting (set_terminal (terminal s ++ [BANNER_TCOD; out]) s)
      end
  | Headless => Exited EXIT_FAILURE s
  end.

Definition is_curses : bool :=
  match frontend b with Curses => true | _ => false end.

(** [void halt(std::string error, ...)] *)
Definition halt (error : string) (ap : list Arg) (now : Z) (s : Guru) : Outcome :=
  scoped FHalt (fun s =>
    match vsprintf error ap with
    | None => Undefined
    | Some error =>
        s <- log BANNER GURU_CRITICAL [] now s ;;
        s <- log error GURU_CRITICAL [] now s ;;
        s <- (if stack_trace_on b then drain_stack now s else Returned s) ;;
        if (is_curses && negb (fully_active s))%bool then Exited EXIT_FAILURE s
        else if dead_already s then
          s <- log MSG_DIE_PEACEFULLY GURU_WARN [] now s ;;
          Exited EXIT_FAILURE s
        else present (set_message error s)
    end) s.

(** [void affirm(int condition, std::string error)] *)
Definition affirm (condition : Z) (error : string) (now : Z) (s : Guru) : Outcome :=
  scoped FAffirm (fun s =>
    if condition =? 0 then halt error [] now s else Returned s) s.

(** [void halt(std::exception &e)], given [e.what()] *)
Definition halt_exception (what : string) (now : Z) (s : Guru) : Outcome :=
  scoped FHaltException (fun s => halt what [] now s) s.

(** The Curses loop after the notice is drawn: one [getch()]. *)
Definition presenter_getch (key : Z) (now : Z) (s : Guru) : Outcome :=
  if key =? KEY_RESIZE then Presenting (draw_curses s)
  else if key =? KEY_ESCAPE then
    s <- close_syslog now s ;; Exited EXIT_FAILURE s
  else Presenting s.

(** ** Non-fatal reports and the cascade detector *)

(** The [switch (type)] of [nonfatal]: the weight each [case] assigns;
    [cascade_weight] keeps its initial 0 in the [default] branch. *)
Definition weight_for (type : Z) : Z :=
  if type =? GURU_WARN then CASCADE_WEIGHT_WARNING
  else if type =? GURU_ERROR then CASCADE_WEIGHT_ERROR
  else if type =? GURU_CRITICAL then CASCADE_WEIGHT_CRITICAL
  else 0.

(** Whether the [switch (type)] takes its [default] branch. *)
Definition is_default (type : Z) : bool :=
  negb ((type =? GURU_WARN) || (type =? GURU_ERROR) || (type =? GURU_CRITICAL)).

(** *** Single-precision arithmetic

    [std::chrono::duration<float> elapsed_seconds = now() - cascade_timer]
    converts a count of clock ticks to [float] seconds: [duration_cast]
    computes [static_cast<float>(ticks) / static_cast<float>(1000000000)].
    A [float] is a binary32 number: a significand of [FLT_MANT_DIG] = 24
    bits and a power of two.  Its values are kept here as exact rationals;
    conversion and division round to nearest, ties to even.  The exponent
    is not bounded in the model: a difference of two 64-bit tick counts and
    its quotient by the ticks per second neither overflow nor reach the
    subnormal range of binary32. *)

Definition FLT_MANT_DIG : Z := 24.

(** The exponent of a positive number: the [k] with [2^k <= x < 2^(k+1)]. *)
Definition ilogb (x : Q) : Z :=
  let k := Z.log2 (Qnum x) - Z.log2 (Zpos (Qden x)) in
  if Qle_bool (2 ^ k) x then k else k - 1.

(** The nearest integer, a tie going to the even one. *)
Definition rint (x : Q) : Z :=
  let f := Qfloor x in
  match (x - inject_Z f ?= 1 # 2)%Q with
  | Lt => f
  | Gt => f + 1
  | Eq => if Z.even f then f else f + 1
  end.

(** A positive number rounded to 24 significant bits. *)
Definition round_magnitude (x : Q) : Q :=
  let e := ilogb x - (FLT_MANT_DIG - 1) in
  (inject_Z (rint (x / 2 ^ e)) * 2 ^ e)%Q.

(** The [float] nearest to [x]. *)
Definition to_float (x : Q) : Q :=
  match Qnum x with
  | Z0 => 0%Q
  | Zpos _ => round_magnitude x
  | Zneg _ => (- round_magnitude (- x))%Q
  end.

(** [static_cast<float>(n)] *)
Definition float_of_Z (n : Z) : Q := to_float (inject_Z n).

(** [x / y] on two [float]s *)
Definition float_div (x y : Q) : Q := to_float (x / y).

(** [std::chrono::duration<float> elapsed_seconds = now - cascade_timer] *)
Definition elapsed_seconds (now timer : Z) : Q :=
  float_div (float_of_Z (now - timer)) (float_of_Z TICKS_PER_SECOND).

(** [elapsed_seconds.count() <= CASCADE_TIMEOUT]: the integer constant is
    converted to [float] for the comparison. *)
Definition within_timeout (now timer : Z) : bool :=
  Qle_bool (elapsed_seconds now timer) (float_of_Z CASCADE_TIMEOUT).

(** [if (cascade_weight) { ... }] *)
Definition observe (cascade_weight : Z) (now : Z) (s : Guru) : Outcome :=
  if cascade_weight =? 0 then Returned s
  else if within_timeout now (cascade_timer s) then
    let s1 := set_cascade_count ((cascade_count s + cascade_weight) mod UINT_MODULUS) s in
    if CASCADE_THRESHOLD <? cascade_count s1 then
      halt MSG_CASCADE [] now (set_cascade_failure true s1)
    else Returned s1
  else Returned (set_cascade_count 0 (set_cascade_timer now s)).

(** The body of [nonfatal], with the function it calls in its [default]
    branch as a parameter. *)
Definition nonfatal_body
    (self : string -> Z -> list Arg -> Z -> Guru -> Outcome)
    (error : string) (type : Z) (ap : list Arg) (now : Z) (s : Guru) : Outcome :=
  if cascade_failure s then Returned s
  else
    scoped FNonfatal (fun s =>
      match vsprintf error ap with
      | None => Undefined
      | Some error =>
          let cascade_weight := weight_for type in
          s <- (if is_default type
                then self MSG_BAD_SEVERITY GURU_WARN [] now s
                else Returned s) ;;
          s <- log error type [] now s ;;
          observe cascade_weight now s
      end) s.

(** The call in the [default] branch has type [GURU_WARN], which never
    reaches [default] itself: the recursion is one level deep. *)
Definition nonfatal_inner : string -> Z -> list Arg -> Z -> Guru -> Outcome :=
  nonfatal_body (fun _ _ _ _ s => Returned s).

(** [void nonfatal(std::string error, int type, ...)] *)
Definition nonfatal : string -> Z -> list Arg -> Z -> Guru -> Outcome :=
  nonfatal_body nonfatal_inner.

(** ** Signals *)

(** [signal(sig, d)]; [sig_err] tells for which signals the call fails. *)
Definition do_signal (sig_err : Z -> bool) (sig : Z) (d : Disposition) (s : Guru)
  : Guru :=
  if sig_err sig then s else set_signals (set_disposition sig d (signals s)) s.

(** The [switch (sig)] of [intercept_signal]. *)
Definition signal_phrase (sig : Z) : string :=
  if sig =? SIGABRT then "Software requested abort."
  else if sig =? SIGFPE then "Floating-point exception."
  else if sig =? SIGILL then "Illegal instruction."
  else if sig =? SIGSEGV then "Segmentation fault."
  else "Intercepted unknown signal.".

(** The statements of [intercept_signal] before its call of [halt], in the
    order of the source; a second signal can arrive between any two. *)
Inductive HandlerStmt : Set :=
| StStackTrace                 (* stack_trace(); *)
| StSwitch                     (* switch(sig) { ... sig_type = ...; } *)
| StIgnore (signum : Z).       (* signal(signum, SIG_IGN); *)

Record HandlerFrame : Set := mkHandlerFrame {
  hf_guru : Guru;
  hf_sig_type : string          (* the local std::string sig_type *)
}.

Definition handler_prelude : list HandlerStmt :=
  (if stack_trace_on b then [StStackTrace] else [])
    ++ [StSwitch; StIgnore SIGABRT; StIgnore SIGSEGV; StIgnore SIGILL;
        StIgnore SIGFPE].

Definition exec_stmt (sig_err : Z -> bool) (sig : Z) (f : HandlerFrame)
    (st : HandlerStmt) : HandlerFrame :=
  match st with
  | StStackTrace =>
      mkHandlerFrame (stack_push (pretty_function FInterceptSignal) (hf_guru f))
        (hf_sig_type f)
  | StSwitch => mkHandlerFrame (hf_guru f) (signal_phrase sig)
  | StIgnore signum =>
      mkHandlerFrame (do_signal sig_err signum SIG_IGN (hf_guru f)) (hf_sig_type f)
  end.

Definition exec_stmts (sig_err : Z -> bool) (sig : Z) (f : HandlerFrame)
    (sts : list HandlerStmt) : HandlerFrame :=
  fold_left (exec_stmt sig_err sig) sts f.

(** [void intercept_signal(int sig)] *)
Definition intercept_signal (sig_err : Z -> bool) (sig : Z) (now : Z) (s : Guru)
  : Outcome :=
  let f := exec_stmts sig_err sig (mkHandlerFrame s EmptyString) handler_prelude in
  s' <- halt (hf_sig_type f) [] now (hf_guru f) ;;
  Returned (leave s').

(** [if (signal(sig, intercept_signal) == SIG_ERR) halt(msg);] *)
Definition hook (sig_err : Z -> bool) (sig : Z) (msg : string) (now : Z) (s : Guru)
  : Outcome :=
  if sig_err sig then halt msg [] now s
  else Returned (do_signal sig_err sig Handler s).

(** [void open_syslog(std::string filename)]; the model has one log file,
    whose name plays no part; [can_create] tells whether the file can be
    created. *)
Definition open_syslog (can_create : bool) (sig_err : Z -> bool) (now : Z)
    (s : Guru) : Outcome :=
  let s := set_syslog (ofstream_open can_create (syslog s)) s in
  s <- log MSG_ONLINE GURU_INFO [] now s ;;
  s <- hook sig_err SIGABRT "Failed to hook abort signal." now s ;;
  s <- hook sig_err SIGSEGV "Failed to hook segfault signal." now s ;;
  s <- hook sig_err SIGILL "Failed to hook illegal instruction signal." now s ;;
  s <- hook sig_err SIGFPE "Failed to hook floating-point exception signal." now s ;;
  Returned (set_cascade_timer now s).

End Core.

(** ** Sequences of calls *)

(** One non-fatal report: its message, its variadic arguments and the
    clock reading at which it arrives. *)
Record Report : Set := mkReport {
  r_error : string;
  r_args : list Arg;
  r_now : Z
}.

(** Consecutive [nonfatal] calls of one severity; the run goes on only
    while the calls return. *)
Fixpoint run_nonfatal (b : Build) (type : Z) (rs : list Report) (s : Guru)
  : Outcome :=
  match rs with
  | [] => Returned s
  | r :: rest =>
      s1 <- nonfatal b (r_error r) type (r_args r) (r_now r) s ;;
      run_nonfatal b type rest s1
  end.

(** The message of a report is rendered by [nonfatal] and, when it reaches
    the file, once more by [log]: both renderings are defined. *)
Definition renders_twice (error : string) (ap : list Arg) : bool :=
  match vsprintf error ap with
  | Some e1 => match vsprintf e1 [] with Some _ => true | None => false end
  | None => false
  end.

(** The entry points of the system, as calls the application, a signal or
    the keyboard can make. *)
Inductive Call : Type :=
| CAffirm (condition : Z) (error : string)
| CCloseSyslog
| CConsoleReady (ready : bool)
| CHalt (error : string) (ap : list Arg)
| CHaltException (what : string)
| CInterceptSignal (sig_err : Z -> bool) (sig : Z)
| CLog (msg : string) (type : Z) (ap : list Arg)
| CNonfatal (error : string) (type : Z) (ap : list Arg)
| COpenSyslog (can_create : bool) (sig_err : Z -> bool)
| CStackPush (func : string)
| CStackPop
| CGetch (key : Z).

Definition exec_call (b : Build) (c : Call) (now : Z) (s : Guru) : Outcome :=
  match c with
  | CAffirm condition error => affirm b condition error now s
  | CCloseSyslog => close_syslog b now s
  | CConsoleReady ready => console_ready ready s
  | CHalt error ap => halt b error ap now s
  | CHaltException what => halt_exception b what now s
  | CInterceptSignal sig_err sig => intercept_signal b sig_err sig now s
  | CLog msg type ap => log msg type ap now s
  | CNonfatal error type ap => nonfatal b error type ap now s
  | COpenSyslog can_create sig_err => open_syslog b can_create sig_err now s
  | CStackPush func => Returned (stack_push func s)
  | CStackPop => Returned (stack_pop s)
  | CGetch key => presenter_getch b key now s
  end.

(** A [nonfatal] call that does not return has entered [halt] through the
    cascade detector. *)
Definition is_cascade_halt (c : Call) (o : Outcome) : bool :=
  match c, o with
  | CNonfatal _ _ _, Exited _ _ => true
  | CNonfatal _ _ _, Presenting _ => true
  | _, _ => false
  end.

(** The number of cascade halts in a sequence of timed calls.  The sequence
    is followed through every outcome that leaves a state, so that calls
    re-entering the system while a notice is shown are covered too. *)
Fixpoint cascade_halts (b : Build) (calls : list (Z * Call)) (s : Guru) : nat :=
  match calls with
  | [] => 0%nat
  | (now, c) :: rest =>
      let o := exec_call b c now s in
      ((if is_cascade_halt c o then 1 else 0)
       + match outcome_state o with
         | Some s' => cascade_halts b rest s'
         | None => 0
         end)%nat
  end.

(** The sink takes a line: the file is open and the stream has no error. *)
Definition sink_ready (s : Guru) : bool :=
  is_open (syslog s) && negb (failbit (syslog s)).

(** The trace the drain is expected to write for a stack [fs] (top first):
    one line per frame, labelled with depths from [length fs - 1] down to 0. *)
Fixpoint expected_trace (now : Z) (fs : list string) : list string :=
  match fs with
  | [] => []
  | top :: below =>
      log_line now GURU_STACK (to_string (List.length below) ++ ": " ++ top)
        :: expected_trace now below
  end.


(** The state after [log] has written the rendered text [m]. *)
Definition logged (now type : Z) (m : string) (s : Guru) : Guru :=
  set_syslog (mkOfstream true false (lines (syslog s) ++ [log_line now type m]))
    (set_last_log_message m s).

(** The cascade detector and the halt flag are as in [s0]. *)
Definition cascade_eq (s0 s : Guru) : Prop :=
  cascade_count s = cascade_count s0 /\
  cascade_failure s = cascade_failure s0 /\
  cascade_timer s = cascade_timer s0 /\
  dead_already s = dead_already s0.

(** [R] holds of the state an outcome leaves, if it leaves one. *)
Definition post (R : Guru -> Prop) (o : Outcome) : Prop :=
  match outcome_state o with
  | Some s' => R s'
  | None => True
  end.

(** A report arrives inside the window started at [timer], as [nonfatal]
    tests it, and its message renders. *)
Definition report_ok (timer : Z) (r : Report) : bool :=
  within_timeout (r_now r) timer && renders_twice (r_error r) (r_args r).

(** How many reports of one severity the threshold absorbs. *)
Definition reports_to_threshold (type : Z) : nat :=
  Z.to_nat (CASCADE_THRESHOLD / weight_for type).

(** An outcome that ended in [halt] left the cascade declared. *)
Definition tripped_if_halted (o : Outcome) : Prop :=
  match o with
  | Exited _ s' | Presenting s' => cascade_failure s' = true
  | Returned _ | Undefined => True
  end.

Definition is_digit (c : ascii) : bool :=
  ((48 <=? nat_of_ascii c) && (nat_of_ascii c <=? 57))%nat.

(** The leading run of decimal digits of a text. *)
Fixpoint digits_prefix (s : string) : string :=
  match s with
  | EmptyString => EmptyString
  | String c rest => if is_digit c then String c (digits_prefix rest) else EmptyString
  end.

(** The line announcing the trace, unless [log] drops it as a repeat. *)
Definition trace_header (now : Z) (s : Guru) : list string :=
  if String.eqb MSG_TRACE_FOLLOWS (last_log_message s) then []
  else [log_line now GURU_STACK MSG_TRACE_FOLLOWS].

(** ** Concrete builds and states used in the examples *)

Definition build_default : Build := mkBuild Headless false.
Definition build_curses : Build := mkBuild Curses false.
Definition build_traced : Build := mkBuild Headless true.

Definition signal_succeeds (sig : Z) : bool := false.

(** 01:01:01 on the first day of the epoch. *)
Definition T0 : Z := 3661 * TICKS_PER_SECOND.

(** The state [open_syslog] leaves when the file can be created and the
    four signals can be hooked. *)
Definition opened (b : Build) : Guru :=
  match open_syslog b true signal_succeeds T0 guru_init with
  | Returned s => s
  | _ => guru_init
  end.

Definition all_ignored : SignalTable :=
  mkSignalTable SIG_IGN SIG_IGN SIG_IGN SIG_IGN.

Definition all_hooked : SignalTable :=
  mkSignalTable Handler Handler Handler Handler.

(** Curses build, log open, [console_ready(true)] called. *)
Definition presentable : Guru := set_fully_active true (opened build_curses).

(** Twenty warnings inside the window. *)
Definition twenty_warnings : list Report :=
  repeat (mkReport "disk is slow" [] T0) 20.

(** The state after those twenty warnings: pressure 20, no cascade. *)
Definition pressured (b : Build) : Guru :=
  match run_nonfatal b GURU_WARN twenty_warnings (opened b) with
  | Returned s => s
  | _ => guru_init
  end.

(** Five, then a sixth, Critical report inside the window: the last two
    arrive 29 seconds after the window started. *)
Definition five_criticals : list Report :=
  [mkReport "texture %d missing" [ArgInt 1] T0;
   mkReport "texture %d missing" [ArgInt 2] T0;
   mkReport "texture %d missing" [ArgInt 3] (T0 + TICKS_PER_SECOND);
   mkReport "texture %d missing" [ArgInt 4] (T0 + 2 * TICKS_PER_SECOND);
   mkReport "texture %d missing" [ArgInt 5] (T0 + 29 * TICKS_PER_SECOND)].

Definition sixth_critical : Report :=
  mkReport "texture %d missing" [ArgInt 6] (T0 + 29 * TICKS_PER_SECOND).

(** A state with three frames on the stack: [main] called [run], which
    called [load]. *)
Definition three_deep : Guru :=
  stack_push "void load()" (stack_push "void run()" (stack_push "int main()"
    (opened build_traced))).

(** The state in which the Curses front end shows the notice of a cascade:
    console ready, twenty warnings absorbed, and a twenty-first one. *)
Definition declared : Guru :=
  match nonfatal build_curses "disk is slow" GURU_WARN [] T0
          (set_fully_active true (pressured build_curses)) with
  | Presenting s => s
  | _ => guru_init
  end.

(** The state after one warning, twenty seconds into the window. *)
Definition after_one_warning : Guru :=
  match nonfatal build_default "disk is slow" GURU_WARN []
          (T0 + 20 * TICKS_PER_SECOND) (opened build_default) with
  | Returned s => s
  | _ => guru_init
  end.

(** A storm of Critical reports that goes on after the cascade, with a key
    press in between. *)
Definition stormy_calls : list (Z * Call) :=
  [(T0, CNonfatal "a" GURU_CRITICAL []);
   (T0, CNonfatal "b" GURU_CRITICAL []);
   (T0, CNonfatal "c" GURU_CRITICAL []);
   (T0, CNonfatal "d" GURU_CRITICAL []);
   (T0, CNonfatal "e" GURU_CRITICAL []);
   (T0, CNonfatal "f" GURU_CRITICAL []);
   (T0, CNonfatal "g" GURU_CRITICAL []);
   (T0, CGetch KEY_RESIZE);
   (T0, CNonfatal "h" GURU_CRITICAL [])].

(** ** Relations between the states before and after a call *)

(** The log file of [s] is that of [s0] with lines added at its end. *)
Definition log_grows (s0 s : Guru) : Prop :=
  exists l, lines (syslog s) = (lines (syslog s0) ++ l)%list.

(** What stands around the error state proper: the signal dispositions,
    the readiness flag and whether the log file is open. *)
Definition surroundings_eq (s0 s : Guru) : Prop :=
  signals s = signals s0 /\
  fully_active s = fully_active s0 /\
  is_open (syslog s) = is_open (syslog s0).

(** [P] holds of the state a call returns with, if it returns. *)
Definition returns_with (P : Guru -> Prop) (o : Outcome) : Prop :=
  match o with
  | Returned s' => P s'
  | _ => True
  end.

(** The pressure is a small natural number, and exceeds the threshold only
    once the cascade is declared. *)
Definition pressure_in_range (s : Guru) : Prop :=
  0 <= cascade_count s <= CASCADE_THRESHOLD + CASCADE_WEIGHT_CRITICAL /\
  (cascade_failure s = false -> cascade_count s <= CASCADE_THRESHOLD).

(** The one entry point that starts the log file afresh. *)
Definition reopens_log (c : Call) : bool :=
  match c with
  | COpenSyslog _ _ => true
  | _ => false
  end.

(** The entry points whose purpose is to change the surroundings: opening
    and closing the log, marking the console ready, catching a signal, and
    the key that ends the notice (it closes the log). *)
Definition manages_surroundings (c : Call) : bool :=
  match c with
  | CCloseSyslog | CConsoleReady _ | CInterceptSignal _ _
  | COpenSyslog _ _ | CGetch _ => true
  | _ => false
  end.

(** Everything but the log file, the last logged text and the stack. *)
Definition core_eq (s0 s : Guru) : Prop :=
  cascade_eq s0 s /\
  surroundings_eq s0 s /\
  message s = message s0 /\
  terminal s = terminal s0.

(** [halt] in two parts: what it writes to the log (banner, message,
    trace), and what it does next (exit or notice).  [e] is the message as
    rendered by [halt]. *)
Definition halt_prologue (b : Build) (e : string) (now : Z) (s : Guru) : Outcome :=
  s <- log BANNER GURU_CRITICAL [] now s ;;
  s <- log e GURU_CRITICAL [] now s ;;
  (if stack_trace_on b then drain_stack now s else Returned s).

Definition halt_epilogue (b : Build) (e : string) (now : Z) (s : Guru) : Outcome :=
  if (is_curses b && negb (fully_active s))%bool then Exited EXIT_FAILURE s
  else if dead_already s then
    s <- log MSG_DIE_PEACEFULLY GURU_WARN [] now s ;;
    Exited EXIT_FAILURE s
  else present b (set_message e s).

(** An outcome that is an exit is an exit with the failure status. *)
Definition exits_with_failure (o : Outcome) : Prop :=
  match o with
  | Exited code _ => code = EXIT_FAILURE
  | _ => True
  end.

(** Every frame name on the stack is free of [%]. *)
Definition frames_plain (s : Guru) : Prop :=
  Forall (fun f => plain f = true) (funcs s).

(** A message in a state with the console ready, for the Curses front end. *)
Definition long_message : string :=
  "The quick brown fox jumps over the lazy dog near the river bank".

(** The calls that feed the cascade detector. *)
Definition is_nonfatal (c : Call) : bool :=
  match c with
  | CNonfatal _ _ _ => true
  | _ => false
  end.

(** The pressure and the cascade flag are as in [s0]. *)
Definition pressure_eq (s0 s : Guru) : Prop :=
  cascade_count s = cascade_count s0 /\ cascade_failure s = cascade_failure s0.

(** The outcome leaves the pressure in range, and a call that returns
    leaves the cascade undeclared. *)
Definition keeps_pressure_in_range (o : Outcome) : Prop :=
  post pressure_in_range o /\
  returns_with (fun s => cascade_failure s = false) o.

(** The constructor and the destructor of a [StackTrace] guard, as calls
    of the application. *)
Definition is_guard (c : Call) : bool :=
  match c with
  | CStackPush _ | CStackPop => true
  | _ => false
  end.

(** The stack of [s] is that of [s0]. *)
Definition stack_eq (s0 s : Guru) : Prop := funcs s = funcs s0.

(** Consecutive [log] calls of one message without arguments, each with its
    severity and clock reading. *)
Fixpoint log_each (msg : string) (calls : list (Z * Z)) (s : Guru) : Outcome :=
  match calls with
  | [] => Returned s
  | (type, now) :: rest =>
      s1 <- log msg type [] now s ;; log_each msg rest s1
  end.

(** Whether [signal] fails for one of the four signals the system hooks. *)
Definition some_hook_fails (sig_err : Z -> bool) : bool :=
  sig_err SIGABRT || sig_err SIGSEGV || sig_err SIGILL || sig_err SIGFPE.

(** ** Release 1.2

    The older generation of the file (version 1.2 of guru.cpp with the
    header of version 1.0).  It has no printf-style rendering, always
    compiles the stack trace, knows the console and the Curses front ends
    only, and ends [halt] without an [exit] when neither is chosen.  The
    state, the log line and the stack are those of release 1.3; [log_1_2]
    is defined above. *)

Definition FRAME_CLOSE_1_2 : string := "void guru::close_syslog()".
Definition FRAME_HALT_1_2 : string := "void guru::halt(std::string)".
Definition FRAME_NONFATAL_1_2 : string := "void guru::nonfatal(std::string, int)".
Definition MSG_LOOP : string := "loop".

(** [stack_trace();] at the head of a function of release 1.2. *)
Definition scoped_1_2 (frame : string) (body : Guru -> Outcome) (s : Guru)
  : Outcome :=
  s' <- body (stack_push frame s) ;; Returned (stack_pop s').

(** The lambda [guru_itos] of [halt]: the number in decimal.  Its own
    [stack_trace()] pushes a frame that is popped again before it returns. *)
Definition guru_itos (num : nat) : string := to_string num.

Fixpoint drain_loop_1_2 (fs : list string) (now : Z) (s : Guru) : Outcome :=
  match fs with
  | [] => Returned s   (* the loop is only entered on a non-empty stack *)
  | top :: below =>
      s1 <- log_1_2 (guru_itos (List.length fs - 1) ++ ": " ++ top) GURU_STACK now s ;;
      match below with
      | [] => Returned s1
      | _ :: _ => drain_loop_1_2 below now (set_funcs below s1)
      end
  end.

Definition drain_stack_1_2 (now : Z) (s : Guru) : Outcome :=
  match funcs s with
  | [] => Returned s
  | _ :: _ =>
      s1 <- log_1_2 MSG_TRACE_FOLLOWS GURU_STACK now s ;;
      drain_loop_1_2 (funcs s1) now s1
  end.

(** [void close_syslog()] of release 1.2 *)
Definition close_syslog_1_2 (now : Z) (s : Guru) : Outcome :=
  scoped_1_2 FRAME_CLOSE_1_2 (fun s =>
    s <- log_1_2 MSG_SHUTTING_DOWN GURU_INFO now s ;;
    s <- log_1_2 MSG_SILENCE GURU_INFO now s ;;
    Returned (set_syslog (ofstream_close (syslog s)) s)) s.

(** The tail of [halt] of release 1.2 after [message = error].  The Curses
    loop starts each pass with [log("loop")].  A build with neither front
    end reaches the end of the function. *)
Definition present_1_2 (b : Build) (now : Z) (s : Guru) : Outcome :=
  match frontend b with
  | Console =>
      match format (message s ++ newline) [] with
      | None => Undefined
      | Some out =>
          Exited 1 (set_terminal (terminal s ++ [BANNER ++ newline; out]) s)
      end
  | Curses =>
      let s1 :=
        if (39 <? String.length (message s))%nat
        then set_message (substring 0 39 (message s)) s else s in
      s2 <- log_1_2 MSG_LOOP GURU_INFO now s1 ;;
      Presenting (draw_curses s2)
  | Headless | Libtcod => Returned s
  end.

(** [void halt(std::string error)] of release 1.2 *)
Definition halt_1_2 (b : Build) (error : string) (now : Z) (s : Guru) : Outcome :=
  scoped_1_2 FRAME_HALT_1_2 (fun s =>
    s <- log_1_2 BANNER GURU_CRITICAL now s ;;
    s <- log_1_2 error GURU_CRITICAL now s ;;
    s <- drain_stack_1_2 now s ;;
    if (is_curses b && negb (fully_active s))%bool then Exited 1 s
    else if dead_already s then
      s <- log_1_2 MSG_DIE_PEACEFULLY GURU_WARN now s ;;
      Exited 1 s
    else present_1_2 b now (set_message error s)) s.


(** [if (cascade_weight) { ... }] of release 1.2 *)
Definition observe_1_2 (b : Build) (cascade_weight : Z) (now : Z) (s : Guru)
  : Outcome :=
  if cascade_weight =? 0 then Returned s
  else if within_timeout now (cascade_timer s) then
    let s1 := set_cascade_count ((cascade_count s + cascade_weight) mod UINT_MODULUS) s in
    if CASCADE_THRESHOLD <? cascade_count s1 then
      halt_1_2 b MSG_CASCADE now (set_cascade_failure true s1)
    else Returned s1
  else Returned (set_cascade_count 0 (set_cascade_timer now s)).

Definition nonfatal_body_1_2 (b : Build)
    (self : string -> Z -> Z -> Guru -> Outcome)
    (error : string) (type : Z) (now : Z) (s : Guru) : Outcome :=
  if cascade_failure s then Returned s
  else
    scoped_1_2 FRAME_NONFATAL_1_2 (fun s =>
      let cascade_weight := weight_for type in
      s <- (if is_default type
            then self MSG_BAD_SEVERITY GURU_WARN now s
            else Returned s) ;;
      s <- log_1_2 error type now s ;;
      observe_1_2 b cascade_weight now s) s.

Definition nonfatal_inner_1_2 (b : Build) : string -> Z -> Z -> Guru -> Outcome :=
  nonfatal_body_1_2 b (fun _ _ _ s => Returned s).

(** [void nonfatal(std::string error, int type)] of release 1.2 *)
Definition nonfatal_1_2 (b : Build) : string -> Z -> Z -> Guru -> Outcome :=
  nonfatal_body_1_2 b (nonfatal_inner_1_2 b).

(** A build of release 1.2 that chooses no front end. *)
Definition no_front_end_1_2 (b : Build) : bool :=
  match frontend b with
  | Console | Curses => false
  | Headless | Libtcod => true
  end.

(** ** More concrete builds and states for the examples *)

Definition build_console : Build := mkBuild Console false.

(** The state an outcome leaves, for outcomes known to leave one. *)
Definition state_after (o : Outcome) : Guru :=
  match outcome_state o with
  | Some s => s
  | None => guru_init
  end.

(** [signal] fails for SIGILL only. *)
Definition sigill_fails (sig : Z) : bool := sig =? SIGILL.

(** A mixed sequence of severities and times for one message. *)
Definition four_times : list (Z * Z) :=
  [(GURU_ERROR, T0 + TICKS_PER_SECOND);
   (GURU_CRITICAL, T0 + 2 * TICKS_PER_SECOND);
   (GURU_INFO, T0 + 3 * TICKS_PER_SECOND)].
(** ** Single-precision arithmetic and the window test *)

Section SinglePrecision.

Local Open Scope Q_scope.

Lemma two_pow_pos (n : Z) : 0 < 2 ^ n.
Proof. apply Qpower_0_lt. reflexivity. Qed.

Lemma two_pow_succ (n : Z) : 2 ^ (n + 1) == 2 * 2 ^ n.
Proof. rewrite Qpower_plus by discriminate. change (2 ^ 1) with 2. ring. Qed.

Lemma two_pow_add (n m : Z) : 2 ^ (n + m) == 2 ^ n * 2 ^ m.
Proof. apply Qpower_plus. discriminate. Qed.

Lemma two_pow_mono (n m : Z) : (n <= m)%Z -> 2 ^ n <= 2 ^ m.
Proof. intros H. apply Qpower_le_compat_l; [exact H | discriminate]. Qed.

Lemma two_pow_inject (n : Z) : (0 <= n)%Z -> inject_Z (2 ^ n) == 2 ^ n.
Proof. intros H. now rewrite Zpower_Qpower. Qed.

Lemma ilogb_spec (x : Q) :
  0 < x -> 2 ^ ilogb x <= x /\ x < 2 ^ (ilogb x + 1).
Proof.
  intros Hx. destruct x as [p q].
  assert (Hp : (0 < p)%Z).
  { unfold Qlt in Hx. cbn in Hx. lia. }
  unfold ilogb. cbn [Qnum Qden].
  set (lp := Z.log2 p). set (lq := Z.log2 (Z.pos q)).
  destruct (Z.log2_spec p Hp) as [Hp1 Hp2]. fold lp in Hp1, Hp2.
  destruct (Z.log2_spec (Z.pos q) eq_refl) as [Hq1 Hq2]. fold lq in Hq1, Hq2.
  assert (Hlp : (0 <= lp)%Z) by apply Z.log2_nonneg.
  assert (Hlq : (0 <= lq)%Z) by apply Z.log2_nonneg.
  assert (Ep : inject_Z p == (p # q) * inject_Z (Z.pos q)).
  { unfold Qeq, Qmult, inject_Z. cbn. lia. }
  assert (Hq0 : 0 < inject_Z (Z.pos q)) by reflexivity.
  rewrite Zle_Qle, two_pow_inject in Hp1 by exact Hlp.
  rewrite Zlt_Qlt, two_pow_inject in Hp2 by lia.
  rewrite Zle_Qle, two_pow_inject in Hq1 by exact Hlq.
  rewrite Zlt_Qlt, two_pow_inject in Hq2 by lia.
  replace (Z.succ lp) with (lp + 1)%Z in Hp2 by lia.
  replace (Z.succ lq) with (lq + 1)%Z in Hq2 by lia.
  rewrite two_pow_succ in Hp2, Hq2.
  assert (Ek : 2 ^ lp == 2 ^ (lp - lq) * 2 ^ lq).
  { rewrite <- two_pow_add. now replace (lp - lq + lq)%Z with lp by lia. }
  pose proof (two_pow_pos (lp - lq)) as Hk.
  pose proof (two_pow_pos lq) as Hc.
  set (P := inject_Z p) in *. set (D := inject_Z (Z.pos q)) in *.
  set (a := 2 ^ lp) in *. set (c := 2 ^ lq) in *. set (k := 2 ^ (lp - lq)) in *.
  set (x := p # q) in *.
  destruct (Qle_bool k x) eqn:E.
  - apply Qle_bool_iff in E. split; [exact E|].
    rewrite two_pow_succ. fold k.
    apply Qnot_le_lt. intros N.
    assert (2 * k * D <= x * D) by (apply Qmult_le_compat_r; lra).
    assert (2 * k * c < 2 * k * D \/ c == D) by nra.
    nra.
  - assert (Hlt : x < k).
    { apply Qnot_le_lt. intros N. apply Qle_bool_iff in N. congruence. }
    split.
    + assert (Ek' : k == 2 * 2 ^ (lp - lq - 1)).
      { unfold k. rewrite <- two_pow_succ. now replace (lp - lq - 1 + 1)%Z with (lp - lq)%Z by lia. }
      set (k' := 2 ^ (lp - lq - 1)) in *.
      apply Qnot_lt_le. intros N.
      assert (x * D < k' * D) by (apply Qmult_lt_compat_r; lra).
      nra.
    + replace (lp - lq - 1 + 1)%Z with (lp - lq)%Z by lia. exact Hlt.
Qed.

Lemma rint_cases (x : Q) : rint x = Qfloor x \/ rint x = (Qfloor x + 1)%Z.
Proof.
  unfold rint. destruct (x - inject_Z (Qfloor x) ?= 1 # 2); auto.
  destruct (Z.even (Qfloor x)); auto.
Qed.

Lemma rint_le (x : Q) (k : Z) : x < inject_Z k + (1 # 2) -> (rint x <= k)%Z.
Proof.
  intros H. pose proof (Qfloor_le x) as Hf.
  unfold rint. set (f := Qfloor x) in *.
  assert (Hfk : (f <= k)%Z).
  { apply Z.lt_succ_r. rewrite Zlt_Qlt. unfold Z.succ. rewrite inject_Z_plus.
    change (inject_Z 1) with 1. lra. }
  destruct (x - inject_Z f ?= 1 # 2) eqn:E.
  - apply Qeq_alt in E.
    assert (f < k)%Z.
    { rewrite Zlt_Qlt. lra. }
    destruct (Z.even f); lia.
  - exact Hfk.
  - apply Qgt_alt in E.
    assert (f < k)%Z.
    { rewrite Zlt_Qlt. lra. }
    lia.
Qed.

Lemma rint_ge (x : Q) (k : Z) : inject_Z k - (1 # 2) < x -> (k <= rint x)%Z.
Proof.
  intros H. pose proof (Qlt_floor x) as Hf.
  unfold rint. set (f := Qfloor x) in *.
  rewrite inject_Z_plus in Hf. change (inject_Z 1) with 1 in Hf.
  destruct (x - inject_Z f ?= 1 # 2) eqn:E.
  - apply Qeq_alt in E.
    assert (k < f + 1)%Z.
    { rewrite Zlt_Qlt. rewrite inject_Z_plus. change (inject_Z 1) with 1. lra. }
    destruct (Z.even f); lia.
  - apply Qlt_alt in E.
    assert (k < f + 1)%Z.
    { rewrite Zlt_Qlt. rewrite inject_Z_plus. change (inject_Z 1) with 1. lra. }
    lia.
  - assert (k < f + 1 + 1)%Z.
    { rewrite Zlt_Qlt. rewrite !inject_Z_plus. change (inject_Z 1) with 1. lra. }
    lia.
Qed.

(** The significand of a positive number lies in [2^23, 2^24]. *)
Lemma significand_range (x : Q) :
  0 < x ->
  let e := (ilogb x - (FLT_MANT_DIG - 1))%Z in
  (inject_Z (2 ^ 23) <= x / 2 ^ e /\ x / 2 ^ e < inject_Z (2 ^ 24)) /\
  (inject_Z (2 ^ 23) * 2 ^ e <= x /\ x < inject_Z (2 ^ 24) * 2 ^ e).
Proof.
  intros Hx e. destruct (ilogb_spec x Hx) as [H1 H2].
  pose proof (two_pow_pos e) as He.
  assert (E1 : 2 ^ ilogb x == 2 ^ e * inject_Z (2 ^ 23)).
  { rewrite two_pow_inject by lia. rewrite <- two_pow_add.
    unfold e, FLT_MANT_DIG. now replace (ilogb x - (24 - 1) + 23)%Z with (ilogb x) by lia. }
  assert (E2 : 2 ^ (ilogb x + 1) == 2 ^ e * inject_Z (2 ^ 24)).
  { rewrite two_pow_inject by lia. rewrite <- two_pow_add.
    unfold e, FLT_MANT_DIG. now replace (ilogb x - (24 - 1) + 24)%Z with (ilogb x + 1)%Z by lia. }
  rewrite E1 in H1. rewrite E2 in H2.
  repeat split.
  - apply Qle_shift_div_l; [exact He|]. lra.
  - apply Qlt_shift_div_r; [exact He|]. lra.
  - lra.
  - lra.
Qed.

Lemma round_magnitude_pos (x : Q) : 0 < x -> 0 < round_magnitude x.
Proof.
  intros Hx. unfold round_magnitude.
  destruct (significand_range x Hx) as [[H1 _] _].
  set (e := (ilogb x - (FLT_MANT_DIG - 1))%Z) in *.
  assert (2 ^ 23 <= rint (x / 2 ^ e))%Z.
  { apply rint_ge. lra. }
  apply Qmult_lt_0_compat; [|apply two_pow_pos].
  change 0 with (inject_Z 0). rewrite <- Zlt_Qlt. lia.
Qed.

(** Rounding does not cross a representable number: a number below the
    midpoint above [m * 2^e] rounds to at most [m * 2^e]. *)
Lemma round_magnitude_le (x : Q) (m e : Z) :
  0 < x -> (2 ^ 23 <= m < 2 ^ 24)%Z ->
  x < (inject_Z m + (1 # 2)) * 2 ^ e ->
  round_magnitude x <= inject_Z m * 2 ^ e.
Proof.
  intros Hx Hm H. unfold round_magnitude.
  destruct (significand_range x Hx) as [[H1 H2] [Hx1 Hx2]].
  set (ex := (ilogb x - (FLT_MANT_DIG - 1))%Z) in *.
  pose proof (two_pow_pos ex) as Hex. pose proof (two_pow_pos e) as He.
  assert (Hm1 : inject_Z (2 ^ 23) <= inject_Z m) by (rewrite <- Zle_Qle; lia).
  assert (Hm2 : inject_Z m + 1 <= inject_Z (2 ^ 24)).
  { change 1 with (inject_Z 1). rewrite <- inject_Z_plus. rewrite <- Zle_Qle. lia. }
  destruct (Z.lt_trichotomy ex e) as [L | [-> | G]].
  - assert (Hr : (rint (x / 2 ^ ex) <= 2 ^ 24)%Z) by (apply rint_le; lra).
    rewrite Zle_Qle in Hr.
    assert (Hp : 2 ^ (ex + 1) <= 2 ^ e) by (apply two_pow_mono; lia).
    rewrite two_pow_succ in Hp.
    apply Qle_trans with (inject_Z (2 ^ 24) * 2 ^ ex).
    + apply Qmult_le_compat_r; [exact Hr | lra].
    + apply Qle_trans with (inject_Z (2 ^ 23) * 2 ^ e).
      * change (inject_Z (2 ^ 24)) with (2 * inject_Z (2 ^ 23)).
        change (inject_Z (2 ^ 23)) with 8388608. lra.
      * apply Qmult_le_compat_r; [exact Hm1 | lra].
  - assert (Hr : (rint (x / 2 ^ e) <= m)%Z).
    { apply rint_le. apply Qlt_shift_div_r; [exact He | exact H]. }
    rewrite Zle_Qle in Hr. apply Qmult_le_compat_r; [exact Hr | lra].
  - exfalso.
    assert (Hp : 2 ^ (e + 1) <= 2 ^ ex) by (apply two_pow_mono; lia).
    rewrite two_pow_succ in Hp.
    assert (Hx3 : (inject_Z m + 1) * 2 ^ e <= inject_Z (2 ^ 24) * 2 ^ e).
    { apply Qmult_le_compat_r; [exact Hm2 | lra]. }
    change (inject_Z (2 ^ 24)) with (2 * 8388608) in Hx3.
    change (inject_Z (2 ^ 23)) with 8388608 in Hx1.
    nra.
Qed.

(** A number above the midpoint below [m * 2^e] rounds to at least
    [m * 2^e]. *)
Lemma round_magnitude_ge (x : Q) (m e : Z) :
  0 < x -> (2 ^ 23 < m <= 2 ^ 24)%Z ->
  (inject_Z m - (1 # 2)) * 2 ^ e < x ->
  inject_Z m * 2 ^ e <= round_magnitude x.
Proof.
  intros Hx Hm H. unfold round_magnitude.
  destruct (significand_range x Hx) as [[H1 H2] [Hx1 Hx2]].
  set (ex := (ilogb x - (FLT_MANT_DIG - 1))%Z) in *.
  pose proof (two_pow_pos ex) as Hex. pose proof (two_pow_pos e) as He.
  assert (Hm1 : inject_Z (2 ^ 23) <= inject_Z m - 1).
  { change 1 with (inject_Z 1). unfold Qminus. rewrite <- inject_Z_opp, <- inject_Z_plus.
    rewrite <- Zle_Qle. lia. }
  assert (Hm2 : inject_Z m <= inject_Z (2 ^ 24)) by (rewrite <- Zle_Qle; lia).
  destruct (Z.lt_trichotomy ex e) as [L | [-> | G]].
  - exfalso.
    assert (Hp : 2 ^ (ex + 1) <= 2 ^ e) by (apply two_pow_mono; lia).
    rewrite two_pow_succ in Hp.
    assert (Hx3 : inject_Z (2 ^ 23) * 2 ^ e <= (inject_Z m - 1) * 2 ^ e).
    { apply Qmult_le_compat_r; [exact Hm1 | lra]. }
    change (inject_Z (2 ^ 24)) with (2 * 8388608) in Hx2.
    change (inject_Z (2 ^ 23)) with 8388608 in Hx3.
    nra.
  - assert (Hr : (m <= rint (x / 2 ^ e))%Z).
    { apply rint_ge. apply Qlt_shift_div_l; [exact He | exact H]. }
    rewrite Zle_Qle in Hr. apply Qmult_le_compat_r; [exact Hr | lra].
  - assert (Hr : (2 ^ 23 <= rint (x / 2 ^ ex))%Z) by (apply rint_ge; lra).
    rewrite Zle_Qle in Hr.
    assert (Hp : 2 ^ (e + 1) <= 2 ^ ex) by (apply two_pow_mono; lia).
    rewrite two_pow_succ in Hp.
    apply Qle_trans with (inject_Z (2 ^ 23) * 2 ^ ex).
    + apply Qle_trans with (inject_Z (2 ^ 24) * 2 ^ e).
      * apply Qmult_le_compat_r; [exact Hm2 | lra].
      * change (inject_Z (2 ^ 24)) with (2 * inject_Z (2 ^ 23)).
        change (inject_Z (2 ^ 23)) with 8388608. lra.
    + apply Qmult_le_compat_r; [exact Hr | lra].
Qed.

Lemma to_float_of_pos (x : Q) : 0 < x -> to_float x = round_magnitude x.
Proof.
  destruct x as [[|p|p] q]; intros H; try reflexivity; discriminate H.
Qed.

Lemma to_float_nonpos (x : Q) : x <= 0 -> to_float x <= 0.
Proof.
  destruct x as [[|p|p] q]; intros H; unfold to_float; cbn [Qnum].
  - apply Qle_refl.
  - exfalso. apply H. reflexivity.
  - assert (P : 0 < round_magnitude (- (Z.neg p # q))).
    { apply round_magnitude_pos. reflexivity. }
    lra.
Qed.

Lemma float_of_TICKS_PER_SECOND :
  float_of_Z TICKS_PER_SECOND = inject_Z 1000000000.
Proof. vm_compute. reflexivity. Qed.

Lemma float_of_CASCADE_TIMEOUT : float_of_Z CASCADE_TIMEOUT == 30.
Proof. vm_compute. reflexivity. Qed.

Lemma Qle_bool_false (x y : Q) : y < x -> Qle_bool x y = false.
Proof.
  intros H. destruct (Qle_bool x y) eqn:E; [|reflexivity].
  apply Qle_bool_iff in E. lra.
Qed.

(** The window test in ticks: thirty seconds sharp are already outside,
    because 30 000 000 000 rounds up to 30 000 001 024 in single
    precision. *)
Lemma within_timeout_ticks (now timer : Z) :
  within_timeout now timer
  = (now - timer <? CASCADE_TIMEOUT * TICKS_PER_SECOND)%Z.
Proof.
  unfold within_timeout, elapsed_seconds, float_div.
  rewrite float_of_TICKS_PER_SECOND.
  change (CASCADE_TIMEOUT * TICKS_PER_SECOND)%Z with 30000000000%Z.
  set (t := (now - timer)%Z).
  assert (Hc : 0 < inject_Z 1000000000) by reflexivity.
  destruct (Z.ltb_spec t 30000000000) as [Hlt | Hge].
  - apply Qle_bool_iff. rewrite float_of_CASCADE_TIMEOUT.
    destruct (Z.le_gt_cases t 0) as [Hneg | Hpos].
    + apply Qle_trans with 0; [|discriminate].
      apply to_float_nonpos.
      assert (Hx : float_of_Z t <= 0).
      { apply to_float_nonpos. change 0 with (inject_Z 0). rewrite <- Zle_Qle. exact Hneg. }
      apply Qle_shift_div_r; [exact Hc | lra].
    + assert (Ht : 0 < inject_Z t).
      { change 0 with (inject_Z 0). rewrite <- Zlt_Qlt. lia. }
      assert (Ht' : inject_Z t <= inject_Z 29999999999).
      { rewrite <- Zle_Qle. lia. }
      assert (Hx0 : 0 < float_of_Z t).
      { unfold float_of_Z. rewrite to_float_of_pos by exact Ht.
        now apply round_magnitude_pos. }
      assert (Hx1 : float_of_Z t <= inject_Z 14648437 * 2 ^ 11).
      { unfold float_of_Z. rewrite to_float_of_pos by exact Ht.
        apply round_magnitude_le; [exact Ht | lia |].
        assert (E : ((inject_Z 14648437 + (1 # 2)) * 2 ^ 11) == (30000000000 # 1)) by (vm_compute; reflexivity).
      rewrite E; clear E.
        change (inject_Z 29999999999) with (29999999999 # 1) in Ht'. lra. }
      assert (E : (inject_Z 14648437 * 2 ^ 11) == (29999998976 # 1)) by (vm_compute; reflexivity).
      rewrite E in Hx1; clear E.
      set (x := float_of_Z t) in *.
      assert (Hq0 : 0 < x / inject_Z 1000000000).
      { apply Qlt_shift_div_l; [exact Hc | lra]. }
      assert (Hq1 : x / inject_Z 1000000000 <= 29999998976 # 1000000000).
      { apply Qle_shift_div_r; [exact Hc|].
        assert (E : ((29999998976 # 1000000000) * inject_Z 1000000000) == (29999998976000000000 # 1000000000)) by (vm_compute; reflexivity).
      rewrite E; clear E.
        lra. }
      rewrite to_float_of_pos by exact Hq0.
      apply Qle_trans with (inject_Z 15728640 * 2 ^ (-19)); [|discriminate].
      apply round_magnitude_le; [exact Hq0 | lia |].
      assert (E : ((inject_Z 15728640 + (1 # 2)) * 2 ^ (-19)) == (31457281 # 1048576)) by (vm_compute; reflexivity).
      rewrite E; clear E.
      lra.
  - apply Qle_bool_false. rewrite float_of_CASCADE_TIMEOUT.
    destruct (Z.eq_dec t 30000000000) as [-> | Hne].
    + vm_compute. reflexivity.
    + assert (Ht : 0 < inject_Z t).
      { change 0 with (inject_Z 0). rewrite <- Zlt_Qlt. lia. }
      assert (Ht' : inject_Z 30000000001 <= inject_Z t).
      { rewrite <- Zle_Qle. lia. }
      assert (Hx1 : inject_Z 14648438 * 2 ^ 11 <= float_of_Z t).
      { unfold float_of_Z. rewrite to_float_of_pos by exact Ht.
        apply round_magnitude_ge; [exact Ht | lia |].
        assert (E : ((inject_Z 14648438 - (1 # 2)) * 2 ^ 11) == (30000000000 # 1)) by (vm_compute; reflexivity).
      rewrite E; clear E.
        change (inject_Z 30000000001) with (30000000001 # 1) in Ht'. lra. }
      assert (E : (inject_Z 14648438 * 2 ^ 11) == (30000001024 # 1)) by (vm_compute; reflexivity).
      rewrite E in Hx1; clear E.
      set (x := float_of_Z t) in *.
      assert (Hq1 : (30000001024 # 1000000000) <= x / inject_Z 1000000000).
      { apply Qle_shift_div_l; [exact Hc|].
        assert (E : ((30000001024 # 1000000000) * inject_Z 1000000000) == (30000001024000000000 # 1000000000)) by (vm_compute; reflexivity).
      rewrite E; clear E.
        lra. }
      assert (Hq0 : 0 < x / inject_Z 1000000000) by lra.
      rewrite to_float_of_pos by exact Hq0.
      apply Qlt_le_trans with (inject_Z 15728641 * 2 ^ (-19)); [reflexivity|].
      apply round_magnitude_ge; [exact Hq0 | lia |].
      assert (E : ((inject_Z 15728641 - (1 # 2)) * 2 ^ (-19)) == (31457281 # 1048576)) by (vm_compute; reflexivity).
      rewrite E; clear E.
      lra.
Qed.

End SinglePrecision.

(** ** Rendering *)

Lemma format_plain (m : string) (ap : list Arg) :
  plain m = true -> format m ap = Some m.
Proof.
  induction m as [|c m IH]; simpl; intros H; [reflexivity|].
  apply andb_true_iff in H. destruct H as [Hc Hm].
  destruct (is_percent c); [discriminate|].
  rewrite (IH Hm). reflexivity.
Qed.

Lemma vsprintf_plain (m : string) (ap : list Arg) :
  plain m = true -> vsprintf m ap = Some m.
Proof.
  intros H. unfold vsprintf. rewrite (format_plain m ap H).
  destruct (Z.ltb_spec (Z.of_nat (String.length m)) (Z.of_nat (String.length m) + 1024));
    [reflexivity | lia].
Qed.

Lemma renders_twice_plain (m : string) (ap : list Arg) :
  plain m = true -> renders_twice m ap = true.
Proof.
  intros H. unfold renders_twice. now rewrite !(vsprintf_plain m) by exact H.
Qed.

(** ** The log *)

Lemma log_closed msg type ap now s :
  is_open (syslog s) = false -> log msg type ap now s = Returned s.
Proof. intros H. unfold log. now rewrite H. Qed.

Lemma log_repeat type ap now s :
  log (last_log_message s) type ap now s = Returned s.
Proof.
  unfold log. destruct (is_open (syslog s)); simpl; [|reflexivity].
  now rewrite String.eqb_refl.
Qed.

Lemma sink_ready_inv s :
  sink_ready s = true -> is_open (syslog s) = true /\ failbit (syslog s) = false.
Proof.
  unfold sink_ready. intros H. apply andb_true_iff in H. destruct H as [H1 H2].
  split; [exact H1|]. now destruct (failbit (syslog s)).
Qed.

Lemma log_fresh msg type ap now s m :
  sink_ready s = true ->
  msg <> last_log_message s ->
  vsprintf msg ap = Some m ->
  log msg type ap now s = Returned (logged now type m s).
Proof.
  intros Hr Hne Hv. destruct (sink_ready_inv s Hr) as [Ho Hf].
  unfold log. rewrite Ho. simpl.
  apply String.eqb_neq in Hne. rewrite Hne, Hv.
  unfold logged, ofstream_put_line. simpl. now rewrite Ho, Hf.
Qed.

Lemma sink_ready_logged now type m s : sink_ready (logged now type m s) = true.
Proof. reflexivity. Qed.

(** [log] returns or is undefined; it neither exits nor presents. *)
Lemma log_outcome msg type ap now s :
  log msg type ap now s = Undefined \/
  exists s', log msg type ap now s = Returned s' /\
    cascade_eq s s' /\ funcs s' = funcs s /\ signals s' = signals s /\
    terminal s' = terminal s /\ message s' = message s /\
    fully_active s' = fully_active s /\
    is_open (syslog s') = is_open (syslog s).
Proof.
  unfold log.
  destruct (is_open (syslog s)) eqn:Ho; simpl.
  - destruct (String.eqb msg (last_log_message s)).
    + right. exists s. unfold cascade_eq. now rewrite Ho.
    + destruct (vsprintf msg ap) as [m|]; [right|now left].
      eexists. split; [reflexivity|]. unfold cascade_eq, ofstream_put_line. simpl.
      rewrite Ho. now destruct (failbit (syslog s)).
  - right. exists s. unfold cascade_eq. now rewrite Ho.
Qed.

(** ** Outcomes *)

Lemma post_bind (R : Guru -> Prop) o k :
  post R o -> (forall s, R s -> post R (k s)) -> post R (bind o k).
Proof. destruct o; simpl; auto. Qed.

Lemma cascade_eq_refl s : cascade_eq s s.
Proof. unfold cascade_eq. auto. Qed.

Lemma cascade_eq_trans s0 s1 s2 :
  cascade_eq s0 s1 -> cascade_eq s1 s2 -> cascade_eq s0 s2.
Proof. unfold cascade_eq. intuition congruence. Qed.

Lemma log_post s0 msg type ap now s :
  cascade_eq s0 s -> post (cascade_eq s0) (log msg type ap now s).
Proof.
  intros H. destruct (log_outcome msg type ap now s) as [E|(s' & E & H' & _)];
    rewrite E; simpl; [exact I|].
  eapply cascade_eq_trans; eauto.
Qed.

Lemma bind_never_returns o k :
  (forall s, has_returned (k s) = false) -> has_returned (bind o k) = false.
Proof. destruct o; simpl; auto. Qed.

Lemma bind_of_never_returns o k :
  has_returned o = false -> bind o k = o.
Proof. destruct o; simpl; [discriminate| | |]; reflexivity. Qed.

Lemma stack_pop_cascade s0 s : cascade_eq s0 s -> cascade_eq s0 (stack_pop s).
Proof. unfold stack_pop, cascade_eq. destruct (funcs s); simpl; auto. Qed.

Lemma enter_cascade b f s0 s : cascade_eq s0 s -> cascade_eq s0 (enter b f s).
Proof. unfold enter. now destruct (stack_trace_on b). Qed.

Lemma leave_cascade b s0 s : cascade_eq s0 s -> cascade_eq s0 (leave b s).
Proof. unfold leave. destruct (stack_trace_on b); [apply stack_pop_cascade|auto]. Qed.

Lemma scoped_never_returns b f body s :
  (forall s', has_returned (body s') = false) ->
  has_returned (scoped b f body s) = false.
Proof.
  intros H. unfold scoped. rewrite bind_of_never_returns; apply H.
Qed.

Lemma scoped_post b f body s0 s :
  cascade_eq s0 s ->
  (forall s', cascade_eq s0 s' -> post (cascade_eq s0) (body s')) ->
  post (cascade_eq s0) (scoped b f body s).
Proof.
  intros H Hb. unfold scoped. apply post_bind.
  - apply Hb. now apply enter_cascade.
  - intros s' H'. unfold post. simpl. now apply leave_cascade.
Qed.

(** ** The halt path *)

Lemma present_never_returns b s : has_returned (present b s) = false.
Proof.
  unfold present. destruct (frontend b); try reflexivity.
  - now destruct (format (message s ++ newline) []).
  - now destruct (format (message s) []).
Qed.

(** [halt] does not return to its caller, whatever the build. *)
Lemma halt_never_returns b error ap now s :
  has_returned (halt b error ap now s) = false.
Proof.
  unfold halt. apply scoped_never_returns. intros s1.
  destruct (vsprintf error ap) as [e|]; [|reflexivity].
  apply bind_never_returns; intros s2.
  apply bind_never_returns; intros s3.
  apply bind_never_returns; intros s4.
  destruct (is_curses b && negb (fully_active s4))%bool; [reflexivity|].
  destruct (dead_already s4).
  - apply bind_never_returns. reflexivity.
  - apply present_never_returns.
Qed.

Lemma drain_loop_post s0 now fs : forall s,
  cascade_eq s0 s -> post (cascade_eq s0) (drain_loop fs now s).
Proof.
  induction fs as [|top below IH]; intros s H; [exact H|].
  simpl drain_loop. apply post_bind; [now apply log_post|].
  intros s1 H1. destruct below; [exact H1|]. apply IH. exact H1.
Qed.

Lemma drain_stack_post s0 now s :
  cascade_eq s0 s -> post (cascade_eq s0) (drain_stack now s).
Proof.
  intros H. unfold drain_stack. destruct (funcs s) as [|top below]; [exact H|].
  apply post_bind; [now apply log_post|].
  intros s' H'. now apply drain_loop_post.
Qed.

Lemma present_post b s0 s :
  cascade_eq s0 s -> post (cascade_eq s0) (present b s).
Proof.
  intros H. unfold present. destruct (frontend b); try exact H.
  - destruct (format (message s ++ newline) []); [exact H|exact I].
  - unfold post; simpl. destruct (39 <? String.length (message s))%nat; exact H.
  - destruct (format (message s) []); [exact H|exact I].
Qed.

(** [halt] leaves the cascade detector and the [dead_already] flag as it
    found them. *)
Lemma halt_post b s0 error ap now s :
  cascade_eq s0 s -> post (cascade_eq s0) (halt b error ap now s).
Proof.
  intros H. unfold halt. apply scoped_post; [exact H|]. intros s1 H1.
  destruct (vsprintf error ap) as [e|]; [|exact I].
  apply post_bind; [now apply log_post|]. intros s2 H2.
  apply post_bind; [now apply log_post|]. intros s3 H3.
  apply post_bind.
  { destruct (stack_trace_on b); [now apply drain_stack_post|exact H3]. }
  intros s4 H4.
  destruct (is_curses b && negb (fully_active s4))%bool; [exact H4|].
  destruct (dead_already s4).
  - apply post_bind; [now apply log_post|]. intros s5 H5. exact H5.
  - apply present_post. exact H4.
Qed.

Lemma log_returns msg type ap now s m :
  vsprintf msg ap = Some m ->
  exists s', log msg type ap now s = Returned s' /\
    cascade_eq s s' /\ funcs s' = funcs s /\
    is_open (syslog s') = is_open (syslog s).
Proof.
  intros Hv.
  destruct (log_outcome msg type ap now s) as [E|(s' & E & Hc & Hf & _ & _ & _ & _ & Ho)].
  - exfalso. revert E. unfold log.
    destruct (is_open (syslog s)); simpl; [|discriminate].
    destruct (String.eqb msg (last_log_message s)); [discriminate|].
    rewrite Hv. discriminate.
  - exists s'. auto.
Qed.

(** ** Non-fatal reports *)

Lemma is_default_false type :
  is_default type = false ->
  type = GURU_WARN \/ type = GURU_ERROR \/ type = GURU_CRITICAL.
Proof.
  unfold is_default. intros H. apply negb_false_iff in H.
  apply orb_true_iff in H. destruct H as [H|H].
  - apply orb_true_iff in H. destruct H as [H|H]; apply Z.eqb_eq in H; auto.
  - apply Z.eqb_eq in H; auto.
Qed.

Lemma weight_for_weighted type :
  is_default type = false ->
  weight_for type = 1 \/ weight_for type = 2 \/ weight_for type = 4.
Proof.
  intros H. destruct (is_default_false type H) as [E|[E|E]]; subst; vm_compute; auto.
Qed.

(** A call whose severity has a [case] of its own never reaches the
    function called in the [default] branch. *)
Lemma nonfatal_body_weighted b self error type ap now s :
  is_default type = false ->
  nonfatal_body b self error type ap now s =
  if cascade_failure s then Returned s
  else scoped b FNonfatal (fun s =>
         match vsprintf error ap with
         | None => Undefined
         | Some e1 => s <- log e1 type [] now s ;; observe b (weight_for type) now s
         end) s.
Proof. intros H. unfold nonfatal_body. now rewrite H. Qed.

(** [nonfatal] satisfies the recursive equation of the source. *)
Lemma nonfatal_unfold b error type ap now s :
  nonfatal b error type ap now s = nonfatal_body b (nonfatal b) error type ap now s.
Proof.
  unfold nonfatal at 1. unfold nonfatal_body at 1 2.
  destruct (cascade_failure s); [reflexivity|].
  unfold scoped. unfold nonfatal_inner, nonfatal.
  destruct (vsprintf error ap) as [e1|]; [|reflexivity].
  destruct (is_default type); [|reflexivity].
  now rewrite !(nonfatal_body_weighted b _ MSG_BAD_SEVERITY GURU_WARN) by reflexivity.
Qed.

Lemma nonfatal_weighted b error type ap now s :
  cascade_failure s = false ->
  is_default type = false ->
  nonfatal b error type ap now s =
  scoped b FNonfatal (fun s =>
    match vsprintf error ap with
    | None => Undefined
    | Some e1 => s <- log e1 type [] now s ;; observe b (weight_for type) now s
    end) s.
Proof.
  intros Hc Hd. unfold nonfatal. rewrite nonfatal_body_weighted by exact Hd.
  now rewrite Hc.
Qed.

(** The four ways out of the cascade detector. *)
Lemma observe_cases b w now s :
  (w = 0 /\ observe b w now s = Returned s) \/
  (w <> 0 /\ within_timeout now (cascade_timer s) = true /\
   (cascade_count s + w) mod UINT_MODULUS <= CASCADE_THRESHOLD /\
   observe b w now s =
     Returned (set_cascade_count ((cascade_count s + w) mod UINT_MODULUS) s)) \/
  (w <> 0 /\ within_timeout now (cascade_timer s) = true /\
   CASCADE_THRESHOLD < (cascade_count s + w) mod UINT_MODULUS /\
   observe b w now s =
     halt b MSG_CASCADE [] now
       (set_cascade_failure true
          (set_cascade_count ((cascade_count s + w) mod UINT_MODULUS) s))) \/
  (w <> 0 /\ within_timeout now (cascade_timer s) = false /\
   observe b w now s = Returned (set_cascade_count 0 (set_cascade_timer now s))).
Proof.
  unfold observe. destruct (Z.eqb_spec w 0) as [E|E]; [now left|right].
  destruct (within_timeout now (cascade_timer s)); [|now right; right].
  cbn [cascade_count set_cascade_count].
  destruct (Z.ltb_spec CASCADE_THRESHOLD ((cascade_count s + w) mod UINT_MODULUS)).
  - right. left. auto.
  - left. auto.
Qed.

(** A weighted report whose renderings are defined gets past [log] and
    enters the cascade detector with the detector untouched. *)
Lemma nonfatal_reaches_observe b error type ap now s :
  cascade_failure s = false ->
  is_default type = false ->
  renders_twice error ap = true ->
  exists s1, cascade_eq s s1 /\
    nonfatal b error type ap now s =
    (s' <- observe b (weight_for type) now s1 ;; Returned (leave b s')).
Proof.
  intros Hc Hd Hr. rewrite nonfatal_weighted by assumption.
  unfold scoped. unfold renders_twice in Hr.
  destruct (vsprintf error ap) as [e1|]; [|discriminate].
  destruct (vsprintf e1 []) as [e2|] eqn:E2; [|discriminate].
  destruct (log_returns e1 type [] now (enter b FNonfatal s) e2 E2)
    as (s1 & El & Hs1 & _).
  exists s1. split.
  - eapply cascade_eq_trans; [|exact Hs1]. apply enter_cascade, cascade_eq_refl.
  - rewrite El. reflexivity.
Qed.

Lemma small_mod z : 0 <= z <= CASCADE_THRESHOLD + 4 -> z mod UINT_MODULUS = z.
Proof.
  intros H. apply Z.mod_small. unfold CASCADE_THRESHOLD, UINT_MODULUS in *. lia.
Qed.

(** Inside the window and at or below the threshold: the weight is added
    and the call returns. *)
Lemma nonfatal_accumulates b error type ap now s :
  cascade_failure s = false ->
  is_default type = false ->
  renders_twice error ap = true ->
  within_timeout now (cascade_timer s) = true ->
  0 <= cascade_count s ->
  cascade_count s + weight_for type <= CASCADE_THRESHOLD ->
  exists s', nonfatal b error type ap now s = Returned s' /\
    cascade_count s' = cascade_count s + weight_for type /\
    cascade_failure s' = false /\
    cascade_timer s' = cascade_timer s.
Proof.
  intros Hc Hd Hr Hw H0 Hle.
  destruct (nonfatal_reaches_observe b error type ap now s Hc Hd Hr)
    as (s1 & (E1 & E2 & E3 & _) & ->).
  pose proof (weight_for_weighted type Hd) as Hwt.
  assert (Hm : (cascade_count s1 + weight_for type) mod UINT_MODULUS
               = cascade_count s + weight_for type).
  { rewrite E1. apply small_mod. unfold CASCADE_THRESHOLD in *. lia. }
  destruct (observe_cases b (weight_for type) now s1)
    as [(W & _)|[(_ & _ & _ & ->)|[(_ & _ & Hgt & _)|(_ & Hout & _)]]].
  - lia.
  - simpl. eexists. split; [reflexivity|].
    destruct (leave_cascade b _ _ (cascade_eq_refl
      (set_cascade_count ((cascade_count s1 + weight_for type) mod UINT_MODULUS) s1)))
      as (L1 & L2 & L3 & _).
    rewrite L1, L2, L3. simpl. rewrite Hm. repeat split; congruence.
  - rewrite Hm in Hgt. lia.
  - rewrite E3, Hw in Hout. discriminate.
Qed.

(** Inside the window and past the threshold: the cascade is declared and
    [halt] is called with the fixed message. *)
Lemma nonfatal_trips b error type ap now s :
  cascade_failure s = false ->
  is_default type = false ->
  renders_twice error ap = true ->
  within_timeout now (cascade_timer s) = true ->
  0 <= cascade_count s <= CASCADE_THRESHOLD ->
  CASCADE_THRESHOLD < cascade_count s + weight_for type ->
  exists s_t,
    cascade_failure s_t = true /\
    cascade_count s_t = cascade_count s + weight_for type /\
    nonfatal b error type ap now s = halt b MSG_CASCADE [] now s_t.
Proof.
  intros Hc Hd Hr Hw H0 Hgt.
  destruct (nonfatal_reaches_observe b error type ap now s Hc Hd Hr)
    as (s1 & (E1 & E2 & E3 & _) & ->).
  pose proof (weight_for_weighted type Hd) as Hwt.
  assert (Hm : (cascade_count s1 + weight_for type) mod UINT_MODULUS
               = cascade_count s + weight_for type).
  { rewrite E1. apply small_mod. unfold CASCADE_THRESHOLD in *. lia. }
  destruct (observe_cases b (weight_for type) now s1)
    as [(W & _)|[(_ & _ & Hle & _)|[(_ & _ & _ & ->)|(_ & Hout & _)]]].
  - lia.
  - rewrite Hm in Hle. lia.
  - eexists. split; [|split]; [| |apply bind_of_never_returns, halt_never_returns].
    + reflexivity.
    + simpl. exact Hm.
  - rewrite E3, Hw in Hout. discriminate.
Qed.

(** Outside the window: the detector restarts and the weight is dropped. *)
Lemma nonfatal_resets b error type ap now s :
  cascade_failure s = false ->
  is_default type = false ->
  renders_twice error ap = true ->
  within_timeout now (cascade_timer s) = false ->
  exists s', nonfatal b error type ap now s = Returned s' /\
    cascade_count s' = 0 /\
    cascade_failure s' = false /\
    cascade_timer s' = now.
Proof.
  intros Hc Hd Hr Hw.
  destruct (nonfatal_reaches_observe b error type ap now s Hc Hd Hr)
    as (s1 & (E1 & E2 & E3 & _) & ->).
  pose proof (weight_for_weighted type Hd) as Hwt.
  destruct (observe_cases b (weight_for type) now s1)
    as [(W & _)|[(_ & Hin & _)|[(_ & Hin & _)|(_ & _ & ->)]]].
  - lia.
  - rewrite E3, Hw in Hin. discriminate.
  - rewrite E3, Hw in Hin. discriminate.
  - simpl. eexists. split; [reflexivity|].
    destruct (leave_cascade b _ _ (cascade_eq_refl
      (set_cascade_count 0 (set_cascade_timer now s1)))) as (L1 & L2 & L3 & _).
    rewrite L1, L2, L3. simpl. repeat split; congruence.
Qed.

(** ** The cascade detector over consecutive reports *)

Lemma run_accumulates b type : forall rs s,
  is_default type = false ->
  cascade_failure s = false ->
  0 <= cascade_count s ->
  cascade_count s + Z.of_nat (List.length rs) * weight_for type <= CASCADE_THRESHOLD ->
  Forall (fun r => report_ok (cascade_timer s) r = true) rs ->
  exists s', run_nonfatal b type rs s = Returned s' /\
    cascade_count s' = cascade_count s + Z.of_nat (List.length rs) * weight_for type /\
    cascade_failure s' = false /\
    cascade_timer s' = cascade_timer s.
Proof.
  induction rs as [|r rs IH]; intros s Hd Hc H0 Hle Hall.
  - exists s. simpl. repeat split; auto. lia.
  - inversion Hall as [|r' rs' Hr Hrs]; subst.
    apply andb_true_iff in Hr. destruct Hr as [Hin Hren].
    pose proof (weight_for_weighted type Hd) as Hwt.
    cbn [List.length] in Hle. rewrite Nat2Z.inj_succ in Hle.
    destruct (nonfatal_accumulates b (r_error r) type (r_args r) (r_now r) s)
      as (s1 & E & C1 & C2 & C3); auto; [nia|].
    destruct (IH s1) as (s' & E' & D1 & D2 & D3); auto.
    + lia.
    + rewrite C1. nia.
    + rewrite C3. exact Hrs.
    + exists s'. cbn [run_nonfatal]. rewrite E. cbn [bind]. rewrite E'.
      cbn [List.length]. rewrite Nat2Z.inj_succ.
      repeat split; auto; [rewrite D1, C1; nia | congruence].
Qed.

Lemma reports_to_threshold_weight type :
  is_default type = false ->
  Z.of_nat (reports_to_threshold type) * weight_for type = CASCADE_THRESHOLD.
Proof.
  intros H. destruct (is_default_false type H) as [E|[E|E]]; subst; reflexivity.
Qed.

(** C2: starting from a fresh window (pressure 0, no cascade declared) with
    every report inside the 30-second window as [nonfatal] tests it (the
    elapsed seconds, computed in single precision, are at most 30, which
    by [within_timeout_ticks] is a tick difference below thirty seconds),
    consecutive reports of one
    weighted severity are absorbed up to the threshold -- after any prefix
    of the first 20 Warnings, 10 Errors or 5 Criticals the call has
    returned, no cascade is declared and the pressure is the number of
    reports times the weight -- and the next report (the 21st Warning, the
    11th Error, the 6th Critical) declares the cascade: it does not return
    and is the call [halt("Cascade failure detected!")] on a state whose
    [cascade_failure] is set and whose pressure exceeds 20. *)
Theorem cascade_declared_exactly_past_threshold b type rs r s :
  is_default type = false ->
  cascade_failure s = false ->
  cascade_count s = 0 ->
  List.length rs = reports_to_threshold type ->
  Forall (fun r => report_ok (cascade_timer s) r = true) (rs ++ [r])%list ->
  (forall pre post, rs = (pre ++ post)%list ->
     exists s_k, run_nonfatal b type pre s = Returned s_k /\
       cascade_failure s_k = false /\
       cascade_count s_k = Z.of_nat (List.length pre) * weight_for type /\
       cascade_count s_k <= CASCADE_THRESHOLD) /\
  (exists s_n s_t,
     run_nonfatal b type rs s = Returned s_n /\
     cascade_failure s_n = false /\
     cascade_count s_n = CASCADE_THRESHOLD /\
     nonfatal b (r_error r) type (r_args r) (r_now r) s_n
       = halt b MSG_CASCADE [] (r_now r) s_t /\
     has_returned (nonfatal b (r_error r) type (r_args r) (r_now r) s_n) = false /\
     cascade_failure s_t = true /\
     cascade_count s_t = CASCADE_THRESHOLD + weight_for type) /\
  reports_to_threshold GURU_WARN = 20%nat /\
  reports_to_threshold GURU_ERROR = 10%nat /\
  reports_to_threshold GURU_CRITICAL = 5%nat.
Proof.
  intros Hd Hc H0 Hlen Hall.
  apply Forall_app in Hall. destruct Hall as [Hrs Hr].
  pose proof (reports_to_threshold_weight type Hd) as Hn.
  pose proof (weight_for_weighted type Hd) as Hwt.
  split; [|split; [|repeat split]].
  - intros pre post ->. apply Forall_app in Hrs. destruct Hrs as [Hpre _].
    rewrite length_app in Hlen.
    destruct (run_accumulates b type pre s) as (s_k & E & C1 & C2 & C3); auto.
    + lia.
    + rewrite H0. rewrite <- Hn, <- Hlen. rewrite Nat2Z.inj_add. nia.
    + exists s_k. rewrite H0 in C1. repeat split; auto.
      rewrite C1. rewrite <- Hn, <- Hlen. rewrite Nat2Z.inj_add. nia.
  - destruct (run_accumulates b type rs s) as (s_n & E & C1 & C2 & C3); auto.
    + lia.
    + rewrite H0, Hlen, Hn. lia.
    + rewrite H0, Hlen, Hn in C1. simpl in C1.
      inversion Hr as [|r' l' Hok _]; subst.
      apply andb_true_iff in Hok. destruct Hok as [Hin Hren].
      destruct (nonfatal_trips b (r_error r) type (r_args r) (r_now r) s_n)
        as (s_t & T1 & T2 & T3); auto.
      * now rewrite C3.
      * rewrite C1. unfold CASCADE_THRESHOLD. lia.
      * rewrite C1. lia.
      * exists s_n, s_t. repeat split; auto.
        -- rewrite T3. apply halt_never_returns.
        -- rewrite T2, C1. reflexivity.
Qed.

(** A weighted report that returns has declared no cascade; the window
    start is the old one, or the clock reading of the call. *)
Lemma nonfatal_returned_inv b error type ap now s s1 :
  cascade_failure s = false ->
  is_default type = false ->
  nonfatal b error type ap now s = Returned s1 ->
  cascade_failure s1 = false /\
  (cascade_timer s1 = cascade_timer s \/ cascade_timer s1 = now).
Proof.
  intros Hc Hd H. rewrite nonfatal_weighted in H by assumption.
  unfold scoped in H.
  destruct (vsprintf error ap) as [e1|]; [|discriminate].
  destruct (log_outcome e1 type [] now (enter b FNonfatal s))
    as [E|(s' & E & Hs' & _)]; rewrite E in H; [discriminate|].
  cbn [bind] in H.
  assert (Hs : cascade_eq s s').
  { eapply cascade_eq_trans; [|exact Hs']. apply enter_cascade, cascade_eq_refl. }
  destruct Hs as (E1 & E2 & E3 & _).
  destruct (observe_cases b (weight_for type) now s')
    as [(_ & Ho)|[(_ & _ & _ & Ho)|[(_ & _ & _ & Ho)|(_ & _ & Ho)]]];
    rewrite Ho in H.
  - injection H as <-.
    destruct (leave_cascade b _ _ (cascade_eq_refl s')) as (_ & L2 & L3 & _).
    rewrite L2, L3. split; [congruence|left; congruence].
  - injection H as <-.
    destruct (leave_cascade b _ _ (cascade_eq_refl
      (set_cascade_count ((cascade_count s' + weight_for type) mod UINT_MODULUS) s')))
      as (_ & L2 & L3 & _).
    rewrite L2, L3. simpl. split; [congruence|left; congruence].
  - rewrite bind_of_never_returns in H by apply halt_never_returns.
    pose proof (halt_never_returns b MSG_CASCADE [] now
      (set_cascade_failure true
        (set_cascade_count ((cascade_count s' + weight_for type) mod UINT_MODULUS) s')))
      as Hn.
    rewrite H in Hn. discriminate.
  - injection H as <-.
    destruct (leave_cascade b _ _ (cascade_eq_refl
      (set_cascade_count 0 (set_cascade_timer now s')))) as (_ & L2 & L3 & _).
    rewrite L2, L3. simpl. split; [congruence|right; reflexivity].
Qed.

(** C3: when more than 30 seconds pass between two weighted reports (the
    first one processed at [t1], no earlier than the start of its window,
    the second arriving at [t2]), the second report resets the pressure to
    zero and restarts the window at its own clock reading; its weight is
    not added to the fresh window. *)
Theorem window_restarts_after_idle_timeout
    b e1 type1 ap1 t1 e2 type2 ap2 t2 s s1 :
  is_default type1 = false ->
  is_default type2 = false ->
  cascade_failure s = false ->
  cascade_timer s <= t1 ->
  nonfatal b e1 type1 ap1 t1 s = Returned s1 ->
  CASCADE_TIMEOUT * TICKS_PER_SECOND < t2 - t1 ->
  renders_twice e2 ap2 = true ->
  exists s2,
    nonfatal b e2 type2 ap2 t2 s1 = Returned s2 /\
    cascade_count s2 = 0 /\
    cascade_timer s2 = t2 /\
    cascade_failure s2 = false.
Proof.
  intros Hd1 Hd2 Hc Hmono H1 Hgap Hren.
  destruct (nonfatal_returned_inv b e1 type1 ap1 t1 s s1 Hc Hd1 H1) as [Hc1 Ht].
  assert (Hout : within_timeout t2 (cascade_timer s1) = false).
  { rewrite within_timeout_ticks. apply Z.ltb_ge. destruct Ht as [-> | ->]; lia. }
  destruct (nonfatal_resets b e2 type2 ap2 t2 s1 Hc1 Hd2 Hren Hout)
    as (s2 & E & C1 & C2 & C3).
  exists s2. auto.
Qed.

(** ** Permanence of a declared cascade *)

Lemma post_bind_weaken (R1 R2 : Guru -> Prop) o k :
  post R1 o -> (forall s, R1 s -> R2 s) -> (forall s, R1 s -> post R2 (k s)) ->
  post R2 (bind o k).
Proof.
  intros H1 H2 H3.
  destruct o; cbn in *; [apply H3|apply H2|apply H2|exact I]; exact H1.
Qed.

Lemma post_weaken (R1 R2 : Guru -> Prop) o :
  post R1 o -> (forall s, R1 s -> R2 s) -> post R2 o.
Proof. unfold post. destruct (outcome_state o); auto. Qed.

Lemma close_syslog_post b s0 now s :
  cascade_eq s0 s -> post (cascade_eq s0) (close_syslog b now s).
Proof.
  intros H. unfold close_syslog. apply scoped_post; [exact H|]. intros s1 H1.
  apply post_bind; [now apply log_post|]. intros s2 H2.
  apply post_bind; [now apply log_post|]. intros s3 H3. exact H3.
Qed.

Lemma exec_stmts_cascade sig_err sig sts : forall f s0,
  cascade_eq s0 (hf_guru f) ->
  cascade_eq s0 (hf_guru (exec_stmts sig_err sig f sts)).
Proof.
  unfold exec_stmts. induction sts as [|st sts IH]; intros f s0 H; [exact H|].
  simpl. apply IH. destruct st; simpl; try exact H.
  unfold do_signal. destruct (sig_err signum); exact H.
Qed.

Lemma intercept_signal_post b s0 sig_err sig now s :
  cascade_eq s0 s -> post (cascade_eq s0) (intercept_signal b sig_err sig now s).
Proof.
  intros H. unfold intercept_signal. apply post_bind.
  - apply halt_post. now apply exec_stmts_cascade.
  - intros s' H'. unfold post. simpl. now apply leave_cascade.
Qed.

Lemma hook_post b s0 sig_err sig msg now s :
  cascade_eq s0 s -> post (cascade_eq s0) (hook b sig_err sig msg now s).
Proof.
  intros H. unfold hook. destruct (sig_err sig) eqn:E; [now apply halt_post|].
  unfold do_signal. rewrite E. exact H.
Qed.

(** Every entry point other than [nonfatal] keeps [cascade_failure]. *)
Lemma exec_call_keeps_failure b c now s :
  cascade_failure s = true ->
  post (fun s' => cascade_failure s' = true) (exec_call b c now s).
Proof.
  intros Hc.
  assert (W : forall s', cascade_eq s s' -> cascade_failure s' = true).
  { intros s' (_ & E & _). congruence. }
  assert (P : forall o, post (cascade_eq s) o ->
                        post (fun s' => cascade_failure s' = true) o).
  { intros o Ho. eapply post_weaken; eauto. }
  pose proof (cascade_eq_refl s) as Hs.
  destruct c; cbn [exec_call].
  - apply P. unfold affirm. apply scoped_post; [exact Hs|]. intros s1 H1.
    destruct (condition =? 0); [now apply halt_post|exact H1].
  - apply P. now apply close_syslog_post.
  - exact Hc.
  - apply P. now apply halt_post.
  - apply P. unfold halt_exception. apply scoped_post; [exact Hs|].
    intros s1 H1. now apply halt_post.
  - apply P. now apply intercept_signal_post.
  - apply P. now apply log_post.
  - unfold nonfatal, nonfatal_body. rewrite Hc. exact Hc.
  - unfold open_syslog.
    apply post_bind_weaken with (R1 := cascade_eq s); [now apply log_post|exact W|].
    intros s1 H1.
    apply post_bind_weaken with (R1 := cascade_eq s); [now apply hook_post|exact W|].
    intros s2 H2.
    apply post_bind_weaken with (R1 := cascade_eq s); [now apply hook_post|exact W|].
    intros s3 H3.
    apply post_bind_weaken with (R1 := cascade_eq s); [now apply hook_post|exact W|].
    intros s4 H4.
    apply post_bind_weaken with (R1 := cascade_eq s); [now apply hook_post|exact W|].
    intros s5 H5. unfold post. simpl. now apply W.
  - exact Hc.
  - unfold post, stack_pop. simpl. destruct (funcs s); exact Hc.
  - apply P. unfold presenter_getch.
    destruct (key =? KEY_RESIZE); [exact Hs|].
    destruct (key =? KEY_ESCAPE); [|exact Hs].
    apply post_bind; [now apply close_syslog_post|]. intros s1 H1. exact H1.
Qed.

Lemma tripped_if_halted_bind o k :
  tripped_if_halted o -> (forall s, tripped_if_halted (k s)) ->
  tripped_if_halted (bind o k).
Proof. destruct o; simpl; auto. Qed.

Lemma log_tripped_if_halted msg type ap now s :
  tripped_if_halted (log msg type ap now s).
Proof.
  destruct (log_outcome msg type ap now s) as [E|(s' & E & _)]; rewrite E; exact I.
Qed.

Lemma observe_tripped_if_halted b w now s :
  tripped_if_halted (observe b w now s).
Proof.
  destruct (observe_cases b w now s)
    as [(_ & Ho)|[(_ & _ & _ & Ho)|[(_ & _ & _ & Ho)|(_ & _ & Ho)]]];
    rewrite Ho; try exact I.
  pose proof (halt_post b _ MSG_CASCADE [] now _ (cascade_eq_refl
    (set_cascade_failure true
      (set_cascade_count ((cascade_count s + w) mod UINT_MODULUS) s)))) as Hp.
  unfold post in Hp.
  destruct (halt b MSG_CASCADE [] now _) as [s'|code s'|s'|];
    simpl in *; try exact I; destruct Hp as (_ & E & _); exact E.
Qed.

Lemma nonfatal_body_tripped_if_halted b self error type ap now s :
  (forall e t a n s0, tripped_if_halted (self e t a n s0)) ->
  tripped_if_halted (nonfatal_body b self error type ap now s).
Proof.
  intros Hself. unfold nonfatal_body. destruct (cascade_failure s); [exact I|].
  unfold scoped. apply tripped_if_halted_bind; [|intros; exact I].
  destruct (vsprintf error ap) as [e1|]; [|exact I].
  apply tripped_if_halted_bind.
  { destruct (is_default type); [apply Hself|exact I]. }
  intros s1. apply tripped_if_halted_bind; [apply log_tripped_if_halted|].
  intros s2. apply observe_tripped_if_halted.
Qed.

(** A [nonfatal] call that ends in the halt path has declared the cascade. *)
Lemma nonfatal_tripped_if_halted b error type ap now s :
  tripped_if_halted (nonfatal b error type ap now s).
Proof.
  unfold nonfatal. apply nonfatal_body_tripped_if_halted.
  intros. unfold nonfatal_inner. apply nonfatal_body_tripped_if_halted.
  intros. exact I.
Qed.

Lemma cascade_halts_none_once_tripped b : forall calls s,
  cascade_failure s = true -> cascade_halts b calls s = 0%nat.
Proof.
  induction calls as [|[now c] calls IH]; intros s Hc; [reflexivity|].
  cbn [cascade_halts].
  pose proof (exec_call_keeps_failure b c now s Hc) as Hk. unfold post in Hk.
  assert (Hh : is_cascade_halt c (exec_call b c now s) = false).
  { destruct c; try reflexivity. cbn [exec_call].
    unfold nonfatal, nonfatal_body. now rewrite Hc. }
  rewrite Hh. destruct (outcome_state (exec_call b c now s)) as [s'|];
    [|reflexivity].
  now rewrite IH.
Qed.

Lemma cascade_halts_at_most_one b : forall calls s,
  (cascade_halts b calls s <= 1)%nat.
Proof.
  induction calls as [|[now c] calls IH]; intros s; [cbn; lia|].
  cbn [cascade_halts].
  destruct (is_cascade_halt c (exec_call b c now s)) eqn:Hh.
  - destruct c; try discriminate. cbn [exec_call] in *.
    pose proof (nonfatal_tripped_if_halted b error type ap now s) as Ht.
    destruct (nonfatal b error type ap now s) as [s'|code s'|s'|];
      try discriminate; simpl in *;
      now rewrite cascade_halts_none_once_tripped.
  - destruct (outcome_state (exec_call b c now s)) as [s'|]; [|lia].
    specialize (IH s'). lia.
Qed.

(** C4: once [cascade_failure] is set, no entry point of the system clears
    it; a [nonfatal] call on such a state returns at once with the state
    untouched (nothing logged, nothing counted); and along any sequence of
    calls at most one [nonfatal] call ends in the cascade halt -- none at
    all when the sequence starts with the cascade already declared. *)
Theorem declared_cascade_is_permanent b :
  (forall c now s s',
     cascade_failure s = true ->
     outcome_state (exec_call b c now s) = Some s' ->
     cascade_failure s' = true) /\
  (forall error type ap now s,
     cascade_failure s = true ->
     nonfatal b error type ap now s = Returned s) /\
  (forall calls s, (cascade_halts b calls s <= 1)%nat) /\
  (forall calls s,
     cascade_failure s = true -> cascade_halts b calls s = 0%nat).
Proof.
  repeat split.
  - intros c now s s' Hc E.
    pose proof (exec_call_keeps_failure b c now s Hc) as Hk.
    unfold post in Hk. now rewrite E in Hk.
  - intros error type ap now s Hc. unfold nonfatal, nonfatal_body. now rewrite Hc.
  - apply cascade_halts_at_most_one.
  - apply cascade_halts_none_once_tripped.
Qed.

(** ** Reports with a severity outside the three weighted ones *)

Lemma is_default_weight type : is_default type = true -> weight_for type = 0.
Proof.
  unfold is_default, weight_for. intros H. apply negb_true_iff in H.
  apply orb_false_iff in H. destruct H as [H H3].
  apply orb_false_iff in H. destruct H as [H1 H2].
  now rewrite H1, H2, H3.
Qed.

Lemma plain_bad_severity : plain MSG_BAD_SEVERITY = true.
Proof. reflexivity. Qed.

(** What [nonfatal] does in its [default] branch: the fixed warning goes
    through [nonfatal] as a [GURU_WARN] report first, then the original
    message is logged, and the cascade detector is not consulted again. *)
Lemma nonfatal_default b error type ap now s e1 :
  cascade_failure s = false ->
  is_default type = true ->
  vsprintf error ap = Some e1 ->
  nonfatal b error type ap now s =
  (s1 <- nonfatal b MSG_BAD_SEVERITY GURU_WARN [] now (enter b FNonfatal s) ;;
   s2 <- log e1 type [] now s1 ;;
   Returned (leave b s2)).
Proof.
  intros Hc Hd Hv. rewrite nonfatal_unfold. unfold nonfatal_body at 1.
  rewrite Hc. unfold scoped. rewrite Hv, Hd, (is_default_weight type Hd).
  destruct (nonfatal b MSG_BAD_SEVERITY GURU_WARN [] now (enter b FNonfatal s))
    as [s1|code s1|s1|]; try reflexivity.
  cbn [bind]. destruct (log e1 type [] now s1) as [s2|code s2|s2|]; reflexivity.
Qed.

Lemma enter_fields b f s :
  syslog (enter b f s) = syslog s /\
  last_log_message (enter b f s) = last_log_message s /\
  cascade_failure (enter b f s) = cascade_failure s /\
  cascade_count (enter b f s) = cascade_count s /\
  cascade_timer (enter b f s) = cascade_timer s.
Proof. unfold enter. destruct (stack_trace_on b); simpl; auto. Qed.

Lemma leave_fields b s :
  syslog (leave b s) = syslog s /\
  last_log_message (leave b s) = last_log_message s /\
  cascade_failure (leave b s) = cascade_failure s /\
  cascade_count (leave b s) = cascade_count s /\
  cascade_timer (leave b s) = cascade_timer s.
Proof.
  unfold leave, stack_pop. destruct (stack_trace_on b); [|auto].
  destruct (funcs s); simpl; auto.
Qed.

Lemma sink_ready_enter b f s : sink_ready (enter b f s) = sink_ready s.
Proof. unfold sink_ready. now destruct (enter_fields b f s) as (-> & _). Qed.

Lemma sink_ready_leave b s : sink_ready (leave b s) = sink_ready s.
Proof. unfold sink_ready. now destruct (leave_fields b s) as (-> & _). Qed.

(** A weighted report that gets its line into the file. *)
Lemma nonfatal_weighted_logs b error type ap now s e1 e2 :
  cascade_failure s = false ->
  is_default type = false ->
  vsprintf error ap = Some e1 ->
  vsprintf e1 [] = Some e2 ->
  sink_ready s = true ->
  e1 <> last_log_message s ->
  nonfatal b error type ap now s =
  (s' <- observe b (weight_for type) now (logged now type e2 (enter b FNonfatal s)) ;;
   Returned (leave b s')).
Proof.
  intros Hc Hd H1 H2 Hr Hne. rewrite nonfatal_weighted by assumption.
  unfold scoped. rewrite H1.
  rewrite (log_fresh e1 type [] now (enter b FNonfatal s) e2); auto.
  - now rewrite sink_ready_enter.
  - now destruct (enter_fields b FNonfatal s) as (_ & -> & _).
Qed.

(** The fixed warning as a report of its own, when it does not trip the
    cascade: its line is appended and the call returns. *)
Lemma bad_severity_warning_logged b now s :
  cascade_failure s = false ->
  sink_ready s = true ->
  last_log_message s <> MSG_BAD_SEVERITY ->
  (within_timeout now (cascade_timer s) = false \/
   0 <= cascade_count s < CASCADE_THRESHOLD) ->
  exists s1,
    nonfatal b MSG_BAD_SEVERITY GURU_WARN [] now s = Returned s1 /\
    syslog s1 = mkOfstream true false
                  (lines (syslog s) ++ [log_line now GURU_WARN MSG_BAD_SEVERITY]) /\
    last_log_message s1 = MSG_BAD_SEVERITY /\
    cascade_failure s1 = false.
Proof.
  intros Hc Hr Hne Hno.
  rewrite (nonfatal_weighted_logs b MSG_BAD_SEVERITY GURU_WARN [] now s
             MSG_BAD_SEVERITY MSG_BAD_SEVERITY); auto;
    try (apply vsprintf_plain; reflexivity).
  set (sl := logged now GURU_WARN MSG_BAD_SEVERITY (enter b FNonfatal s)).
  destruct (enter_fields b FNonfatal s) as (F1 & F2 & F3 & F4 & F5).
  assert (Ssl : syslog sl = mkOfstream true false
                 (lines (syslog s) ++ [log_line now GURU_WARN MSG_BAD_SEVERITY])).
  { unfold sl, logged. simpl. now rewrite F1. }
  assert (Lsl : last_log_message sl = MSG_BAD_SEVERITY) by reflexivity.
  assert (Csl : cascade_failure sl = false) by (unfold sl, logged; simpl; congruence).
  assert (Nsl : cascade_count sl = cascade_count s) by (unfold sl, logged; simpl; congruence).
  assert (Tsl : cascade_timer sl = cascade_timer s) by (unfold sl, logged; simpl; congruence).
  destruct (observe_cases b (weight_for GURU_WARN) now sl)
    as [(W & _)|[(_ & _ & _ & ->)|[(_ & Hin & Hgt & _)|(_ & _ & ->)]]].
  - discriminate W.
  - cbn [bind]. eexists. split; [reflexivity|].
    destruct (leave_fields b (set_cascade_count
      ((cascade_count sl + weight_for GURU_WARN) mod UINT_MODULUS) sl))
      as (-> & -> & -> & _).
    simpl. auto.
  - exfalso. rewrite Tsl in Hin. destruct Hno as [Hout|Hlt]; [congruence|].
    rewrite Nsl in Hgt. rewrite small_mod in Hgt.
    + change (weight_for GURU_WARN) with 1 in Hgt. lia.
    + change (weight_for GURU_WARN) with 1. unfold CASCADE_THRESHOLD in *. lia.
  - cbn [bind]. eexists. split; [reflexivity|].
    destruct (leave_fields b (set_cascade_count 0 (set_cascade_timer now sl)))
      as (-> & -> & -> & _).
    simpl. auto.
Qed.

(** C8 (as amended): a report whose severity is none of Warning, Error,
    Critical, made while no cascade is declared, is not dropped silently
    as long as the fixed warning it raises does not itself trip the
    cascade (the window has expired, or the pressure is below the
    threshold): the call returns and the log has gained the warning line
    followed by the line of the original message.  The side conditions are
    those of [log]: the sink takes lines, and neither line repeats the
    text logged just before it. *)
Theorem invalid_severity_logged_unless_cascade_trips
    b error type ap now s e1 e2 :
  is_default type = true ->
  cascade_failure s = false ->
  vsprintf error ap = Some e1 ->
  vsprintf e1 [] = Some e2 ->
  sink_ready s = true ->
  last_log_message s <> MSG_BAD_SEVERITY ->
  e1 <> MSG_BAD_SEVERITY ->
  (within_timeout now (cascade_timer s) = false \/
   0 <= cascade_count s < CASCADE_THRESHOLD) ->
  exists s',
    nonfatal b error type ap now s = Returned s' /\
    lines (syslog s') =
      (lines (syslog s) ++
       [log_line now GURU_WARN MSG_BAD_SEVERITY; log_line now type e2])%list /\
    cascade_failure s' = false.
Proof.
  intros Hd Hc H1 H2 Hr Hne He Hno.
  rewrite (nonfatal_default b error type ap now s e1) by assumption.
  destruct (enter_fields b FNonfatal s) as (F1 & F2 & F3 & F4 & F5).
  destruct (bad_severity_warning_logged b now (enter b FNonfatal s))
    as (s1 & -> & S1 & L1 & C1).
  - congruence.
  - now rewrite sink_ready_enter.
  - congruence.
  - rewrite F4, F5. exact Hno.
  - cbn [bind].
    rewrite (log_fresh e1 type [] now s1 e2); auto.
    + cbn [bind]. eexists. split; [reflexivity|].
      destruct (leave_fields b (logged now type e2 s1)) as (-> & _ & -> & _).
      unfold logged. simpl. rewrite S1, F1. simpl.
      rewrite <- app_assoc. auto.
    + unfold sink_ready. now rewrite S1.
    + congruence.
Qed.

(** C9: a report with a severity outside the three weighted ones is not
    cascade-neutral.  Its own weight is 0, but before its message is
    logged the fixed warning is processed as a [GURU_WARN] report: inside
    the window (the test of [nonfatal] on the elapsed seconds in single
    precision succeeds) that adds weight 1 to the pressure when the
    pressure is below the threshold, and declares the cascade (the call
    never logs the original message and ends in
    [halt("Cascade failure detected!")]) when the pressure stands at the
    threshold. *)
Theorem invalid_severity_adds_warning_weight b error type ap now s e1 e2 :
  is_default type = true ->
  cascade_failure s = false ->
  vsprintf error ap = Some e1 ->
  vsprintf e1 [] = Some e2 ->
  within_timeout now (cascade_timer s) = true ->
  0 <= cascade_count s <= CASCADE_THRESHOLD ->
  weight_for type = 0 /\
  nonfatal b error type ap now s =
    (s1 <- nonfatal b MSG_BAD_SEVERITY GURU_WARN [] now (enter b FNonfatal s) ;;
     s2 <- log e1 type [] now s1 ;;
     Returned (leave b s2)) /\
  (cascade_count s < CASCADE_THRESHOLD ->
   exists s',
     nonfatal b error type ap now s = Returned s' /\
     cascade_count s' = cascade_count s + CASCADE_WEIGHT_WARNING /\
     cascade_failure s' = false /\
     cascade_timer s' = cascade_timer s) /\
  (cascade_count s = CASCADE_THRESHOLD ->
   exists s_t,
     nonfatal b error type ap now s = halt b MSG_CASCADE [] now s_t /\
     has_returned (nonfatal b error type ap now s) = false /\
     cascade_failure s_t = true /\
     cascade_count s_t = CASCADE_THRESHOLD + CASCADE_WEIGHT_WARNING).
Proof.
  intros Hd Hc H1 H2 Hin H0.
  destruct (enter_fields b FNonfatal s) as (F1 & F2 & F3 & F4 & F5).
  pose proof (nonfatal_default b error type ap now s e1 Hc Hd H1) as Hdef.
  split; [now apply is_default_weight|]. split; [exact Hdef|]. split.
  - intros Hlt.
    destruct (nonfatal_accumulates b MSG_BAD_SEVERITY GURU_WARN [] now
                (enter b FNonfatal s)) as (s1 & E & C1 & C2 & C3);
      try reflexivity; try congruence.
    + rewrite F4. lia.
    + rewrite F4. change (weight_for GURU_WARN) with 1. lia.
    + destruct (log_returns e1 type [] now s1 e2 H2) as (s2 & El & (D1 & D2 & D3 & _) & _).
      rewrite Hdef, E. cbn [bind]. rewrite El. cbn [bind].
      eexists. split; [reflexivity|].
      destruct (leave_fields b s2) as (_ & _ & -> & -> & ->).
      rewrite D1, D2, D3, C1, C2, C3, F4, F5. auto.
  - intros Heq.
    destruct (nonfatal_trips b MSG_BAD_SEVERITY GURU_WARN [] now
                (enter b FNonfatal s)) as (s_t & T1 & T2 & T3);
      try reflexivity; try congruence.
    + rewrite F4, Heq. reflexivity.
    + assert (E : nonfatal b error type ap now s = halt b MSG_CASCADE [] now s_t).
      { rewrite Hdef, T3. apply bind_of_never_returns, halt_never_returns. }
      exists s_t. rewrite E. repeat split; auto.
      * apply halt_never_returns.
      * rewrite T2, F4, Heq. reflexivity.
Qed.

(** ** Shutdown *)


(** ** The stack trace *)

Lemma digits_prefix_uint d rest :
  digits_prefix (NilEmpty.string_of_uint d ++ String ":" rest)
  = NilEmpty.string_of_uint d.
Proof. induction d; simpl; try reflexivity; now rewrite IHd. Qed.

Lemma string_of_uint_nonnil d :
  d <> Decimal.Nil -> NilZero.string_of_uint d = NilEmpty.string_of_uint d.
Proof. destruct d; intros H; [contradiction|..]; reflexivity. Qed.

Lemma digits_prefix_label d rest :
  digits_prefix (NilZero.string_of_uint d ++ ": " ++ rest)
  = NilZero.string_of_uint d.
Proof.
  destruct d; [reflexivity|..];
    rewrite string_of_uint_nonnil by discriminate; apply digits_prefix_uint.
Qed.

Lemma to_string_inj n m : to_string n = to_string m -> n = m.
Proof.
  unfold to_string. intros H.
  assert (E : forall k, NilZero.uint_of_string (NilZero.string_of_uint (Nat.to_uint k))
                        = Some (Nat.to_uint k)).
  { intros k. apply NilZero.usu. intros Hk.
    pose proof (DecimalNat.Unsigned.of_to k) as Hof. rewrite Hk in Hof.
    pose proof (DecimalNat.Unsigned.to_of Decimal.Nil) as Hto.
    rewrite Hof in Hto. rewrite Hk in Hto. discriminate Hto. }
  apply DecimalNat.Unsigned.to_uint_inj.
  pose proof (E n) as En. rewrite H, E in En. now injection En.
Qed.

(** Two trace lines with different depths are different texts. *)
Lemma depth_label_neq n m a c :
  n <> m -> to_string n ++ ": " ++ a <> to_string m ++ ": " ++ c.
Proof.
  intros Hnm H. apply Hnm, to_string_inj.
  unfold to_string in *. apply (f_equal digits_prefix) in H.
  now rewrite !digits_prefix_label in H.
Qed.

Lemma depth_label_not_header n a : to_string n ++ ": " ++ a <> MSG_TRACE_FOLLOWS.
Proof.
  unfold to_string. intros H. apply (f_equal digits_prefix) in H.
  rewrite digits_prefix_label in H.
  destruct (Nat.to_uint n); discriminate H.
Qed.

Lemma plain_app s1 s2 : plain s1 = true -> plain s2 = true -> plain (s1 ++ s2) = true.
Proof.
  induction s1 as [|c s1 IH]; simpl; intros H1 H2; [exact H2|].
  apply andb_true_iff in H1. destruct H1 as [Hc H1].
  rewrite Hc. simpl. now apply IH.
Qed.

Lemma plain_to_string n : plain (to_string n) = true.
Proof.
  unfold to_string. generalize (Nat.to_uint n) as d. intros d.
  assert (E : plain (NilEmpty.string_of_uint d) = true) by (induction d; simpl; auto).
  destruct d; exact E.
Qed.

Lemma plain_depth_label n a : plain a = true -> plain (to_string n ++ ": " ++ a) = true.
Proof.
  intros H. apply plain_app; [apply plain_to_string|]. simpl. exact H.
Qed.

Lemma length_expected_trace now fs :
  List.length (expected_trace now fs) = List.length fs.
Proof. induction fs as [|top below IH]; simpl; [reflexivity|now rewrite IH]. Qed.

(** The [i]-th line of the trace carries the depth [N - 1 - i] and the
    [i]-th frame from the top, with no severity tag. *)
Lemma nth_expected_trace now : forall fs i,
  (i < List.length fs)%nat ->
  nth i (expected_trace now fs) EmptyString =
  "[" ++ time_str now ++ "] "
    ++ to_string (List.length fs - 1 - i) ++ ": " ++ nth i fs EmptyString.
Proof.
  induction fs as [|top below IH]; intros i Hi; [simpl in Hi; lia|].
  destruct i as [|i].
  - cbn [expected_trace nth List.length].
    replace (S (List.length below) - 1 - 0)%nat with (List.length below) by lia.
    reflexivity.
  - cbn [expected_trace nth List.length]. cbn [List.length] in Hi.
    rewrite IH by lia.
    replace (S (List.length below) - 1 - S i)%nat
      with (List.length below - 1 - i)%nat by lia.
    reflexivity.
Qed.

(** The loop of the drain on a sink that takes lines. *)
Lemma drain_loop_trace now : forall fs s,
  fs <> [] ->
  funcs s = fs ->
  sink_ready s = true ->
  Forall (fun f => plain f = true) fs ->
  last_log_message s <> to_string (List.length fs - 1) ++ ": " ++ hd EmptyString fs ->
  exists s',
    drain_loop fs now s = Returned s' /\
    lines (syslog s') = (lines (syslog s) ++ expected_trace now fs)%list /\
    funcs s' = [last fs EmptyString].
Proof.
  induction fs as [|top below IH]; intros s Hne Hf Hr Hp Hl; [contradiction|].
  inversion Hp as [|x l Ptop Pbelow]; subst x l.
  replace (List.length (top :: below) - 1)%nat with (List.length below) in Hl
    by (cbn [List.length]; lia).
  cbn [hd] in Hl.
  cbn [drain_loop].
  replace (List.length (top :: below) - 1)%nat with (List.length below)
    by (cbn [List.length]; lia).
  rewrite (log_fresh _ GURU_STACK [] now s
             (to_string (List.length below) ++ ": " ++ top)); auto;
    [|now apply vsprintf_plain, plain_depth_label].
  cbn [bind]. destruct below as [|b0 rest].
  - eexists. split; [reflexivity|]. split; [reflexivity|]. exact Hf.
  - destruct (IH (set_funcs (b0 :: rest)
                   (logged now GURU_STACK
                      (to_string (List.length (b0 :: rest)) ++ ": " ++ top) s)))
      as (s' & E & L & F); auto.
    + discriminate.
    + cbn [List.length hd]. simpl last_log_message.
      apply depth_label_neq. lia.
    + exists s'. split; [exact E|]. split; [|exact F].
      rewrite L. simpl. rewrite <- app_assoc. reflexivity.
Qed.

(** C5: the drain of [halt] on a stack of N >= 1 frames, with a sink that
    takes lines and frame names free of [%], appends (after the line
    announcing the trace) exactly N lines, one per frame from the top of
    the stack down, the [i]-th reading "<N-1-i>: <frame>" with no severity
    tag; it pops every frame but the one pushed first, which stays on the
    stack.  On an empty stack the drain does nothing at all. *)
Theorem drain_reports_every_frame_and_keeps_root now s :
  (funcs s = [] -> drain_stack now s = Returned s) /\
  (funcs s <> [] ->
   sink_ready s = true ->
   Forall (fun f => plain f = true) (funcs s) ->
   exists s',
     drain_stack now s = Returned s' /\
     lines (syslog s') =
       (lines (syslog s) ++ trace_header now s ++ expected_trace now (funcs s))%list /\
     List.length (expected_trace now (funcs s)) = List.length (funcs s) /\
     (forall i, (i < List.length (funcs s))%nat ->
        nth i (expected_trace now (funcs s)) EmptyString =
        "[" ++ time_str now ++ "] "
          ++ to_string (List.length (funcs s) - 1 - i) ++ ": " ++ nth i (funcs s) EmptyString) /\
     funcs s' = [last (funcs s) EmptyString]).
Proof.
  split.
  - intros H. unfold drain_stack. now rewrite H.
  - intros Hne Hr Hp. unfold drain_stack, trace_header.
    destruct (funcs s) as [|top below] eqn:Hf; [contradiction|].
    assert (Hstep : exists s1,
              log MSG_TRACE_FOLLOWS GURU_STACK [] now s = Returned s1 /\
              funcs s1 = top :: below /\ sink_ready s1 = true /\
              last_log_message s1 = MSG_TRACE_FOLLOWS /\
              lines (syslog s1) =
                (lines (syslog s) ++
                 (if String.eqb MSG_TRACE_FOLLOWS (last_log_message s) then []
                  else [log_line now GURU_STACK MSG_TRACE_FOLLOWS]))%list).
    { destruct (String.eqb_spec MSG_TRACE_FOLLOWS (last_log_message s)) as [E|E].
      - exists s. rewrite E at 1. rewrite log_repeat.
        repeat split; auto. now rewrite app_nil_r.
      - eexists. rewrite (log_fresh _ GURU_STACK [] now s MSG_TRACE_FOLLOWS);
          auto. }
    destruct Hstep as (s1 & -> & F1 & R1 & L1 & S1). cbn [bind]. rewrite F1.
    destruct (drain_loop_trace now (top :: below) s1) as (s' & E & L & F); auto.
    + rewrite L1. intros H. symmetry in H. revert H. apply depth_label_not_header.
    + exists s'. split; [exact E|]. split; [|split; [|split]].
      * rewrite L, S1, <- app_assoc. reflexivity.
      * apply length_expected_trace.
      * intros i Hi. now apply nth_expected_trace.
      * exact F.
Qed.

(** ** The signal handler *)

(** C7 (as amended): the handler first chooses the phrase for the signal
    -- the four fixed phrases for SIGABRT, SIGSEGV, SIGILL and SIGFPE, the
    generic one for any other number -- then sets all four signals to
    SIG_IGN, and only then calls [halt] with the phrase, which does not
    return.  The disabling comes before the halt path, not before the
    choice of the phrase (nor before the frame of the stack trace). *)
Theorem intercept_signal_maps_then_disables_then_halts b sig_err sig now s :
  (forall n, sig_err n = false) ->
  handler_prelude b =
    ((if stack_trace_on b then [StStackTrace] else []) ++
     [StSwitch; StIgnore SIGABRT; StIgnore SIGSEGV; StIgnore SIGILL; StIgnore SIGFPE])%list /\
  intercept_signal b sig_err sig now s =
    halt b (signal_phrase sig) [] now
      (set_signals all_ignored (enter b FInterceptSignal s)) /\
  has_returned (intercept_signal b sig_err sig now s) = false /\
  signal_phrase SIGABRT = "Software requested abort." /\
  signal_phrase SIGSEGV = "Segmentation fault." /\
  signal_phrase SIGILL = "Illegal instruction." /\
  signal_phrase SIGFPE = "Floating-point exception." /\
  (sig <> SIGABRT -> sig <> SIGSEGV -> sig <> SIGILL -> sig <> SIGFPE ->
   signal_phrase sig = "Intercepted unknown signal.").
Proof.
  intros Hok.
  assert (E : intercept_signal b sig_err sig now s =
              halt b (signal_phrase sig) [] now
                (set_signals all_ignored (enter b FInterceptSignal s))).
  { unfold intercept_signal. rewrite bind_of_never_returns by apply halt_never_returns.
    unfold handler_prelude, enter, exec_stmts.
    destruct (stack_trace_on b); cbn [app fold_left exec_stmt hf_guru hf_sig_type];
      unfold do_signal; rewrite !Hok; reflexivity. }
  split; [reflexivity|]. split; [exact E|]. split.
  { rewrite E. apply halt_never_returns. }
  repeat split.
  intros H1 H2 H3 H4. unfold signal_phrase.
  apply Z.eqb_neq in H1, H2, H3, H4. now rewrite H1, H2, H3, H4.
Qed.

(** ** The halt flag *)

(** [halt] never sets [dead_already]: whatever state it leaves has the
    flag as it found it. *)
Lemma halt_keeps_dead_already b error ap now s s' :
  outcome_state (halt b error ap now s) = Some s' ->
  dead_already s' = dead_already s.
Proof.
  intros E. pose proof (halt_post b s error ap now s (cascade_eq_refl s)) as Hp.
  unfold post in Hp. rewrite E in Hp. now destruct Hp as (_ & _ & _ & Hd).
Qed.

(** C1 (the code at the failing input): in a Curses build with the console
    ready, a first [halt] shows its notice and leaves [dead_already]
    false; a segmentation fault caught while that notice is shown brings a
    second fatal report, which does not take the "die peacefully" branch:
    it shows a second notice, writes no warning and does not exit. *)
Theorem second_halt_shows_a_second_notice :
  exists s1 s2,
    halt build_curses "first failure" [] T0 presentable = Presenting s1 /\
    dead_already s1 = false /\
    intercept_signal build_curses signal_succeeds SIGSEGV (T0 + TICKS_PER_SECOND) s1
      = Presenting s2 /\
    dead_already s2 = false /\
    terminal s2 = [BANNER; "first failure"; BANNER; "Segmentation fault."] /\
    lines (syslog s2) =
      ["[01:01:01] Guru error-handling system is online. Hooking signals...";
       "[01:01:01] [CRITICAL] Software Failure, Halting Execution";
       "[01:01:01] [CRITICAL] first failure";
       "[01:01:02] [CRITICAL] Software Failure, Halting Execution";
       "[01:01:02] [CRITICAL] Segmentation fault."].
Proof.
  eexists. eexists.
  split; [vm_compute; reflexivity|].
  split; [reflexivity|].
  split; [vm_compute; reflexivity|].
  repeat split.
Qed.

(** ** Deduplication *)

(** A text that renders to itself is written once, whatever the two
    severities. *)
Lemma log_drops_repeat_of_unformatted_text msg type1 type2 ap1 ap2 now1 now2 s :
  is_open (syslog s) = true ->
  vsprintf msg ap1 = Some msg ->
  exists s1,
    log msg type1 ap1 now1 s = Returned s1 /\
    log msg type2 ap2 now2 s1 = Returned s1.
Proof.
  intros Ho Hv. unfold log at 1. rewrite Ho. simpl negb. cbv iota.
  destruct (String.eqb_spec msg (last_log_message s)) as [E|E].
  - exists s. split; [reflexivity|]. subst msg. apply log_repeat.
  - rewrite Hv. eexists. split; [reflexivity|].
    match goal with |- log msg _ _ _ ?x = _ =>
      change msg with (last_log_message x) at 1 end.
    apply log_repeat.
Qed.

(** Release 1.2 wrote the message unrendered, and there a repeated text is
    always dropped. *)
Lemma log_1_2_drops_repeat msg type1 type2 now1 now2 s :
  is_open (syslog s) = true ->
  exists s1,
    log_1_2 msg type1 now1 s = Returned s1 /\
    log_1_2 msg type2 now2 s1 = Returned s1.
Proof.
  intros Ho. unfold log_1_2 at 1. rewrite Ho. simpl negb. cbv iota.
  destruct (String.eqb_spec msg (last_log_message s)) as [E|E].
  - exists s. split; [reflexivity|]. unfold log_1_2. rewrite Ho, <- E.
    simpl. now rewrite String.eqb_refl.
  - eexists. split; [reflexivity|]. unfold log_1_2, ofstream_put_line.
    cbn [syslog set_syslog set_last_log_message last_log_message].
    rewrite Ho. destruct (failbit (syslog s)); simpl; now rewrite String.eqb_refl.
Qed.

(** C6 (the code at the failing input): two consecutive [log] calls with
    the same message are both written when the message holds a format
    directive, because the repeat check compares the unrendered argument
    with the rendered text of the previous call. *)
Theorem repeated_formatted_message_is_written_twice :
  exists s1 s2 s3 s4,
    log "100%% done" GURU_INFO [] T0 (opened build_default) = Returned s1 /\
    log "100%% done" GURU_INFO [] T0 s1 = Returned s2 /\
    lines (syslog s2) =
      ["[01:01:01] Guru error-handling system is online. Hooking signals...";
       "[01:01:01] 100% done";
       "[01:01:01] 100% done"] /\
    log "%d items" GURU_WARN [ArgInt 3] T0 (opened build_default) = Returned s3 /\
    log "%d items" GURU_ERROR [ArgInt 3] T0 s3 = Returned s4 /\
    lines (syslog s4) =
      ["[01:01:01] Guru error-handling system is online. Hooking signals...";
       "[01:01:01] [WARN] 3 items";
       "[01:01:01] [ERROR] 3 items"].
Proof.
  do 4 eexists.
  split; [vm_compute; reflexivity|].
  split; [vm_compute; reflexivity|].
  split; [reflexivity|].
  split; [vm_compute; reflexivity|].
  split; [vm_compute; reflexivity|].
  reflexivity.
Qed.

(** ** Counterexamples to the claims as first stated *)

(** C7 as stated fails: the first statement the handler executes is the
    [switch] that chooses the phrase, and after it all four signals are
    still hooked, none is ignored yet. *)
Lemma handler_chooses_phrase_before_disabling :
  hd_error (handler_prelude build_default) = Some StSwitch /\
  hf_sig_type
    (exec_stmts signal_succeeds SIGSEGV (mkHandlerFrame (opened build_default) EmptyString)
       (firstn 1 (handler_prelude build_default))) = "Segmentation fault." /\
  signals (hf_guru
    (exec_stmts signal_succeeds SIGSEGV (mkHandlerFrame (opened build_default) EmptyString)
       (firstn 1 (handler_prelude build_default)))) = all_hooked /\
  all_hooked <> all_ignored.
Proof. repeat split. discriminate. Qed.

(** C8 as stated fails: with the pressure at the threshold and no cascade
    declared, a report of severity Info raises the fixed warning, the
    warning trips the cascade, and the process exits through [halt]
    without the original message ever reaching the log. *)
Lemma invalid_severity_message_lost_when_warning_trips :
  is_default GURU_INFO = true /\
  cascade_failure (pressured build_default) = false /\
  sink_ready (pressured build_default) = true /\
  exists s',
    nonfatal build_default "low memory" GURU_INFO [] T0 (pressured build_default)
      = Exited EXIT_FAILURE s' /\
    lines (syslog s') =
      ["[01:01:01] Guru error-handling system is online. Hooking signals...";
       "[01:01:01] [WARN] disk is slow";
       "[01:01:01] [WARN] Nonfatal error reported with incorrect severity specified.";
       "[01:01:01] [CRITICAL] Software Failure, Halting Execution";
       "[01:01:01] [CRITICAL] Cascade failure detected!"] /\
    ~ In (log_line T0 GURU_INFO "low memory") (lines (syslog s')).
Proof.
  split; [reflexivity|]. split; [reflexivity|]. split; [reflexivity|].
  eexists. split; [vm_compute; reflexivity|]. split; [reflexivity|].
  simpl. intros H. repeat (destruct H as [H|H]; [discriminate H|]). exact H.
Qed.

(** ** The theorems at concrete inputs *)

(** A [halt] three calls deep in a build with the stack trace: the trace
    starts with the frame of [halt] itself, and [main] stays on the stack. *)
Example halt_three_deep_trace :
  exists s',
    halt build_traced "boom" [] T0 three_deep = Exited EXIT_FAILURE s' /\
    lines (syslog s') =
      ["[01:01:01] Guru error-handling system is online. Hooking signals...";
       "[01:01:01] [CRITICAL] Software Failure, Halting Execution";
       "[01:01:01] [CRITICAL] boom";
       "[01:01:01] Stack trace follows:";
       "[01:01:01] 3: void guru::halt(std::string, ...)";
       "[01:01:01] 2: void load()";
       "[01:01:01] 1: void run()";
       "[01:01:01] 0: int main()"] /\
    funcs s' = ["int main()"].
Proof. eexists. split; [vm_compute; reflexivity|]. split; reflexivity. Qed.

Lemma cascade_declared_on_sixth_critical :
  is_default GURU_CRITICAL = false /\
  cascade_failure (opened build_default) = false /\
  cascade_count (opened build_default) = 0 /\
  List.length five_criticals = reports_to_threshold GURU_CRITICAL /\
  exists s_n s_t,
    run_nonfatal build_default GURU_CRITICAL five_criticals (opened build_default)
      = Returned s_n /\
    cascade_failure s_n = false /\
    cascade_count s_n = CASCADE_THRESHOLD /\
    nonfatal build_default (r_error sixth_critical) GURU_CRITICAL
      (r_args sixth_critical) (r_now sixth_critical) s_n
      = halt build_default MSG_CASCADE [] (r_now sixth_critical) s_t /\
    has_returned (nonfatal build_default (r_error sixth_critical) GURU_CRITICAL
      (r_args sixth_critical) (r_now sixth_critical) s_n) = false /\
    cascade_failure s_t = true /\
    cascade_count s_t = CASCADE_THRESHOLD + weight_for GURU_CRITICAL.
Proof.
  assert (H1 : is_default GURU_CRITICAL = false) by reflexivity.
  assert (H2 : cascade_failure (opened build_default) = false) by reflexivity.
  assert (H3 : cascade_count (opened build_default) = 0) by reflexivity.
  assert (H4 : List.length five_criticals = reports_to_threshold GURU_CRITICAL)
    by reflexivity.
  assert (H5 : Forall (fun r => report_ok (cascade_timer (opened build_default)) r = true)
                 (five_criticals ++ [sixth_critical])%list).
  { repeat constructor. }
  repeat (split; [assumption|]).
  exact (proj1 (proj2 (cascade_declared_exactly_past_threshold
           build_default GURU_CRITICAL five_criticals sixth_critical
           (opened build_default) H1 H2 H3 H4 H5))).
Defined.

Lemma window_restarts_thirty_one_seconds_later :
  is_default GURU_WARN = false /\
  is_default GURU_ERROR = false /\
  cascade_failure (opened build_default) = false /\
  cascade_timer (opened build_default) <= T0 + 20 * TICKS_PER_SECOND /\
  nonfatal build_default "disk is slow" GURU_WARN [] (T0 + 20 * TICKS_PER_SECOND)
    (opened build_default) = Returned after_one_warning /\
  cascade_count after_one_warning = 1 /\
  CASCADE_TIMEOUT * TICKS_PER_SECOND
    < (T0 + 51 * TICKS_PER_SECOND) - (T0 + 20 * TICKS_PER_SECOND) /\
  renders_twice "disk is full" [] = true /\
  exists s2,
    nonfatal build_default "disk is full" GURU_ERROR [] (T0 + 51 * TICKS_PER_SECOND)
      after_one_warning = Returned s2 /\
    cascade_count s2 = 0 /\
    cascade_timer s2 = T0 + 51 * TICKS_PER_SECOND /\
    cascade_failure s2 = false.
Proof.
  assert (H1 : is_default GURU_WARN = false) by reflexivity.
  assert (H2 : is_default GURU_ERROR = false) by reflexivity.
  assert (H3 : cascade_failure (opened build_default) = false) by reflexivity.
  assert (H4 : cascade_timer (opened build_default) <= T0 + 20 * TICKS_PER_SECOND)
    by (vm_compute; discriminate).
  assert (H5 : nonfatal build_default "disk is slow" GURU_WARN []
                 (T0 + 20 * TICKS_PER_SECOND) (opened build_default)
               = Returned after_one_warning) by (vm_compute; reflexivity).
  assert (H6 : CASCADE_TIMEOUT * TICKS_PER_SECOND
               < (T0 + 51 * TICKS_PER_SECOND) - (T0 + 20 * TICKS_PER_SECOND))
    by (vm_compute; reflexivity).
  assert (H7 : renders_twice "disk is full" [] = true) by reflexivity.
  repeat (split; [first [assumption | reflexivity]|]).
  exact (window_restarts_after_idle_timeout build_default
           "disk is slow" GURU_WARN [] (T0 + 20 * TICKS_PER_SECOND)
           "disk is full" GURU_ERROR [] (T0 + 51 * TICKS_PER_SECOND)
           (opened build_default) after_one_warning H1 H2 H3 H4 H5 H6 H7).
Defined.

Lemma declared_cascade_silences_further_reports :
  cascade_failure declared = true /\
  nonfatal build_curses "still failing" GURU_CRITICAL [] T0 declared = Returned declared /\
  (forall s', outcome_state (exec_call build_curses CCloseSyslog T0 declared) = Some s' ->
              cascade_failure s' = true) /\
  (cascade_halts build_curses stormy_calls (opened build_curses) <= 1)%nat /\
  cascade_halts build_curses stormy_calls declared = 0%nat.
Proof.
  assert (H : cascade_failure declared = true) by (vm_compute; reflexivity).
  pose proof (declared_cascade_is_permanent build_curses) as (P1 & P2 & P3 & P4).
  split; [exact H|]. split; [exact (P2 _ _ _ _ _ H)|].
  split; [intros s' E; exact (P1 _ _ _ _ H E)|].
  split; [apply P3|exact (P4 _ _ H)].
Defined.

Lemma drain_of_three_frames :
  funcs three_deep = ["void load()"; "void run()"; "int main()"] /\
  sink_ready three_deep = true /\
  Forall (fun f => plain f = true) (funcs three_deep) /\
  exists s',
    drain_stack T0 three_deep = Returned s' /\
    lines (syslog s') =
      (lines (syslog three_deep) ++ trace_header T0 three_deep
         ++ expected_trace T0 (funcs three_deep))%list /\
    expected_trace T0 (funcs three_deep) =
      ["[01:01:01] 2: void load()"; "[01:01:01] 1: void run()";
       "[01:01:01] 0: int main()"] /\
    funcs s' = ["int main()"].
Proof.
  assert (H1 : funcs three_deep <> []) by discriminate.
  assert (H2 : sink_ready three_deep = true) by reflexivity.
  assert (H3 : Forall (fun f => plain f = true) (funcs three_deep))
    by (repeat constructor).
  split; [reflexivity|]. split; [exact H2|]. split; [exact H3|].
  destruct (proj2 (drain_reports_every_frame_and_keeps_root T0 three_deep) H1 H2 H3)
    as (s' & E & L & _ & _ & F).
  exists s'. repeat split; assumption.
Defined.

Lemma segfault_is_mapped_then_signals_disabled :
  (forall n, signal_succeeds n = false) /\
  intercept_signal build_default signal_succeeds SIGSEGV T0 (opened build_default) =
    halt build_default "Segmentation fault." [] T0
      (set_signals all_ignored (opened build_default)) /\
  intercept_signal build_default signal_succeeds 15 T0 (opened build_default) =
    halt build_default "Intercepted unknown signal." [] T0
      (set_signals all_ignored (opened build_default)).
Proof.
  assert (H : forall n, signal_succeeds n = false) by reflexivity.
  split; [exact H|]. split.
  - exact (proj1 (proj2 (intercept_signal_maps_then_disables_then_halts
             build_default signal_succeeds SIGSEGV T0 (opened build_default) H))).
  - exact (proj1 (proj2 (intercept_signal_maps_then_disables_then_halts
             build_default signal_succeeds 15 T0 (opened build_default) H))).
Defined.

Lemma info_report_logged_with_its_warning :
  is_default GURU_INFO = true /\
  cascade_failure (opened build_default) = false /\
  sink_ready (opened build_default) = true /\
  0 <= cascade_count (opened build_default) < CASCADE_THRESHOLD /\
  exists s',
    nonfatal build_default "low memory" GURU_INFO [] T0 (opened build_default)
      = Returned s' /\
    lines (syslog s') =
      (lines (syslog (opened build_default)) ++
       [log_line T0 GURU_WARN MSG_BAD_SEVERITY; log_line T0 GURU_INFO "low memory"])%list /\
    cascade_failure s' = false.
Proof.
  assert (H1 : is_default GURU_INFO = true) by reflexivity.
  assert (H2 : cascade_failure (opened build_default) = false) by reflexivity.
  assert (H3 : vsprintf "low memory" [] = Some "low memory") by reflexivity.
  assert (H4 : sink_ready (opened build_default) = true) by reflexivity.
  assert (H5 : last_log_message (opened build_default) <> MSG_BAD_SEVERITY)
    by discriminate.
  assert (H6 : "low memory" <> MSG_BAD_SEVERITY) by discriminate.
  assert (H7 : 0 <= cascade_count (opened build_default) < CASCADE_THRESHOLD)
    by (vm_compute; split; [discriminate|reflexivity]).
  repeat (split; [first [assumption | reflexivity]|]).
  exact (invalid_severity_logged_unless_cascade_trips build_default
           "low memory" GURU_INFO [] T0 (opened build_default)
           "low memory" "low memory" H1 H2 H3 H3 H4 H5 H6 (or_intror H7)).
Defined.

Lemma info_report_at_threshold_declares_cascade :
  is_default GURU_INFO = true /\
  cascade_failure (pressured build_default) = false /\
  within_timeout T0 (cascade_timer (pressured build_default)) = true /\
  cascade_count (pressured build_default) = CASCADE_THRESHOLD /\
  exists s_t,
    nonfatal build_default "low memory" GURU_INFO [] T0 (pressured build_default)
      = halt build_default MSG_CASCADE [] T0 s_t /\
    has_returned
      (nonfatal build_default "low memory" GURU_INFO [] T0 (pressured build_default))
      = false /\
    cascade_failure s_t = true /\
    cascade_count s_t = CASCADE_THRESHOLD + CASCADE_WEIGHT_WARNING.
Proof.
  assert (H1 : is_default GURU_INFO = true) by reflexivity.
  assert (H2 : cascade_failure (pressured build_default) = false) by reflexivity.
  assert (H3 : vsprintf "low memory" [] = Some "low memory") by reflexivity.
  assert (H4 : within_timeout T0 (cascade_timer (pressured build_default)) = true)
    by reflexivity.
  assert (H5 : 0 <= cascade_count (pressured build_default) <= CASCADE_THRESHOLD)
    by (vm_compute; split; discriminate).
  assert (H6 : cascade_count (pressured build_default) = CASCADE_THRESHOLD)
    by reflexivity.
  repeat (split; [first [assumption | reflexivity]|]).
  exact (proj2 (proj2 (proj2 (invalid_severity_adds_warning_weight build_default
           "low memory" GURU_INFO [] T0 (pressured build_default)
           "low memory" "low memory" H1 H2 H3 H3 H4 H5))) H6).
Defined.


(** * Further properties of the code *)

(** ** What the fatal and non-fatal paths leave alone

    A relation between the state before and after that is kept by [log]
    and by the assignments made on the way to [halt] is kept by [halt],
    [nonfatal], [affirm] and [halt(std::exception&)] as a whole. *)

Section Frame.

Variable R : Guru -> Guru -> Prop.
Hypothesis R_refl : forall s, R s s.
Hypothesis R_trans : forall s0 s1 s2, R s0 s1 -> R s1 s2 -> R s0 s2.
Hypothesis R_log : forall msg type ap now s s',
  log msg type ap now s = Returned s' -> R s s'.
Hypothesis R_funcs : forall v s, R s (set_funcs v s).
Hypothesis R_message : forall v s, R s (set_message v s).
Hypothesis R_terminal : forall v s, R s (set_terminal v s).
Hypothesis R_count : forall v s, R s (set_cascade_count v s).
Hypothesis R_failure : forall v s, R s (set_cascade_failure v s).
Hypothesis R_timer : forall v s, R s (set_cascade_timer v s).

Variable b : Build.

Lemma frame_log s0 msg type ap now s :
  R s0 s -> post (R s0) (log msg type ap now s).
Proof.
  intros H. destruct (log msg type ap now s) as [s'| | |] eqn:E;
    try (pose proof (log_outcome msg type ap now s) as [E'|(x & E' & _)];
         rewrite E in E'; discriminate E').
  - unfold post. simpl. eapply R_trans; [exact H|]. eapply R_log; exact E.
  - exact I.
Qed.

Lemma frame_enter f s0 s : R s0 s -> R s0 (enter b f s).
Proof.
  intros H. unfold enter, stack_push. destruct (stack_trace_on b); [|exact H].
  eapply R_trans; [exact H|apply R_funcs].
Qed.

Lemma frame_leave s0 s : R s0 s -> R s0 (leave b s).
Proof.
  intros H. unfold leave, stack_pop. destruct (stack_trace_on b); [|exact H].
  destruct (funcs s); [exact H|]. eapply R_trans; [exact H|apply R_funcs].
Qed.

Lemma frame_scoped f body s0 s :
  R s0 s ->
  (forall s', R s0 s' -> post (R s0) (body s')) ->
  post (R s0) (scoped b f body s).
Proof.
  intros H Hb. unfold scoped. apply post_bind.
  - apply Hb. now apply frame_enter.
  - intros s' H'. unfold post. simpl. now apply frame_leave.
Qed.

Lemma frame_drain_loop s0 now fs : forall s,
  R s0 s -> post (R s0) (drain_loop fs now s).
Proof.
  induction fs as [|top below IH]; intros s H; [exact H|].
  cbn [drain_loop]. apply post_bind; [now apply frame_log|].
  intros s1 H1. destruct below; [exact H1|]. apply IH.
  eapply R_trans; [exact H1|apply R_funcs].
Qed.

Lemma frame_drain_stack s0 now s :
  R s0 s -> post (R s0) (drain_stack now s).
Proof.
  intros H. unfold drain_stack. destruct (funcs s) as [|top below]; [exact H|].
  apply post_bind; [now apply frame_log|].
  intros s' H'. now apply frame_drain_loop.
Qed.

Lemma frame_present s0 s : R s0 s -> post (R s0) (present b s).
Proof.
  intros H. unfold present, draw_curses. destruct (frontend b).
  - exact H.
  - destruct (format (message s ++ newline) []); [|exact I].
    unfold post. simpl. eapply R_trans; [exact H|apply R_terminal].
  - unfold post. simpl.
    destruct (39 <? String.length (message s))%nat.
    + eapply R_trans; [|apply R_terminal].
      eapply R_trans; [exact H|apply R_message].
    + eapply R_trans; [exact H|apply R_terminal].
  - destruct (format (message s) []); [|exact I].
    unfold post. simpl. eapply R_trans; [exact H|apply R_terminal].
Qed.

Lemma frame_halt s0 error ap now s :
  R s0 s -> post (R s0) (halt b error ap now s).
Proof.
  intros H. unfold halt. apply frame_scoped; [exact H|]. intros s1 H1.
  destruct (vsprintf error ap) as [e|]; [|exact I].
  apply post_bind; [now apply frame_log|]. intros s2 H2.
  apply post_bind; [now apply frame_log|]. intros s3 H3.
  apply post_bind.
  { destruct (stack_trace_on b); [now apply frame_drain_stack|exact H3]. }
  intros s4 H4.
  destruct (is_curses b && negb (fully_active s4))%bool; [exact H4|].
  destruct (dead_already s4).
  - apply post_bind; [now apply frame_log|]. intros s5 H5. exact H5.
  - apply frame_present. eapply R_trans; [exact H4|apply R_message].
Qed.

Lemma frame_observe s0 w now s :
  R s0 s -> post (R s0) (observe b w now s).
Proof.
  intros H.
  destruct (observe_cases b w now s)
    as [(_ & Ho)|[(_ & _ & _ & Ho)|[(_ & _ & _ & Ho)|(_ & _ & Ho)]]];
    rewrite Ho.
  - exact H.
  - unfold post. simpl. eapply R_trans; [exact H|apply R_count].
  - apply frame_halt. eapply R_trans; [|apply R_failure].
    eapply R_trans; [exact H|apply R_count].
  - unfold post. simpl. eapply R_trans; [|apply R_count].
    eapply R_trans; [exact H|apply R_timer].
Qed.

Lemma frame_nonfatal_body self error type ap now s0 s :
  (forall e t a n x, R s0 x -> post (R s0) (self e t a n x)) ->
  R s0 s -> post (R s0) (nonfatal_body b self error type ap now s).
Proof.
  intros Hself H. unfold nonfatal_body. destruct (cascade_failure s); [exact H|].
  apply frame_scoped; [exact H|]. intros s1 H1.
  destruct (vsprintf error ap) as [e1|]; [|exact I].
  apply post_bind.
  { destruct (is_default type); [now apply Hself|exact H1]. }
  intros s2 H2. apply post_bind; [now apply frame_log|].
  intros s3 H3. now apply frame_observe.
Qed.

Lemma frame_nonfatal s0 error type ap now s :
  R s0 s -> post (R s0) (nonfatal b error type ap now s).
Proof.
  intros H. unfold nonfatal. apply frame_nonfatal_body; [|exact H].
  intros e t a n x Hx. unfold nonfatal_inner. apply frame_nonfatal_body; [|exact Hx].
  intros. assumption.
Qed.

Lemma frame_affirm s0 condition error now s :
  R s0 s -> post (R s0) (affirm b condition error now s).
Proof.
  intros H. unfold affirm. apply frame_scoped; [exact H|]. intros s1 H1.
  destruct (condition =? 0); [now apply frame_halt|exact H1].
Qed.

Lemma frame_halt_exception s0 what now s :
  R s0 s -> post (R s0) (halt_exception b what now s).
Proof.
  intros H. unfold halt_exception. apply frame_scoped; [exact H|].
  intros s1 H1. now apply frame_halt.
Qed.

End Frame.

(** ** The log file only grows *)

Lemma log_grows_refl s : log_grows s s.
Proof. exists []. now rewrite app_nil_r. Qed.

Lemma log_grows_trans s0 s1 s2 :
  log_grows s0 s1 -> log_grows s1 s2 -> log_grows s0 s2.
Proof.
  intros [l1 H1] [l2 H2]. exists (l1 ++ l2)%list.
  now rewrite H2, H1, app_assoc.
Qed.

Lemma log_grows_same_file s s' : syslog s' = syslog s -> log_grows s s'.
Proof. intros E. exists []. now rewrite E, app_nil_r. Qed.

Lemma log_grows_log msg type ap now s s' :
  log msg type ap now s = Returned s' -> log_grows s s'.
Proof.
  unfold log. destruct (is_open (syslog s)) eqn:Ho; simpl.
  - destruct (String.eqb msg (last_log_message s)).
    + intros E. injection E as <-. apply log_grows_refl.
    + destruct (vsprintf msg ap) as [m|]; [|discriminate].
      intros E. injection E as <-. unfold log_grows, ofstream_put_line. simpl.
      rewrite Ho. destruct (failbit (syslog s)); simpl.
      * exists []. now rewrite app_nil_r.
      * eexists. reflexivity.
  - intros E. injection E as <-. apply log_grows_refl.
Qed.

Lemma close_syslog_grows b now s0 s :
  log_grows s0 s -> post (log_grows s0) (close_syslog b now s).
Proof.
  intros H. unfold close_syslog.
  apply (frame_scoped log_grows log_grows_trans
           (fun v x => log_grows_same_file x (set_funcs v x) eq_refl));
    [exact H|].
  intros s1 H1.
  apply post_bind.
  { apply (frame_log log_grows log_grows_trans log_grows_log). exact H1. }
  intros s2 H2. apply post_bind.
  { apply (frame_log log_grows log_grows_trans log_grows_log). exact H2. }
  intros s3 H3. unfold post. simpl.
  eapply log_grows_trans; [exact H3|].
  exists []. unfold ofstream_close. simpl.
  destruct (is_open (syslog s3)); simpl; now rewrite app_nil_r.
Qed.

Lemma halt_grows b s0 error ap now s :
  log_grows s0 s -> post (log_grows s0) (halt b error ap now s).
Proof.
  apply (frame_halt log_grows log_grows_trans log_grows_log);
    intros v x; now apply log_grows_same_file.
Qed.

Lemma nonfatal_grows b s0 error type ap now s :
  log_grows s0 s -> post (log_grows s0) (nonfatal b error type ap now s).
Proof.
  apply (frame_nonfatal log_grows log_grows_trans log_grows_log);
    intros v x; now apply log_grows_same_file.
Qed.

Lemma exec_stmts_same_file sig_err sig sts : forall f,
  syslog (hf_guru (exec_stmts sig_err sig f sts)) = syslog (hf_guru f).
Proof.
  unfold exec_stmts. induction sts as [|st sts IH]; intros f; [reflexivity|].
  simpl. rewrite IH. destruct st; simpl; try reflexivity.
  unfold do_signal. now destruct (sig_err signum).
Qed.

(** X1: the log is append-only.  Whatever entry point other than
    [open_syslog] is called, with whatever outcome, the lines of the log
    file afterwards are the lines before with zero or more lines added at
    the end: nothing the system wrote is ever removed or rewritten, not
    even by [halt], by [close_syslog] or by the key that ends a notice. *)
Theorem log_file_only_grows b c now s s' :
  reopens_log c = false ->
  outcome_state (exec_call b c now s) = Some s' ->
  exists added, lines (syslog s') = (lines (syslog s) ++ added)%list.
Proof.
  intros Hc E.
  assert (P : post (log_grows s) (exec_call b c now s)).
  { pose proof (log_grows_refl s) as Hs.
    destruct c; cbn [exec_call]; try discriminate Hc.
    - apply (frame_affirm log_grows log_grows_trans log_grows_log);
        try (intros v x; now apply log_grows_same_file). exact Hs.
    - now apply close_syslog_grows.
    - exact Hs.
    - now apply halt_grows.
    - apply (frame_halt_exception log_grows log_grows_trans log_grows_log);
        try (intros v x; now apply log_grows_same_file). exact Hs.
    - unfold intercept_signal. apply post_bind.
      + apply halt_grows. apply log_grows_same_file, exec_stmts_same_file.
      + intros x Hx. unfold post. simpl.
        eapply log_grows_trans; [exact Hx|]. apply log_grows_same_file.
        now destruct (leave_fields b x) as (-> & _).
    - apply (frame_log log_grows log_grows_trans log_grows_log). exact Hs.
    - now apply nonfatal_grows.
    - exact Hs.
    - unfold post, stack_pop. simpl. destruct (funcs s); exact Hs.
    - unfold presenter_getch.
      destruct (key =? KEY_RESIZE); [exact Hs|].
      destruct (key =? KEY_ESCAPE); [|exact Hs].
      apply post_bind; [now apply close_syslog_grows|]. intros x Hx. exact Hx. }
  unfold post in P. rewrite E in P. exact P.
Qed.

(** ** The surroundings *)

Lemma surroundings_eq_refl s : surroundings_eq s s.
Proof. unfold surroundings_eq. auto. Qed.

Lemma surroundings_eq_trans s0 s1 s2 :
  surroundings_eq s0 s1 -> surroundings_eq s1 s2 -> surroundings_eq s0 s2.
Proof. unfold surroundings_eq. intuition congruence. Qed.

Lemma surroundings_eq_log msg type ap now s s' :
  log msg type ap now s = Returned s' -> surroundings_eq s s'.
Proof.
  intros E.
  destruct (log_outcome msg type ap now s)
    as [E'|(x & E' & _ & _ & Hs & _ & _ & Hf & Ho)]; rewrite E in E';
    [discriminate|].
  injection E' as <-. unfold surroundings_eq. auto.
Qed.

Lemma halt_surroundings b s0 error ap now s :
  surroundings_eq s0 s -> post (surroundings_eq s0) (halt b error ap now s).
Proof.
  apply (frame_halt surroundings_eq surroundings_eq_trans surroundings_eq_log);
    intros v x; unfold surroundings_eq; simpl; auto.
Qed.

(** X2: the fatal and non-fatal reporting paths leave the surroundings
    alone.  [halt] (with a message or an exception), [affirm], [nonfatal],
    [log] and the stack-trace guards never change a signal disposition,
    never change the console-ready flag, and never open or close the log
    file, whatever their outcome. *)
Theorem reporting_leaves_surroundings_alone b c now s s' :
  manages_surroundings c = false ->
  outcome_state (exec_call b c now s) = Some s' ->
  signals s' = signals s /\
  fully_active s' = fully_active s /\
  is_open (syslog s') = is_open (syslog s).
Proof.
  intros Hc E.
  assert (P : post (surroundings_eq s) (exec_call b c now s)).
  { pose proof (surroundings_eq_refl s) as Hs.
    destruct c; cbn [exec_call]; try discriminate Hc.
    - apply (frame_affirm surroundings_eq surroundings_eq_trans surroundings_eq_log);
        try (intros v x; unfold surroundings_eq; simpl; auto). exact Hs.
    - now apply halt_surroundings.
    - apply (frame_halt_exception surroundings_eq surroundings_eq_trans
               surroundings_eq_log);
        try (intros v x; unfold surroundings_eq; simpl; auto). exact Hs.
    - apply (frame_log surroundings_eq surroundings_eq_trans surroundings_eq_log).
      exact Hs.
    - apply (frame_nonfatal surroundings_eq surroundings_eq_trans
               surroundings_eq_log);
        try (intros v x; unfold surroundings_eq; simpl; auto). exact Hs.
    - exact Hs.
    - unfold post, stack_pop. simpl. destruct (funcs s); exact Hs. }
  unfold post in P. rewrite E in P. exact P.
Qed.

(** X3: once the signal handler has run, the four signals stay ignored:
    in whatever state [intercept_signal] leaves (the process has exited or
    shows the notice), SIGABRT, SIGSEGV, SIGILL and SIGFPE are all set to
    SIG_IGN, so that a further fault cannot enter the handler again. *)
Theorem caught_signal_leaves_all_four_ignored b sig_err sig now s s' :
  (forall n, sig_err n = false) ->
  outcome_state (intercept_signal b sig_err sig now s) = Some s' ->
  signals s' = all_ignored /\
  disposition SIGABRT (signals s') = SIG_IGN /\
  disposition SIGSEGV (signals s') = SIG_IGN /\
  disposition SIGILL (signals s') = SIG_IGN /\
  disposition SIGFPE (signals s') = SIG_IGN.
Proof.
  intros Hok E.
  assert (Hs : signals s' = all_ignored).
  { assert (Hpre : signals (hf_guru (exec_stmts sig_err sig
                      (mkHandlerFrame s EmptyString) (handler_prelude b)))
                   = all_ignored).
    { unfold handler_prelude, exec_stmts.
      destruct (stack_trace_on b); cbn [app fold_left exec_stmt hf_guru hf_sig_type];
        unfold do_signal; rewrite !Hok; reflexivity. }
    unfold intercept_signal in E.
    rewrite bind_of_never_returns in E by apply halt_never_returns.
    set (f := exec_stmts sig_err sig (mkHandlerFrame s EmptyString)
                (handler_prelude b)) in *.
    pose proof (halt_surroundings b (hf_guru f) (hf_sig_type f) [] now (hf_guru f)
                  (surroundings_eq_refl _)) as P.
    unfold post in P. rewrite E in P. destruct P as (P & _). congruence. }
  rewrite Hs. repeat split.
Qed.

(** ** The halt path, in two parts *)

Lemma halt_epilogue_never_returns b e now s :
  has_returned (halt_epilogue b e now s) = false.
Proof.
  unfold halt_epilogue.
  destruct (is_curses b && negb (fully_active s))%bool; [reflexivity|].
  destruct (dead_already s).
  - apply bind_never_returns. reflexivity.
  - apply present_never_returns.
Qed.

Lemma halt_decompose b error ap now s e :
  vsprintf error ap = Some e ->
  halt b error ap now s =
  (s4 <- halt_prologue b e now (enter b FHalt s) ;; halt_epilogue b e now s4).
Proof.
  intros Hv. unfold halt, scoped, halt_prologue. rewrite Hv.
  fold (halt_epilogue b e now).
  destruct (log BANNER GURU_CRITICAL [] now (enter b FHalt s)) as [s1| | |];
    try reflexivity. cbn [bind].
  destruct (log e GURU_CRITICAL [] now s1) as [s2| | |]; try reflexivity.
  cbn [bind].
  destruct (if stack_trace_on b then drain_stack now s2 else Returned s2)
    as [s3| | |]; try reflexivity.
  cbn [bind]. apply bind_of_never_returns, halt_epilogue_never_returns.
Qed.

Lemma halt_undefined_rendering b error ap now s :
  vsprintf error ap = None -> halt b error ap now s = Undefined.
Proof. intros Hv. unfold halt, scoped. now rewrite Hv. Qed.

Lemma core_eq_refl s : core_eq s s.
Proof.
  unfold core_eq. auto using cascade_eq_refl, surroundings_eq_refl.
Qed.

Lemma core_eq_trans s0 s1 s2 : core_eq s0 s1 -> core_eq s1 s2 -> core_eq s0 s2.
Proof.
  unfold core_eq. intros (A1 & B1 & C1 & D1) (A2 & B2 & C2 & D2).
  split; [eapply cascade_eq_trans; eauto|].
  split; [eapply surroundings_eq_trans; eauto|].
  split; congruence.
Qed.

Lemma core_eq_log msg type ap now s s' :
  log msg type ap now s = Returned s' -> core_eq s s'.
Proof.
  intros E.
  destruct (log_outcome msg type ap now s)
    as [E'|(x & E' & Hc & _ & Hs & Ht & Hm & Hf & Ho)]; rewrite E in E';
    [discriminate|].
  injection E' as <-. unfold core_eq, surroundings_eq. auto.
Qed.

Lemma core_eq_funcs v s : core_eq s (set_funcs v s).
Proof. unfold core_eq, cascade_eq, surroundings_eq. simpl. auto 10. Qed.

Lemma core_eq_enter b f s : core_eq s (enter b f s).
Proof.
  unfold enter, stack_push. destruct (stack_trace_on b);
    [apply core_eq_funcs|apply core_eq_refl].
Qed.

(** The first part of [halt] only logs: it returns or is undefined, and
    touches nothing but the log and the stack. *)
Lemma halt_prologue_outcome b e now s :
  halt_prologue b e now s = Undefined \/
  exists s4, halt_prologue b e now s = Returned s4 /\ core_eq s s4.
Proof.
  assert (P : post (core_eq s) (halt_prologue b e now s)).
  { unfold halt_prologue.
    apply post_bind.
    { apply (frame_log core_eq core_eq_trans core_eq_log), core_eq_refl. }
    intros s1 H1. apply post_bind.
    { now apply (frame_log core_eq core_eq_trans core_eq_log). }
    intros s2 H2. destruct (stack_trace_on b); [|exact H2].
    now apply (frame_drain_stack core_eq core_eq_trans core_eq_log core_eq_funcs). }
  assert (Q : halt_prologue b e now s = Undefined \/
              has_returned (halt_prologue b e now s) = true).
  { unfold halt_prologue.
    destruct (log_outcome BANNER GURU_CRITICAL [] now s) as [->|(s1 & -> & _)];
      [now left|]. cbn [bind].
    destruct (log_outcome e GURU_CRITICAL [] now s1) as [->|(s2 & -> & _)];
      [now left|]. cbn [bind].
    destruct (stack_trace_on b); [|now right].
    unfold drain_stack. destruct (funcs s2) as [|top below]; [now right|].
    destruct (log_outcome MSG_TRACE_FOLLOWS GURU_STACK [] now s2)
      as [->|(s3 & -> & _)]; [now left|]. cbn [bind].
    generalize (funcs s3) as fs. intros fs. revert s3.
    induction fs as [|t l IH]; intros s3; [now right|].
    cbn [drain_loop].
    destruct (log_outcome (to_string (List.length (t :: l) - 1) ++ ": " ++ t)
                GURU_STACK [] now s3) as [->|(s5 & -> & _)]; [now left|].
    cbn [bind]. destruct l; [now right|]. apply IH. }
  destruct Q as [Q|Q]; [now left|right].
  destruct (halt_prologue b e now s) as [s4| | |]; try discriminate Q.
  exists s4. split; [reflexivity|exact P].
Qed.

Lemma drain_loop_returns now : forall fs s,
  Forall (fun f => plain f = true) fs ->
  exists s', drain_loop fs now s = Returned s'.
Proof.
  induction fs as [|top below IH]; intros s Hp; [now exists s|].
  inversion Hp as [|x l Ptop Pbelow]; subst x l.
  cbn [drain_loop].
  destruct (log_returns (to_string (List.length (top :: below) - 1) ++ ": " ++ top)
              GURU_STACK [] now s _
              (vsprintf_plain _ [] (plain_depth_label _ top Ptop)))
    as (s1 & -> & _).
  cbn [bind]. destruct below as [|b0 rest]; [now exists s1|].
  now apply IH.
Qed.

(** With a message that renders and [%]-free frame names, the first part
    of [halt] returns. *)
Lemma halt_prologue_returns b e e2 now s :
  vsprintf e [] = Some e2 ->
  frames_plain s ->
  exists s4, halt_prologue b e now s = Returned s4 /\ core_eq s s4.
Proof.
  intros He Hp.
  destruct (halt_prologue_outcome b e now s) as [U|R]; [exfalso|exact R].
  revert U. unfold halt_prologue.
  destruct (log_returns BANNER GURU_CRITICAL [] now s BANNER eq_refl)
    as (s1 & -> & _ & F1 & _). cbn [bind].
  destruct (log_returns e GURU_CRITICAL [] now s1 e2 He) as (s2 & -> & _ & F2 & _).
  cbn [bind]. destruct (stack_trace_on b); [|discriminate].
  unfold drain_stack. destruct (funcs s2) as [|top below] eqn:E2; [discriminate|].
  destruct (log_returns MSG_TRACE_FOLLOWS GURU_STACK [] now s2 MSG_TRACE_FOLLOWS eq_refl)
    as (s3 & -> & _ & F3 & _). cbn [bind].
  destruct (drain_loop_returns now (funcs s3) s3) as (s' & ->); [|discriminate].
  unfold frames_plain in Hp. replace (funcs s3) with (funcs s) by congruence.
  exact Hp.
Qed.

Lemma frames_plain_enter b f s : frames_plain s -> frames_plain (enter b f s).
Proof.
  unfold frames_plain, enter, stack_push. intros H.
  destruct (stack_trace_on b); [|exact H]. simpl. constructor; [|exact H].
  destruct f; reflexivity.
Qed.

(** Every fatal call whose message and frame names render reaches the
    second part of [halt], on a state that differs from the one it was
    called in only by the log and the stack. *)
Lemma halt_reaches_epilogue b error ap now s e e2 :
  vsprintf error ap = Some e ->
  vsprintf e [] = Some e2 ->
  frames_plain s ->
  exists s4, core_eq s s4 /\
    halt b error ap now s = halt_epilogue b e now s4.
Proof.
  intros H1 H2 Hp. rewrite (halt_decompose b error ap now s e H1).
  destruct (halt_prologue_returns b e e2 now (enter b FHalt s) H2
              (frames_plain_enter b FHalt s Hp)) as (s4 & -> & Hc).
  exists s4. split; [|reflexivity].
  eapply core_eq_trans; [apply core_eq_enter|exact Hc].
Qed.

(** ** Where the halt path ends *)

(** X4: the fatal entry points never return to their caller.  [halt] with
    a message, [halt] with an exception, the signal handler, and [affirm]
    with a false condition all end in an exit or in the loop of the notice
    (or in the undefined behaviour of a bad format), in every build. *)
Theorem fatal_entry_points_never_return b :
  (forall error ap now s, has_returned (halt b error ap now s) = false) /\
  (forall what now s, has_returned (halt_exception b what now s) = false) /\
  (forall sig_err sig now s,
     has_returned (intercept_signal b sig_err sig now s) = false) /\
  (forall error now s, has_returned (affirm b 0 error now s) = false).
Proof.
  repeat split.
  - intros. apply halt_never_returns.
  - intros. unfold halt_exception. apply scoped_never_returns.
    intros. apply halt_never_returns.
  - intros. unfold intercept_signal.
    rewrite bind_of_never_returns; apply halt_never_returns.
  - intros. unfold affirm. apply scoped_never_returns.
    intros. cbn. apply halt_never_returns.
Qed.

Lemma exits_with_failure_bind o k :
  exits_with_failure o -> (forall s, exits_with_failure (k s)) ->
  exits_with_failure (bind o k).
Proof. destruct o; simpl; auto. Qed.

Lemma log_exits_with_failure msg type ap now s :
  exits_with_failure (log msg type ap now s).
Proof.
  destruct (log_outcome msg type ap now s) as [->|(s' & -> & _)]; exact I.
Qed.

Lemma drain_stack_exits_with_failure now s :
  exits_with_failure (drain_stack now s).
Proof.
  unfold drain_stack. destruct (funcs s) as [|top below]; [exact I|].
  apply exits_with_failure_bind; [apply log_exits_with_failure|]. intros s3.
  generalize (funcs s3) as fs. intros fs. revert s3.
  induction fs as [|t l IH]; intros s3; [exact I|]. cbn [drain_loop].
  apply exits_with_failure_bind; [apply log_exits_with_failure|]. intros s4.
  destruct l; [exact I|apply IH].
Qed.

Lemma halt_exits_with_failure b error ap now s :
  exits_with_failure (halt b error ap now s).
Proof.
  unfold halt, scoped. apply exits_with_failure_bind; [|intros; exact I].
  destruct (vsprintf error ap) as [e|]; [|exact I].
  apply exits_with_failure_bind; [apply log_exits_with_failure|]. intros s1.
  apply exits_with_failure_bind; [apply log_exits_with_failure|]. intros s2.
  apply exits_with_failure_bind.
  { destruct (stack_trace_on b); [apply drain_stack_exits_with_failure|exact I]. }
  intros s3.
  destruct (is_curses b && negb (fully_active s3))%bool; [reflexivity|].
  destruct (dead_already s3).
  - apply exits_with_failure_bind; [apply log_exits_with_failure|].
    intros; reflexivity.
  - unfold present. destruct (frontend b); try exact I; try reflexivity.
    + destruct (format (message (set_message e s3) ++ newline) []);
        [reflexivity|exact I].
    + destruct (format (message (set_message e s3)) []); exact I.
Qed.

Lemma scoped_exits_with_failure b f body s :
  (forall x, exits_with_failure (body x)) ->
  exits_with_failure (scoped b f body s).
Proof.
  intros H. unfold scoped. apply exits_with_failure_bind; [apply H|intros; exact I].
Qed.

Lemma close_syslog_exits_with_failure b now s :
  exits_with_failure (close_syslog b now s).
Proof.
  unfold close_syslog. apply scoped_exits_with_failure. intros x.
  apply exits_with_failure_bind; [apply log_exits_with_failure|]. intros s1.
  apply exits_with_failure_bind; [apply log_exits_with_failure|]. intros s2.
  exact I.
Qed.

Lemma observe_exits_with_failure b w now s :
  exits_with_failure (observe b w now s).
Proof.
  destruct (observe_cases b w now s)
    as [(_ & ->)|[(_ & _ & _ & ->)|[(_ & _ & _ & ->)|(_ & _ & ->)]]];
    try exact I. apply halt_exits_with_failure.
Qed.

Lemma nonfatal_body_exits_with_failure b self error type ap now s :
  (forall e t a n x, exits_with_failure (self e t a n x)) ->
  exits_with_failure (nonfatal_body b self error type ap now s).
Proof.
  intros Hself. unfold nonfatal_body. destruct (cascade_failure s); [exact I|].
  apply scoped_exits_with_failure. intros x.
  destruct (vsprintf error ap) as [e1|]; [|exact I].
  apply exits_with_failure_bind.
  { destruct (is_default type); [apply Hself|exact I]. }
  intros s1. apply exits_with_failure_bind; [apply log_exits_with_failure|].
  intros s2. apply observe_exits_with_failure.
Qed.

Lemma hook_exits_with_failure b sig_err sig msg now s :
  exits_with_failure (hook b sig_err sig msg now s).
Proof.
  unfold hook. destruct (sig_err sig); [apply halt_exits_with_failure|exact I].
Qed.

(** X5: the system never ends the process with a success status.  Whatever
    entry point is called, in whatever build and state, if the call ends
    in [exit] then the status is EXIT_FAILURE: this holds for a halt, for a
    declared cascade, for a signal, for a failed hook in [open_syslog] and
    for the Escape key that dismisses the notice. *)
Theorem every_exit_is_a_failure b c now s code s' :
  exec_call b c now s = Exited code s' -> code = EXIT_FAILURE.
Proof.
  intros E.
  assert (P : exits_with_failure (exec_call b c now s)).
  { destruct c; cbn [exec_call].
    - unfold affirm. apply scoped_exits_with_failure. intros x.
      destruct (condition =? 0); [apply halt_exits_with_failure|exact I].
    - apply close_syslog_exits_with_failure.
    - exact I.
    - apply halt_exits_with_failure.
    - unfold halt_exception. apply scoped_exits_with_failure. intros x.
      apply halt_exits_with_failure.
    - unfold intercept_signal.
      apply exits_with_failure_bind; [apply halt_exits_with_failure|].
      intros; exact I.
    - apply log_exits_with_failure.
    - unfold nonfatal. apply nonfatal_body_exits_with_failure.
      intros. unfold nonfatal_inner. apply nonfatal_body_exits_with_failure.
      intros. exact I.
    - unfold open_syslog.
      apply exits_with_failure_bind; [apply log_exits_with_failure|]. intros s1.
      apply exits_with_failure_bind; [apply hook_exits_with_failure|]. intros s2.
      apply exits_with_failure_bind; [apply hook_exits_with_failure|]. intros s3.
      apply exits_with_failure_bind; [apply hook_exits_with_failure|]. intros s4.
      apply exits_with_failure_bind; [apply hook_exits_with_failure|]. intros s5.
      exact I.
    - exact I.
    - exact I.
    - unfold presenter_getch.
      destruct (key =? KEY_RESIZE); [exact I|].
      destruct (key =? KEY_ESCAPE); [|exact I].
      apply exits_with_failure_bind; [apply close_syslog_exits_with_failure|].
      intros; reflexivity. }
  rewrite E in P. exact P.
Qed.

(** X6: a halt in a Curses build before [console_ready(true)] ends the
    process at once.  With a message and frame names that render, the
    call is an exit with EXIT_FAILURE; nothing is drawn on the terminal and
    the message is not even stored for display. *)
Theorem halt_before_console_ready_exits b error ap now s e e2 :
  frontend b = Curses ->
  fully_active s = false ->
  vsprintf error ap = Some e ->
  vsprintf e [] = Some e2 ->
  frames_plain s ->
  exists s',
    halt b error ap now s = Exited EXIT_FAILURE s' /\
    terminal s' = terminal s /\
    message s' = message s.
Proof.
  intros Hb Ha H1 H2 Hp.
  destruct (halt_reaches_epilogue b error ap now s e e2 H1 H2 Hp)
    as (s4 & (_ & (_ & Hf & _) & Hm & Ht) & ->).
  unfold halt_epilogue, is_curses. rewrite Hb, Hf, Ha. simpl.
  exists s4. auto.
Qed.

Lemma length_prefix_le : forall n s,
  (String.length (substring 0 n s) <= n)%nat.
Proof.
  induction n as [|n IH]; intros s; destruct s as [|c s]; simpl; try lia.
  specialize (IH s). lia.
Qed.

Lemma prefix_of_substring : forall n s, prefix (substring 0 n s) s = true.
Proof.
  induction n as [|n IH]; intros s; destruct s as [|c s]; simpl; try reflexivity.
  destruct (ascii_dec c c) as [_|N]; [apply IH|now elim N].
Qed.

Lemma prefix_refl : forall s, prefix s s = true.
Proof.
  induction s as [|c s IH]; simpl; [reflexivity|].
  destruct (ascii_dec c c) as [_|N]; [exact IH|now elim N].
Qed.

(** X7: the notice of the Curses front end shows at most 39 characters of
    the message.  With the console ready, [halt] draws the banner and the
    message and waits in the loop of the notice; the message it keeps and
    draws is the rendered message itself when that has at most 39
    characters, and otherwise its first 39 characters. *)
Theorem halt_curses_notice_cut_to_39_characters b error ap now s e e2 :
  frontend b = Curses ->
  fully_active s = true ->
  dead_already s = false ->
  vsprintf error ap = Some e ->
  vsprintf e [] = Some e2 ->
  frames_plain s ->
  exists s',
    halt b error ap now s = Presenting s' /\
    (String.length (message s') <= 39)%nat /\
    prefix (message s') e = true /\
    ((String.length e <= 39)%nat -> message s' = e) /\
    ((39 < String.length e)%nat -> String.length (message s') = 39%nat) /\
    terminal s' = (terminal s ++ [BANNER; message s'])%list.
Proof.
  intros Hb Ha Hd H1 H2 Hp.
  destruct (halt_reaches_epilogue b error ap now s e e2 H1 H2 Hp)
    as (s4 & ((_ & _ & _ & Hdead) & (_ & Hf & _) & Hm & Ht) & ->).
  unfold halt_epilogue, is_curses, present, draw_curses.
  rewrite Hb, Hf, Ha, Hdead, Hd. cbn [andb negb message set_message].
  destruct (Nat.ltb_spec 39 (String.length e)) as [Hlong|Hshort].
  - eexists. split; [reflexivity|]. cbn [message terminal set_message set_terminal].
    rewrite Ht. repeat split.
    + apply length_prefix_le.
    + apply prefix_of_substring.
    + intros Hle. lia.
    + intros _. clear -Hlong. revert Hlong. generalize 39%nat as n.
      intros n. revert e. induction n as [|n IH]; intros e Hl;
        destruct e as [|c e]; simpl in *; try lia.
      rewrite IH by lia. reflexivity.
  - eexists. split; [reflexivity|]. cbn [message terminal set_message set_terminal].
    rewrite Ht. repeat split.
    + exact Hshort.
    + apply prefix_refl.
    + intros Hgt. lia.
Qed.

(** X8: the console front end prints and exits.  In a console build a
    halt whose message renders prints the banner line and then the message
    -- passed to [printf] as a format of its own, so rendered once more --
    and ends the process with EXIT_FAILURE; the message kept in [message]
    is the one rendered by [halt]. *)
Theorem halt_console_prints_banner_and_message b error ap now s e e2 out :
  frontend b = Console ->
  dead_already s = false ->
  vsprintf error ap = Some e ->
  vsprintf e [] = Some e2 ->
  format (e ++ newline) [] = Some out ->
  frames_plain s ->
  exists s',
    halt b error ap now s = Exited EXIT_FAILURE s' /\
    terminal s' = (terminal s ++ [(BANNER ++ newline)%string; out])%list /\
    message s' = e /\
    (plain e = true -> out = e ++ newline).
Proof.
  intros Hb Hd H1 H2 H3 Hp.
  destruct (halt_reaches_epilogue b error ap now s e e2 H1 H2 Hp)
    as (s4 & ((_ & _ & _ & Hdead) & _ & Hm & Ht) & ->).
  unfold halt_epilogue, is_curses, present.
  rewrite Hb, Hdead, Hd. cbn [andb message set_message]. rewrite H3.
  eexists. split; [reflexivity|]. cbn [message terminal set_message set_terminal].
  rewrite Ht. repeat split.
  intros Hpl.
  assert (Hpn : plain (e ++ newline) = true) by (apply plain_app; [exact Hpl|reflexivity]).
  rewrite (format_plain _ [] Hpn) in H3. now injection H3.
Qed.

(** X9: what a halt writes to the log is the message rendered twice.  In a
    build without front end and without stack trace, on a sink that takes
    lines, [halt] appends the banner line and the line of the message,
    both tagged [CRITICAL], and exits with EXIT_FAILURE without showing
    anything; the text in the log is the rendering by [log] of the message
    already rendered by [halt], while [message] keeps the first rendering. *)
Theorem halt_logs_banner_and_twice_rendered_message b error ap now s e e2 :
  frontend b = Headless ->
  stack_trace_on b = false ->
  dead_already s = false ->
  sink_ready s = true ->
  last_log_message s <> BANNER ->
  e <> BANNER ->
  vsprintf error ap = Some e ->
  vsprintf e [] = Some e2 ->
  exists s',
    halt b error ap now s = Exited EXIT_FAILURE s' /\
    lines (syslog s') =
      (lines (syslog s) ++
       [log_line now GURU_CRITICAL BANNER; log_line now GURU_CRITICAL e2])%list /\
    message s' = e /\
    terminal s' = terminal s.
Proof.
  intros Hb Ht Hd Hr Hl He H1 H2.
  rewrite (halt_decompose b error ap now s e H1).
  unfold enter, halt_prologue. rewrite Ht.
  rewrite (log_fresh BANNER GURU_CRITICAL [] now s BANNER); auto.
  cbn [bind].
  rewrite (log_fresh e GURU_CRITICAL [] now _ e2); auto.
  cbn [bind]. unfold halt_epilogue, is_curses, present. rewrite Hb.
  cbn [andb dead_already logged set_syslog set_last_log_message]. rewrite Hd.
  eexists. split; [reflexivity|]. simpl. rewrite <- app_assoc. auto.
Qed.

(** X10: a message whose rendering still holds a directive makes a halt
    undefined when the log is open.  [halt] renders the message and hands
    the result to [log], which renders it again without arguments: if that
    second rendering is not defined (say the message was ["%s"] with the
    argument ["100%d"]), the call has undefined behaviour, in every
    build. *)
Theorem halt_with_directive_left_in_message_is_undefined b error ap now s e :
  is_open (syslog s) = true ->
  e <> BANNER ->
  vsprintf error ap = Some e ->
  vsprintf e [] = None ->
  halt b error ap now s = Undefined.
Proof.
  intros Ho He H1 H2.
  rewrite (halt_decompose b error ap now s e H1). unfold halt_prologue.
  destruct (log_returns BANNER GURU_CRITICAL [] now (enter b FHalt s) BANNER eq_refl)
    as (s1 & E1 & _ & _ & O1).
  rewrite E1. cbn [bind].
  assert (L1 : last_log_message s1 = BANNER).
  { revert E1. unfold log.
    destruct (is_open (syslog (enter b FHalt s))) eqn:O; cbn [negb].
    - destruct (String.eqb_spec BANNER (last_log_message (enter b FHalt s))) as [Q|Q].
      + intros E. injection E as <-. now symmetry.
      + rewrite (vsprintf_plain BANNER [] eq_refl).
        intros E. injection E as <-. reflexivity.
    - destruct (enter_fields b FHalt s) as (F & _). rewrite F, Ho in O. discriminate. }
  assert (O2 : is_open (syslog s1) = true).
  { rewrite O1. destruct (enter_fields b FHalt s) as (-> & _). exact Ho. }
  unfold log at 1. rewrite O2, L1. simpl negb. cbv iota.
  apply String.eqb_neq in He. rewrite He, H2. reflexivity.
Qed.

(** ** The cascade detector and the other entry points *)

Lemma pressure_eq_of_cascade_eq s0 s : cascade_eq s0 s -> pressure_eq s0 s.
Proof. intros (A & B & _). split; assumption. Qed.

Lemma exec_call_pressure_eq b c now s :
  is_nonfatal c = false -> post (pressure_eq s) (exec_call b c now s).
Proof.
  intros Hc.
  pose proof (cascade_eq_refl s) as Hs.
    assert (W : forall o, post (cascade_eq s) o -> post (pressure_eq s) o).
    { intros o Ho. eapply post_weaken; [exact Ho|].
      intros x. apply pressure_eq_of_cascade_eq. }
    destruct c; cbn [exec_call]; try discriminate Hc.
    - apply W. unfold affirm. apply scoped_post; [exact Hs|]. intros s1 H1.
      destruct (condition =? 0); [now apply halt_post|exact H1].
    - apply W. now apply close_syslog_post.
    - split; reflexivity.
    - apply W. now apply halt_post.
    - apply W. unfold halt_exception. apply scoped_post; [exact Hs|].
      intros s1 H1. now apply halt_post.
    - apply W. now apply intercept_signal_post.
    - apply W. now apply log_post.
    - unfold open_syslog.
      apply post_bind_weaken with (R1 := cascade_eq s);
        [now apply log_post|apply pressure_eq_of_cascade_eq|]. intros s1 H1.
      apply post_bind_weaken with (R1 := cascade_eq s);
        [now apply hook_post|apply pressure_eq_of_cascade_eq|]. intros s2 H2.
      apply post_bind_weaken with (R1 := cascade_eq s);
        [now apply hook_post|apply pressure_eq_of_cascade_eq|]. intros s3 H3.
      apply post_bind_weaken with (R1 := cascade_eq s);
        [now apply hook_post|apply pressure_eq_of_cascade_eq|]. intros s4 H4.
      apply post_bind_weaken with (R1 := cascade_eq s);
        [now apply hook_post|apply pressure_eq_of_cascade_eq|]. intros s5 H5.
      unfold post. simpl. destruct H5 as (A & B & _). split; assumption.
    - split; reflexivity.
    - unfold post, stack_pop. simpl. destruct (funcs s); split; reflexivity.
    - apply W. unfold presenter_getch.
      destruct (key =? KEY_RESIZE); [exact Hs|].
      destruct (key =? KEY_ESCAPE); [|exact Hs].
      apply post_bind; [now apply close_syslog_post|]. intros s1 H1. exact H1.
Qed.

(** X11: only [nonfatal] feeds the cascade detector.  No other entry point
    -- not [log], not [halt], not the signal handler, not [open_syslog] or
    [close_syslog] -- changes the pressure or the cascade flag: a message
    logged at severity Critical through [log], or a halt that is being
    shown, adds nothing to the pressure. *)
Theorem only_nonfatal_changes_the_pressure b c now s s' :
  is_nonfatal c = false ->
  outcome_state (exec_call b c now s) = Some s' ->
  cascade_count s' = cascade_count s /\ cascade_failure s' = cascade_failure s.
Proof.
  intros Hc E. pose proof (exec_call_pressure_eq b c now s Hc) as P.
  unfold post in P. rewrite E in P. exact P.
Qed.

Lemma pressure_in_range_transfer s0 s :
  cascade_eq s0 s -> pressure_in_range s0 -> pressure_in_range s.
Proof.
  unfold pressure_in_range. intros (A & B & _) (H1 & H2). rewrite A, B. auto.
Qed.

Lemma keeps_pressure_bind o k :
  keeps_pressure_in_range o ->
  (forall s, pressure_in_range s -> cascade_failure s = false ->
             keeps_pressure_in_range (k s)) ->
  keeps_pressure_in_range (bind o k).
Proof.
  unfold keeps_pressure_in_range, post. destruct o; simpl; intros [H1 H2] Hk; auto.
Qed.

Lemma log_keeps_pressure msg type ap now s :
  pressure_in_range s -> cascade_failure s = false ->
  keeps_pressure_in_range (log msg type ap now s).
Proof.
  intros Hr Hc. unfold keeps_pressure_in_range, post.
  destruct (log_outcome msg type ap now s) as [->|(s' & -> & He & _)]; simpl;
    [auto|].
  split; [now apply (pressure_in_range_transfer s)|].
  destruct He as (_ & -> & _). exact Hc.
Qed.

Lemma halt_keeps_pressure b error ap now s :
  pressure_in_range s -> keeps_pressure_in_range (halt b error ap now s).
Proof.
  intros Hr. unfold keeps_pressure_in_range. split.
  - eapply post_weaken; [apply (halt_post b s), cascade_eq_refl|].
    intros x Hx. now apply (pressure_in_range_transfer s).
  - pose proof (halt_never_returns b error ap now s) as Hn.
    destruct (halt b error ap now s); [discriminate Hn|exact I..].
Qed.

Lemma observe_keeps_pressure b w now s :
  pressure_in_range s -> cascade_failure s = false ->
  0 <= w <= CASCADE_WEIGHT_CRITICAL ->
  keeps_pressure_in_range (observe b w now s).
Proof.
  intros (Hr & Hle) Hc Hw. specialize (Hle Hc).
  assert (Hm : (cascade_count s + w) mod UINT_MODULUS = cascade_count s + w).
  { apply small_mod. unfold CASCADE_WEIGHT_CRITICAL in *. lia. }
  destruct (observe_cases b w now s)
    as [(_ & ->)|[(_ & _ & Hb & ->)|[(_ & _ & Hb & ->)|(_ & _ & ->)]]].
  - split; [split; auto|exact Hc].
  - rewrite Hm in *.
    unfold keeps_pressure_in_range, post, pressure_in_range, returns_with.
    cbn [outcome_state cascade_count cascade_failure set_cascade_count].
    unfold CASCADE_WEIGHT_CRITICAL, CASCADE_THRESHOLD in *.
    repeat split; auto; lia.
  - rewrite Hm in *. apply halt_keeps_pressure. unfold pressure_in_range.
    cbn [cascade_count cascade_failure set_cascade_count set_cascade_failure].
    unfold CASCADE_WEIGHT_CRITICAL, CASCADE_THRESHOLD in *.
    split; [lia|discriminate].
  - unfold keeps_pressure_in_range, post, pressure_in_range, returns_with.
    cbn [outcome_state cascade_count cascade_failure set_cascade_count
         set_cascade_timer].
    unfold CASCADE_WEIGHT_CRITICAL, CASCADE_THRESHOLD.
    repeat split; auto; lia.
Qed.

Lemma weight_for_bounds type : 0 <= weight_for type <= CASCADE_WEIGHT_CRITICAL.
Proof.
  unfold weight_for.
  destruct (type =? GURU_WARN); [vm_compute; split; discriminate|].
  destruct (type =? GURU_ERROR); [vm_compute; split; discriminate|].
  destruct (type =? GURU_CRITICAL); vm_compute; split; discriminate.
Qed.

Lemma nonfatal_body_keeps_pressure b self error type ap now s :
  (forall e t a n x, pressure_in_range x -> cascade_failure x = false ->
                     keeps_pressure_in_range (self e t a n x)) ->
  pressure_in_range s -> cascade_failure s = false ->
  keeps_pressure_in_range (nonfatal_body b self error type ap now s).
Proof.
  intros Hself Hr Hc. unfold nonfatal_body. rewrite Hc. unfold scoped.
  assert (He : cascade_eq s (enter b FNonfatal s))
    by apply enter_cascade, cascade_eq_refl.
  apply keeps_pressure_bind.
  - destruct (vsprintf error ap) as [e1|]; [|split; exact I].
    apply keeps_pressure_bind.
    { destruct (is_default type).
      - apply Hself; [now apply (pressure_in_range_transfer s)|].
        destruct He as (_ & -> & _). exact Hc.
      - split; simpl; [now apply (pressure_in_range_transfer s)|].
        destruct He as (_ & -> & _). exact Hc. }
    intros s1 R1 C1. apply keeps_pressure_bind; [now apply log_keeps_pressure|].
    intros s2 R2 C2. apply observe_keeps_pressure; auto. apply weight_for_bounds.
  - intros s3 R3 C3. unfold keeps_pressure_in_range, post. simpl.
    pose proof (leave_cascade b s3 s3 (cascade_eq_refl s3)) as Hl.
    split; [now apply (pressure_in_range_transfer s3)|].
    destruct Hl as (_ & -> & _). exact C3.
Qed.

Lemma nonfatal_keeps_pressure b error type ap now s :
  pressure_in_range s -> post pressure_in_range (nonfatal b error type ap now s).
Proof.
  intros Hr. destruct (cascade_failure s) eqn:Hc.
  - unfold nonfatal, nonfatal_body. rewrite Hc. exact Hr.
  - apply (nonfatal_body_keeps_pressure b (nonfatal_inner b)); auto.
    intros e t a n x Rx Cx. unfold nonfatal_inner.
    apply nonfatal_body_keeps_pressure; auto.
    intros. split; simpl; assumption.
Qed.

(** X12: the pressure counter cannot overflow.  The initial state has,
    and every entry point keeps, whatever its outcome, a pressure between 0
    and 24 (the threshold plus the largest weight) that exceeds the
    threshold of 20 only when the cascade is declared: along any sequence
    of calls the 32-bit counter never wraps around. *)
Theorem pressure_stays_in_range b :
  pressure_in_range guru_init /\
  (forall c now s s',
     pressure_in_range s ->
     outcome_state (exec_call b c now s) = Some s' ->
     pressure_in_range s').
Proof.
  split.
  { unfold pressure_in_range. cbn. repeat split; discriminate. }
  intros c now s s' Hr E. destruct (is_nonfatal c) eqn:Hc.
  - destruct c; try discriminate Hc. cbn [exec_call] in E.
    pose proof (nonfatal_keeps_pressure b error type ap now s Hr) as P.
    unfold post in P. now rewrite E in P.
  - pose proof (exec_call_pressure_eq b c now s Hc) as P.
    unfold post in P. rewrite E in P. destruct P as [A B].
    unfold pressure_in_range in *. rewrite A, B. exact Hr.
Qed.

(** ** The call-stack shadow *)

Lemma returns_with_bind (P1 P2 : Guru -> Prop) o k :
  returns_with P1 o -> (forall s, P1 s -> returns_with P2 (k s)) ->
  returns_with P2 (bind o k).
Proof. destruct o; simpl; auto. Qed.

Lemma returns_with_never (P : Guru -> Prop) o :
  has_returned o = false -> returns_with P o.
Proof. destruct o; simpl; [discriminate|auto..]. Qed.

Lemma log_stack_eq s0 msg type ap now s :
  stack_eq s0 s -> returns_with (stack_eq s0) (log msg type ap now s).
Proof.
  intros H.
  destruct (log_outcome msg type ap now s) as [->|(s' & -> & _ & F & _)];
    simpl; [exact I|]. unfold stack_eq in *. congruence.
Qed.

Lemma scoped_stack_eq b f body s :
  (forall x, returns_with (stack_eq x) (body x)) ->
  returns_with (stack_eq s) (scoped b f body s).
Proof.
  intros Hb. unfold scoped.
  apply returns_with_bind with (P1 := stack_eq (enter b f s)); [apply Hb|].
  intros s1 H1. simpl. unfold stack_eq, leave, enter, stack_pop, stack_push in *.
  destruct (stack_trace_on b); [|exact H1].
  simpl in H1. rewrite H1. reflexivity.
Qed.

Lemma observe_stack_eq b w now s :
  returns_with (stack_eq s) (observe b w now s).
Proof.
  destruct (observe_cases b w now s)
    as [(_ & ->)|[(_ & _ & _ & ->)|[(_ & _ & _ & ->)|(_ & _ & ->)]]];
    try reflexivity.
  apply returns_with_never, halt_never_returns.
Qed.

Lemma nonfatal_body_stack_eq b self error type ap now s :
  (forall e t a n x, returns_with (stack_eq x) (self e t a n x)) ->
  returns_with (stack_eq s) (nonfatal_body b self error type ap now s).
Proof.
  intros Hself. unfold nonfatal_body.
  destruct (cascade_failure s); [reflexivity|].
  apply scoped_stack_eq. intros x.
  destruct (vsprintf error ap) as [e1|]; [|exact I].
  apply returns_with_bind with (P1 := stack_eq x).
  { destruct (is_default type); [apply Hself|reflexivity]. }
  intros s1 H1. apply returns_with_bind with (P1 := stack_eq x).
  { now apply log_stack_eq. }
  intros s2 H2.
  pose proof (observe_stack_eq b (weight_for type) now s2) as Ho.
  destruct (observe b (weight_for type) now s2); simpl in *; auto.
  unfold stack_eq in *. congruence.
Qed.

Lemma close_syslog_stack_eq b now s :
  returns_with (stack_eq s) (close_syslog b now s).
Proof.
  unfold close_syslog. apply scoped_stack_eq. intros x.
  apply returns_with_bind with (P1 := stack_eq x);
    [apply log_stack_eq; reflexivity|]. intros s1 H1.
  apply returns_with_bind with (P1 := stack_eq x);
    [now apply log_stack_eq|]. intros s2 H2. exact H2.
Qed.

Lemma hook_stack_eq b s0 sig_err sig msg now s :
  stack_eq s0 s -> returns_with (stack_eq s0) (hook b sig_err sig msg now s).
Proof.
  intros H. unfold hook. destruct (sig_err sig) eqn:E.
  - apply returns_with_never, halt_never_returns.
  - unfold do_signal. rewrite E. exact H.
Qed.

(** X13: every entry point that returns leaves the call-stack shadow as it
    found it.  Apart from the guard itself, a call that comes back to its
    caller ([log], [nonfatal], [affirm] with a true condition,
    [close_syslog], [open_syslog], [console_ready]) has popped exactly the
    frames it pushed, in builds with and without the stack trace -- also
    when [nonfatal] re-enters itself for a bad severity. *)
Theorem returning_calls_leave_the_stack_balanced b c now s s' :
  is_guard c = false ->
  exec_call b c now s = Returned s' ->
  funcs s' = funcs s.
Proof.
  intros Hc E.
  assert (P : returns_with (stack_eq s) (exec_call b c now s)).
  { destruct c; cbn [exec_call]; try discriminate Hc.
    - unfold affirm. apply scoped_stack_eq. intros x.
      destruct (condition =? 0); [|reflexivity].
      apply returns_with_never, halt_never_returns.
    - apply close_syslog_stack_eq.
    - reflexivity.
    - apply returns_with_never, halt_never_returns.
    - unfold halt_exception. apply scoped_stack_eq. intros x.
      apply returns_with_never, halt_never_returns.
    - apply returns_with_never. unfold intercept_signal.
      rewrite bind_of_never_returns; apply halt_never_returns.
    - apply log_stack_eq. reflexivity.
    - unfold nonfatal. apply nonfatal_body_stack_eq.
      intros. unfold nonfatal_inner. apply nonfatal_body_stack_eq.
      intros. reflexivity.
    - unfold open_syslog.
      apply returns_with_bind with (P1 := stack_eq s);
        [apply log_stack_eq; reflexivity|]. intros s1 H1.
      apply returns_with_bind with (P1 := stack_eq s);
        [now apply hook_stack_eq|]. intros s2 H2.
      apply returns_with_bind with (P1 := stack_eq s);
        [now apply hook_stack_eq|]. intros s3 H3.
      apply returns_with_bind with (P1 := stack_eq s);
        [now apply hook_stack_eq|]. intros s4 H4.
      apply returns_with_bind with (P1 := stack_eq s);
        [now apply hook_stack_eq|]. intros s5 H5. exact H5.
    - apply returns_with_never. unfold presenter_getch.
      destruct (key =? KEY_RESIZE); [reflexivity|].
      destruct (key =? KEY_ESCAPE); [|reflexivity].
      apply bind_never_returns. reflexivity. }
  rewrite E in P. exact P.
Qed.

Lemma drain_loop_leaves_root now : forall fs s,
  fs <> [] -> funcs s = fs ->
  post (fun s' => funcs s' = [last fs EmptyString]) (drain_loop fs now s).
Proof.
  induction fs as [|top below IH]; intros s Hne Hf; [contradiction|].
  cbn [drain_loop].
  destruct (log_outcome (to_string (List.length (top :: below) - 1) ++ ": " ++ top)
              GURU_STACK [] now s) as [->|(s1 & -> & _ & F1 & _)]; [exact I|].
  cbn [bind]. destruct below as [|b0 rest].
  - unfold post. simpl. rewrite F1. exact Hf.
  - apply IH; [discriminate|reflexivity].
Qed.

Lemma last_default_irrelevant (l : list string) d d' :
  l <> [] -> last l d = last l d'.
Proof.
  induction l as [|x l IH]; intros H; [contradiction|].
  destruct l as [|y l]; [reflexivity|]. apply IH. discriminate.
Qed.

(** X14: a halt uses up the stack trace.  In a build with the stack trace,
    whatever state [halt] leaves (the process has exited or shows the
    notice) holds exactly one frame: the one pushed first, or the frame of
    [halt] itself when the stack was empty -- also when the log is closed
    and no trace line could be written.  A second fatal report therefore
    can only show that frame and its own. *)
Theorem halt_leaves_only_the_root_frame b error ap now s s' :
  stack_trace_on b = true ->
  outcome_state (halt b error ap now s) = Some s' ->
  funcs s' = [last (funcs s) (pretty_function FHalt)].
Proof.
  intros Ht E.
  destruct (vsprintf error ap) as [e|] eqn:Hv;
    [|rewrite (halt_undefined_rendering b error ap now s Hv) in E; discriminate].
  rewrite (halt_decompose b error ap now s e Hv) in E.
  assert (P : post (fun x => funcs x = [last (funcs s) (pretty_function FHalt)])
                (halt_prologue b e now (enter b FHalt s))).
  { unfold halt_prologue, enter. rewrite Ht.
    destruct (log_outcome BANNER GURU_CRITICAL [] now
                (stack_push (pretty_function FHalt) s))
      as [->|(s1 & -> & _ & F1 & _)]; [exact I|]. cbn [bind].
    destruct (log_outcome e GURU_CRITICAL [] now s1)
      as [->|(s2 & -> & _ & F2 & _)]; [exact I|]. cbn [bind].
    assert (Hf : funcs s2 = pretty_function FHalt :: funcs s)
      by (rewrite F2, F1; reflexivity).
    unfold drain_stack. rewrite Hf.
    destruct (log_outcome MSG_TRACE_FOLLOWS GURU_STACK [] now s2)
      as [->|(s3 & -> & _ & F3 & _)]; [exact I|]. cbn [bind].
    eapply post_weaken.
    - apply drain_loop_leaves_root; [|reflexivity]. rewrite F3, Hf. discriminate.
    - intros x Hx. rewrite Hx, F3, Hf. f_equal.
      destruct (funcs s) as [|r l]; [reflexivity|].
      change (last (pretty_function FHalt :: r :: l) EmptyString)
        with (last (r :: l) EmptyString).
      apply last_default_irrelevant. discriminate. }
  destruct (halt_prologue b e now (enter b FHalt s)) as [s4|code s0|s0|];
    try discriminate E;
    try (cbn in E; injection E as <-; exact P).
  cbn [bind] in E. unfold post in P. cbn [outcome_state] in P.
  assert (Q : post (fun x => funcs x = funcs s4) (halt_epilogue b e now s4)).
  { unfold halt_epilogue.
    destruct (is_curses b && negb (fully_active s4))%bool; [reflexivity|].
    destruct (dead_already s4).
    - destruct (log_outcome MSG_DIE_PEACEFULLY GURU_WARN [] now s4)
        as [->|(s5 & -> & _ & F5 & _)]; [exact I|]. exact F5.
    - unfold present, draw_curses. destruct (frontend b); try reflexivity.
      + destruct (format (message (set_message e s4) ++ newline) []);
          [reflexivity|exact I].
      + unfold post. simpl.
        destruct (39 <? String.length e)%nat; reflexivity.
      + destruct (format (message (set_message e s4)) []); [reflexivity|exact I]. }
  unfold post in Q. rewrite E in Q. rewrite Q. exact P.
Qed.

(** ** The keys of the notice *)

Lemma close_syslog_effect b now s :
  sink_ready s = true ->
  last_log_message s <> MSG_SHUTTING_DOWN ->
  exists s',
    close_syslog b now s = Returned s' /\
    lines (syslog s') =
      (lines (syslog s) ++
       [log_line now GURU_INFO MSG_SHUTTING_DOWN; log_line now GURU_INFO MSG_SILENCE])%list /\
    is_open (syslog s') = false /\
    terminal s' = terminal s.
Proof.
  intros Hr Hne. unfold close_syslog, scoped.
  destruct (enter_fields b FCloseSyslog s) as (F1 & F2 & _).
  rewrite (log_fresh MSG_SHUTTING_DOWN GURU_INFO [] now _ MSG_SHUTTING_DOWN);
    [|now rewrite sink_ready_enter|congruence|reflexivity].
  cbn [bind].
  rewrite (log_fresh MSG_SILENCE GURU_INFO [] now _ MSG_SILENCE);
    [|reflexivity|discriminate|reflexivity].
  cbn [bind]. eexists. split; [reflexivity|].
  unfold leave, stack_pop, enter, stack_push in *.
  destruct (stack_trace_on b); simpl; rewrite <- app_assoc; auto.
Qed.

(** X15: the keys of the Curses notice.  While the notice is shown, a
    resize key draws it again, Escape writes the two farewell lines, closes
    the log and ends the process with EXIT_FAILURE, and any other key
    changes nothing; no key gives control back to the program. *)
Theorem notice_keys_redraw_dismiss_or_ignore b key now s :
  has_returned (presenter_getch b key now s) = false /\
  (key = KEY_RESIZE ->
   exists s', presenter_getch b key now s = Presenting s' /\
     terminal s' = (terminal s ++ [BANNER; message s])%list /\
     syslog s' = syslog s) /\
  (key = KEY_ESCAPE -> sink_ready s = true ->
   last_log_message s <> MSG_SHUTTING_DOWN ->
   exists s', presenter_getch b key now s = Exited EXIT_FAILURE s' /\
     lines (syslog s') =
       (lines (syslog s) ++
        [log_line now GURU_INFO MSG_SHUTTING_DOWN; log_line now GURU_INFO MSG_SILENCE])%list /\
     is_open (syslog s') = false /\
     terminal s' = terminal s) /\
  (key <> KEY_RESIZE -> key <> KEY_ESCAPE ->
   presenter_getch b key now s = Presenting s).
Proof.
  split; [|split; [|split]].
  - unfold presenter_getch. destruct (key =? KEY_RESIZE); [reflexivity|].
    destruct (key =? KEY_ESCAPE); [|reflexivity].
    apply bind_never_returns. reflexivity.
  - intros ->. eexists. split; [reflexivity|]. split; reflexivity.
  - intros -> Hr Hne. unfold presenter_getch. cbn [Z.eqb KEY_ESCAPE KEY_RESIZE].
    change (KEY_ESCAPE =? KEY_RESIZE) with false.
    change (KEY_ESCAPE =? KEY_ESCAPE) with true. cbv iota.
    destruct (close_syslog_effect b now s Hr Hne) as (s' & -> & L & O & T).
    exists s'. auto.
  - intros H1 H2. unfold presenter_getch.
    apply Z.eqb_neq in H1, H2. now rewrite H1, H2.
Qed.

(** ** Assertions *)

Lemma leave_enter b f s : leave b (enter b f s) = s.
Proof.
  unfold leave, enter, stack_pop, stack_push.
  destruct (stack_trace_on b); [|reflexivity]. now destruct s.
Qed.

(** X16: [affirm] with a true condition does nothing at all; with a false
    one it halts.  Any non-zero condition returns the state exactly as it
    was (nothing logged, the stack restored, the message not even
    rendered).  A zero condition never returns: it is [halt] of the message
    taken as a format without arguments, one frame deeper, so a message
    holding a directive is undefined behaviour there. *)
Theorem affirm_passes_or_halts b condition error now s :
  (condition <> 0 -> affirm b condition error now s = Returned s) /\
  (condition = 0 ->
   affirm b condition error now s = halt b error [] now (enter b FAffirm s) /\
   has_returned (affirm b condition error now s) = false /\
   (vsprintf error [] = None -> affirm b condition error now s = Undefined)).
Proof.
  split.
  - intros H. unfold affirm, scoped. apply Z.eqb_neq in H. rewrite H.
    cbn [bind]. now rewrite leave_enter.
  - intros ->. unfold affirm, scoped. cbn [Z.eqb].
    rewrite bind_of_never_returns by apply halt_never_returns.
    split; [reflexivity|]. split; [apply halt_never_returns|].
    apply halt_undefined_rendering.
Qed.

(** ** Opening the log *)

(** X17: [open_syslog] starts the log afresh and arms the system.  When
    no log is open yet, the file can be created and the four signals can
    be hooked, the call returns with a log that holds exactly one line
    (the announcement, whatever the file held before), all four signals
    routed to [intercept_signal], and the cascade window started at the
    time of the call; pressure, cascade flag and stack are untouched. *)
Theorem open_syslog_starts_fresh_log_and_hooks_signals b sig_err now s :
  is_open (syslog s) = false ->
  (forall n, sig_err n = false) ->
  last_log_message s <> MSG_ONLINE ->
  exists s',
    open_syslog b true sig_err now s = Returned s' /\
    syslog s' = mkOfstream true false [log_line now GURU_INFO MSG_ONLINE] /\
    signals s' = all_hooked /\
    cascade_timer s' = now /\
    cascade_count s' = cascade_count s /\
    cascade_failure s' = cascade_failure s /\
    funcs s' = funcs s.
Proof.
  intros Ho Hok Hne. unfold open_syslog, ofstream_open. rewrite Ho.
  rewrite (log_fresh MSG_ONLINE GURU_INFO [] now _ MSG_ONLINE);
    [|reflexivity|intros N; apply Hne; now symmetry|reflexivity].
  cbn [bind]. unfold hook, do_signal. rewrite !Hok. cbn [bind].
  eexists. split; [reflexivity|]. repeat split.
Qed.

(** X18: a signal that cannot be hooked is fatal.  If [signal] fails for
    any of SIGABRT, SIGSEGV, SIGILL or SIGFPE, [open_syslog] does not
    return: it ends in [halt] (or in the undefined behaviour of a bad
    frame name on the way there). *)
Theorem open_syslog_does_not_return_when_a_hook_fails
    b can_create sig_err now s :
  some_hook_fails sig_err = true ->
  has_returned (open_syslog b can_create sig_err now s) = false.
Proof.
  unfold some_hook_fails. intros H. unfold open_syslog.
  apply bind_never_returns. intros s1. unfold hook at 1.
  destruct (sig_err SIGABRT) eqn:E1.
  { rewrite bind_of_never_returns; apply halt_never_returns. }
  cbn [bind]. unfold hook at 1.
  destruct (sig_err SIGSEGV) eqn:E2.
  { rewrite bind_of_never_returns; apply halt_never_returns. }
  cbn [bind]. unfold hook at 1.
  destruct (sig_err SIGILL) eqn:E3.
  { rewrite bind_of_never_returns; apply halt_never_returns. }
  cbn [bind]. unfold hook at 1.
  destruct (sig_err SIGFPE) eqn:E4.
  { rewrite bind_of_never_returns; apply halt_never_returns. }
  discriminate H.
Qed.

(** X19: a log file that cannot be created goes unreported.  When the
    file cannot be created (and the signals can be hooked), [open_syslog]
    still returns normally with the signals hooked and the window started;
    no log is open, nothing was written, and from then on every [log]
    call returns without any effect. *)
Theorem open_syslog_fails_silently_without_a_file b sig_err now s :
  is_open (syslog s) = false ->
  (forall n, sig_err n = false) ->
  exists s',
    open_syslog b false sig_err now s = Returned s' /\
    is_open (syslog s') = false /\
    lines (syslog s') = lines (syslog s) /\
    last_log_message s' = last_log_message s /\
    signals s' = all_hooked /\
    cascade_timer s' = now /\
    (forall msg type ap t, log msg type ap t s' = Returned s').
Proof.
  intros Ho Hok. unfold open_syslog, ofstream_open. rewrite Ho.
  rewrite log_closed by reflexivity.
  cbn [bind]. unfold hook, do_signal. rewrite !Hok. cbn [bind].
  eexists. split; [reflexivity|]. repeat split.
Qed.

(** ** Repeats of a text without directives *)

Lemma log_each_repeats msg : forall calls s,
  msg = last_log_message s ->
  log_each msg calls s = Returned s.
Proof.
  induction calls as [|[type now] calls IH]; intros s E; [reflexivity|].
  cbn [log_each]. rewrite E at 1. rewrite log_repeat. cbn [bind]. now apply IH.
Qed.

(** X20: a text without format directives is written once, however often
    it is logged in a row.  For a message that renders to itself, on a
    sink that takes lines, any number of consecutive [log] calls -- with
    whatever severities and at whatever times -- adds a single line, the
    one of the first call, if the text differs from the one logged last,
    and no line at all if it repeats it. *)
Theorem run_of_identical_plain_messages_is_logged_once msg type now calls s :
  vsprintf msg [] = Some msg ->
  sink_ready s = true ->
  exists s',
    log_each msg ((type, now) :: calls) s = Returned s' /\
    (msg <> last_log_message s ->
     lines (syslog s') = (lines (syslog s) ++ [log_line now type msg])%list) /\
    (msg = last_log_message s -> s' = s) /\
    last_log_message s' = msg.
Proof.
  intros Hv Hr. destruct (String.eqb_spec msg (last_log_message s)) as [E|E].
  - exists s. split; [now apply log_each_repeats|].
    split; [intros N; now elim N|]. split; [reflexivity|now symmetry].
  - cbn [log_each]. rewrite (log_fresh msg type [] now s msg Hr E Hv).
    cbn [bind]. rewrite log_each_repeats by reflexivity.
    eexists. split; [reflexivity|]. split; [reflexivity|].
    split; [intros N; now elim E|reflexivity].
Qed.

(** * Release 1.2 *)

Lemma log_1_2_returns msg type now s :
  exists s',
    log_1_2 msg type now s = Returned s' /\
    core_eq s s' /\
    funcs s' = funcs s /\
    sink_ready s' = sink_ready s /\
    (is_open (syslog s) = true -> last_log_message s' = msg).
Proof.
  unfold log_1_2. destruct (is_open (syslog s)) eqn:Ho; cbn [negb].
  - destruct (String.eqb_spec msg (last_log_message s)) as [E|E].
    + exists s. repeat split; auto using core_eq_refl.
    + eexists. split; [reflexivity|].
      unfold core_eq, cascade_eq, surroundings_eq, sink_ready, ofstream_put_line.
      cbn [syslog set_syslog set_last_log_message last_log_message cascade_count
           cascade_failure cascade_timer dead_already signals fully_active
           message terminal funcs].
      rewrite Ho. destruct (failbit (syslog s)); cbn; auto 20.
  - exists s. repeat split; auto using core_eq_refl. discriminate.
Qed.

(** X21: release 1.2 writes a message as it is and drops every repeat.
    On a sink that takes lines, [log] of release 1.2 appends the message
    unrendered -- a [%] in it is plain text -- under its severity tag, and
    the same message logged again right away, at whatever severity, leaves
    the state as it is. *)
Theorem log_1_2_writes_verbatim_and_drops_the_repeat
    msg type1 type2 now1 now2 s :
  sink_ready s = true ->
  msg <> last_log_message s ->
  exists s1,
    log_1_2 msg type1 now1 s = Returned s1 /\
    lines (syslog s1) = (lines (syslog s) ++ [log_line now1 type1 msg])%list /\
    last_log_message s1 = msg /\
    log_1_2 msg type2 now2 s1 = Returned s1.
Proof.
  intros Hr Hne. destruct (sink_ready_inv s Hr) as [Ho Hf].
  apply String.eqb_neq in Hne.
  unfold log_1_2 at 1. rewrite Ho, Hne. cbn [negb].
  eexists. split; [reflexivity|].
  unfold ofstream_put_line. cbn [syslog set_syslog set_last_log_message].
  rewrite Ho, Hf. cbn [andb negb lines last_log_message].
  split; [reflexivity|]. split; [reflexivity|].
  unfold log_1_2. cbn [syslog is_open negb last_log_message].
  now rewrite String.eqb_refl.
Qed.

Lemma drain_loop_1_2_returns now : forall fs s,
  fs <> [] -> funcs s = fs ->
  exists s',
    drain_loop_1_2 fs now s = Returned s' /\
    core_eq s s' /\
    funcs s' = [last fs EmptyString] /\
    sink_ready s' = sink_ready s /\
    (is_open (syslog s) = true ->
     last_log_message s' = guru_itos 0 ++ ": " ++ last fs EmptyString).
Proof.
  induction fs as [|top below IH]; intros s Hne Hf; [contradiction|].
  cbn [drain_loop_1_2].
  destruct (log_1_2_returns
              (guru_itos (List.length (top :: below) - 1) ++ ": " ++ top)
              GURU_STACK now s) as (s1 & -> & C1 & F1 & R1 & L1).
  cbn [bind]. destruct below as [|b0 rest].
  - exists s1. repeat split; auto; try apply C1. rewrite F1. exact Hf.
  - destruct (IH (set_funcs (b0 :: rest) s1)) as (s' & E & C & F & R & L);
      [discriminate|reflexivity|].
    exists s'. split; [exact E|]. split; [|split; [exact F|split]].
    + eapply core_eq_trans; [exact C1|].
      eapply core_eq_trans; [apply core_eq_funcs|exact C].
    + rewrite R. exact R1.
    + intros Ho. apply L. cbn [syslog set_funcs].
      destruct C1 as (_ & (_ & _ & ->) & _). exact Ho.
Qed.

Lemma drain_stack_1_2_returns now s :
  funcs s <> [] ->
  exists s',
    drain_stack_1_2 now s = Returned s' /\
    core_eq s s' /\
    funcs s' = [last (funcs s) EmptyString] /\
    sink_ready s' = sink_ready s /\
    (is_open (syslog s) = true ->
     last_log_message s' = guru_itos 0 ++ ": " ++ last (funcs s) EmptyString).
Proof.
  intros Hne. unfold drain_stack_1_2.
  destruct (funcs s) as [|top below] eqn:Hf; [contradiction|].
  destruct (log_1_2_returns MSG_TRACE_FOLLOWS GURU_STACK now s)
    as (s1 & -> & C1 & F1 & R1 & L1).
  cbn [bind].
  destruct (drain_loop_1_2_returns now (funcs s1) s1) as (s' & E & C & F & R & L);
    [rewrite F1, Hf; discriminate|reflexivity|].
  exists s'. rewrite F1, Hf in *. split; [exact E|].
  split; [eapply core_eq_trans; eauto|]. split; [exact F|].
  split; [congruence|]. intros Ho. apply L.
  destruct C1 as (_ & (_ & _ & ->) & _). exact Ho.
Qed.

(** What [halt] of release 1.2 has done when it reaches its front end. *)
Lemma halt_1_2_prologue now error s :
  exists s4,
    (s <- log_1_2 BANNER GURU_CRITICAL now (stack_push FRAME_HALT_1_2 s) ;;
     s <- log_1_2 error GURU_CRITICAL now s ;;
     drain_stack_1_2 now s) = Returned s4 /\
    core_eq s s4 /\
    funcs s4 = [last (funcs s) FRAME_HALT_1_2] /\
    sink_ready s4 = sink_ready s /\
    (is_open (syslog s) = true ->
     last_log_message s4 = guru_itos 0 ++ ": " ++ last (funcs s) FRAME_HALT_1_2).
Proof.
  destruct (log_1_2_returns BANNER GURU_CRITICAL now (stack_push FRAME_HALT_1_2 s))
    as (s1 & -> & C1 & F1 & R1 & _). cbn [bind].
  destruct (log_1_2_returns error GURU_CRITICAL now s1)
    as (s2 & -> & C2 & F2 & R2 & _). cbn [bind].
  assert (Hf : funcs s2 = FRAME_HALT_1_2 :: funcs s) by (rewrite F2, F1; reflexivity).
  destruct (drain_stack_1_2_returns now s2) as (s4 & -> & C4 & F4 & R4 & L4);
    [rewrite Hf; discriminate|].
  assert (Hlast : last (funcs s2) EmptyString = last (funcs s) FRAME_HALT_1_2).
  { rewrite Hf. destruct (funcs s) as [|r l]; [reflexivity|].
    change (last (FRAME_HALT_1_2 :: r :: l) EmptyString)
      with (last (r :: l) EmptyString).
    apply last_default_irrelevant. discriminate. }
  exists s4. split; [reflexivity|]. rewrite Hlast in *.
  split; [|split; [exact F4|split]].
  - eapply core_eq_trans; [apply (core_eq_funcs (FRAME_HALT_1_2 :: funcs s))|].
    eapply core_eq_trans; [exact C1|]. eapply core_eq_trans; eauto.
  - rewrite R4, R2, R1. reflexivity.
  - intros Ho. apply L4.
    destruct C2 as (_ & (_ & _ & ->) & _).
    destruct C1 as (_ & (_ & _ & ->) & _). exact Ho.
Qed.

Lemma halt_1_2_unfold b error now s s4 :
  (s <- log_1_2 BANNER GURU_CRITICAL now (stack_push FRAME_HALT_1_2 s) ;;
   s <- log_1_2 error GURU_CRITICAL now s ;;
   drain_stack_1_2 now s) = Returned s4 ->
  halt_1_2 b error now s =
  (s' <- (if (is_curses b && negb (fully_active s4))%bool then Exited 1 s4
          else if dead_already s4 then
            s5 <- log_1_2 MSG_DIE_PEACEFULLY GURU_WARN now s4 ;; Exited 1 s5
          else present_1_2 b now (set_message error s4)) ;;
   Returned (stack_pop s')).
Proof.
  intros E. unfold halt_1_2, scoped_1_2.
  destruct (log_1_2 BANNER GURU_CRITICAL now (stack_push FRAME_HALT_1_2 s))
    as [s1| | |]; try discriminate E. cbn [bind] in *.
  destruct (log_1_2 error GURU_CRITICAL now s1) as [s2| | |];
    try discriminate E. cbn [bind] in *.
  rewrite E. reflexivity.
Qed.

Lemma halt_1_2_returns b error now x :
  no_front_end_1_2 b = true ->
  dead_already x = false ->
  exists s', halt_1_2 b error now x = Returned s' /\
    funcs s' = [] /\ message s' = error /\ terminal s' = terminal x /\
    cascade_count s' = cascade_count x /\
    cascade_failure s' = cascade_failure x /\
    cascade_timer s' = cascade_timer x.
Proof.
  intros Hb Hx.
  assert (Hc : is_curses b = false).
  { unfold no_front_end_1_2 in Hb. unfold is_curses.
    destruct (frontend b); [reflexivity|discriminate..|reflexivity]. }
  destruct (halt_1_2_prologue now error x)
    as (s4 & E & ((A & B & C & D) & _ & _ & T) & F & _).
  rewrite (halt_1_2_unfold b error now x s4 E). rewrite Hc, D, Hx.
  cbn [andb]. unfold present_1_2, no_front_end_1_2 in *.
  destruct (frontend b); try discriminate Hb; cbn [bind];
    (eexists; split; [reflexivity|]); unfold stack_pop; cbn [funcs set_message];
    rewrite F; cbn; auto 10.
Qed.


(** X23: in release 1.2 without front end a declared cascade does not stop
    the program.  The report that pushes the pressure past the threshold
    inside the window (the same single-precision test as in release 1.3)
    sets the cascade flag, goes through [halt] and returns like any other
    call; from then on every [nonfatal] report returns at once, unlogged
    and uncounted, for the rest of the run. *)
Theorem cascade_1_2_without_front_end_goes_on b error type now s :
  no_front_end_1_2 b = true ->
  cascade_failure s = false ->
  dead_already s = false ->
  is_default type = false ->
  within_timeout now (cascade_timer s) = true ->
  0 <= cascade_count s <= CASCADE_THRESHOLD ->
  CASCADE_THRESHOLD < cascade_count s + weight_for type ->
  exists s',
    nonfatal_1_2 b error type now s = Returned s' /\
    cascade_failure s' = true /\
    cascade_count s' = cascade_count s + weight_for type /\
    message s' = MSG_CASCADE /\
    (forall e t n, nonfatal_1_2 b e t n s' = Returned s').
Proof.
  intros Hb Hc Hd Hty Hin H0 Hgt.
  pose proof (weight_for_weighted type Hty) as Hwt.
  unfold nonfatal_1_2, nonfatal_body_1_2 at 1. rewrite Hc.
  unfold scoped_1_2. rewrite Hty. cbn [bind].
  destruct (log_1_2_returns error type now (stack_push FRAME_NONFATAL_1_2 s))
    as (s1 & -> & ((A & B & C & D) & _) & _). cbn [bind].
  cbn [cascade_count cascade_failure cascade_timer dead_already stack_push
       set_funcs] in A, B, C, D.
  assert (Hm : (cascade_count s1 + weight_for type) mod UINT_MODULUS
               = cascade_count s + weight_for type).
  { rewrite A. apply small_mod. unfold CASCADE_THRESHOLD in *. lia. }
  unfold observe_1_2.
  assert (Wn : (weight_for type =? 0) = false) by (apply Z.eqb_neq; lia).
  rewrite Wn, C, Hin. cbn [cascade_count set_cascade_count]. rewrite Hm.
  assert (Hlt : (CASCADE_THRESHOLD <? cascade_count s + weight_for type) = true)
    by (apply Z.ltb_lt; exact Hgt).
  rewrite Hlt.
  destruct (halt_1_2_returns b MSG_CASCADE now
              (set_cascade_failure true
                 (set_cascade_count (cascade_count s + weight_for type) s1)) Hb)
    as (s2 & -> & F & M & _ & C1 & C2 & _); [cbn; congruence|].
  cbn [bind]. eexists. split; [reflexivity|].
  unfold stack_pop. rewrite F.
  cbn [cascade_count cascade_failure set_cascade_failure set_cascade_count] in C1, C2.
  repeat split; auto.
  intros e t n. unfold nonfatal_body_1_2. now rewrite C2.
Qed.

Lemma depth_zero_is_not_loop x : guru_itos 0 ++ ": " ++ x <> MSG_LOOP.
Proof. discriminate. Qed.

(** X24: the Curses notice of release 1.2 leaves "loop" in the log.  With
    the console ready and a sink that takes lines, [halt] of release 1.2
    ends in the loop of the notice, and the last line it has written to the
    log -- after the banner, the message and the trace -- is the untagged
    text "loop" which the loop logs at the start of each pass. *)
Theorem halt_1_2_curses_notice_logs_loop b error now s :
  frontend b = Curses ->
  fully_active s = true ->
  dead_already s = false ->
  sink_ready s = true ->
  exists s' before,
    halt_1_2 b error now s = Presenting s' /\
    lines (syslog s') = (before ++ [log_line now GURU_INFO MSG_LOOP])%list /\
    last_log_message s' = MSG_LOOP /\
    (String.length (message s') <= 39)%nat /\
    terminal s' = (terminal s ++ [BANNER; message s'])%list.
Proof.
  intros Hb Ha Hd Hr.
  destruct (sink_ready_inv s Hr) as [Ho Hfb].
  destruct (halt_1_2_prologue now error s)
    as (s4 & E & ((_ & _ & _ & D) & (_ & A & _) & _ & T) & F & R & L).
  rewrite (halt_1_2_unfold b error now s s4 E).
  unfold is_curses. rewrite Hb, A, Ha, D, Hd. cbn [andb negb].
  unfold present_1_2. rewrite Hb. cbn [message set_message].
  specialize (L Ho). rewrite Hr in R. destruct (sink_ready_inv s4 R) as [O4 F4].
  set (s1 := if (39 <? String.length error)%nat
             then set_message (substring 0 39 error) (set_message error s4)
             else set_message error s4).
  assert (P1 : syslog s1 = syslog s4 /\ last_log_message s1 = last_log_message s4
               /\ terminal s1 = terminal s4 /\ (String.length (message s1) <= 39)%nat).
  { unfold s1. destruct (Nat.ltb_spec 39 (String.length error)); cbn;
      repeat split; auto. apply length_prefix_le. }
  destruct P1 as (S1 & L1 & T1 & M1).
  unfold log_1_2. rewrite S1, O4, L1, L. cbn [negb].
  assert (Hneq : String.eqb MSG_LOOP
                   (guru_itos 0 ++ ": " ++ last (funcs s) FRAME_HALT_1_2) = false).
  { apply String.eqb_neq. intros N. symmetry in N. revert N.
    apply depth_zero_is_not_loop. }
  rewrite Hneq. cbn [bind]. unfold ofstream_put_line, draw_curses.
  cbn [syslog set_syslog set_last_log_message]. rewrite S1, O4, F4.
  cbn [andb negb]. do 2 eexists. split; [reflexivity|].
  cbn [stack_pop]. unfold stack_pop.
  cbn [funcs set_terminal set_syslog set_last_log_message].
  destruct (funcs s1); cbn; rewrite T1, T; auto.
Qed.

(** X25: the window of the cascade detector, in clock ticks.  [nonfatal]
    compares the elapsed seconds in single precision, and thirty seconds
    sharp (30 000 000 000 ticks) are 30.0000019 seconds there.  So a
    weighted report that arrives less than thirty seconds after the window
    started is counted in that window, and one that arrives thirty seconds
    or more after it -- thirty seconds sharp included -- restarts the
    window at its own clock reading with pressure 0, its weight dropped. *)
Theorem window_is_open_for_less_than_thirty_seconds b error type ap now s :
  cascade_failure s = false ->
  is_default type = false ->
  renders_twice error ap = true ->
  (now - cascade_timer s < CASCADE_TIMEOUT * TICKS_PER_SECOND ->
   0 <= cascade_count s ->
   cascade_count s + weight_for type <= CASCADE_THRESHOLD ->
   exists s', nonfatal b error type ap now s = Returned s' /\
     cascade_count s' = cascade_count s + weight_for type /\
     cascade_failure s' = false /\
     cascade_timer s' = cascade_timer s) /\
  (CASCADE_TIMEOUT * TICKS_PER_SECOND <= now - cascade_timer s ->
   exists s', nonfatal b error type ap now s = Returned s' /\
     cascade_count s' = 0 /\
     cascade_failure s' = false /\
     cascade_timer s' = now).
Proof.
  intros Hc Hd Hr. split.
  - intros Hin H0 Hle. apply nonfatal_accumulates; auto.
    rewrite within_timeout_ticks. apply Z.ltb_lt. exact Hin.
  - intros Hout. apply nonfatal_resets; auto.
    rewrite within_timeout_ticks. apply Z.ltb_ge. exact Hout.
Qed.

(** * The further properties at concrete inputs *)

Lemma log_grows_through_a_cascade_halt :
  reopens_log (CNonfatal "disk is slow" GURU_WARN []) = false /\
  outcome_state (exec_call build_default (CNonfatal "disk is slow" GURU_WARN []) T0
                   (pressured build_default))
    = Some (state_after (nonfatal build_default "disk is slow" GURU_WARN [] T0
                           (pressured build_default))) /\
  exists added,
    lines (syslog (state_after (nonfatal build_default "disk is slow" GURU_WARN [] T0
                                  (pressured build_default)))) =
    (lines (syslog (pressured build_default)) ++ added)%list.
Proof.
  assert (H1 : reopens_log (CNonfatal "disk is slow" GURU_WARN []) = false)
    by reflexivity.
  assert (H2 : outcome_state (exec_call build_default
                  (CNonfatal "disk is slow" GURU_WARN []) T0 (pressured build_default))
               = Some (state_after (nonfatal build_default "disk is slow" GURU_WARN []
                                      T0 (pressured build_default))))
    by (vm_compute; reflexivity).
  split; [exact H1|]. split; [exact H2|].
  exact (log_file_only_grows build_default _ T0 _ _ H1 H2).
Defined.

Lemma halt_leaves_hooks_and_readiness :
  manages_surroundings (CHalt "first failure" []) = false /\
  outcome_state (exec_call build_curses (CHalt "first failure" []) T0 presentable)
    = Some (state_after (halt build_curses "first failure" [] T0 presentable)) /\
  signals (state_after (halt build_curses "first failure" [] T0 presentable))
    = signals presentable /\
  fully_active (state_after (halt build_curses "first failure" [] T0 presentable))
    = fully_active presentable /\
  is_open (syslog (state_after (halt build_curses "first failure" [] T0 presentable)))
    = is_open (syslog presentable).
Proof.
  assert (H1 : manages_surroundings (CHalt "first failure" []) = false)
    by reflexivity.
  assert (H2 : outcome_state (exec_call build_curses (CHalt "first failure" []) T0
                                presentable)
               = Some (state_after (halt build_curses "first failure" [] T0
                                      presentable)))
    by (vm_compute; reflexivity).
  split; [exact H1|]. split; [exact H2|].
  exact (reporting_leaves_surroundings_alone build_curses _ T0 _ _ H1 H2).
Defined.

Lemma segfault_leaves_all_four_ignored :
  (forall n, signal_succeeds n = false) /\
  outcome_state (intercept_signal build_curses signal_succeeds SIGSEGV T0 presentable)
    = Some (state_after (intercept_signal build_curses signal_succeeds SIGSEGV T0
                           presentable)) /\
  signals (state_after (intercept_signal build_curses signal_succeeds SIGSEGV T0
                          presentable)) = all_ignored.
Proof.
  assert (H1 : forall n, signal_succeeds n = false) by reflexivity.
  assert (H2 : outcome_state (intercept_signal build_curses signal_succeeds SIGSEGV
                                T0 presentable)
               = Some (state_after (intercept_signal build_curses signal_succeeds
                                      SIGSEGV T0 presentable)))
    by (vm_compute; reflexivity).
  split; [exact H1|]. split; [exact H2|].
  exact (proj1 (caught_signal_leaves_all_four_ignored build_curses signal_succeeds
                  SIGSEGV T0 presentable _ H1 H2)).
Defined.

Lemma escape_exits_with_failure :
  exec_call build_curses (CGetch KEY_ESCAPE) T0 declared
    = Exited 1 (state_after (presenter_getch build_curses KEY_ESCAPE T0 declared)) /\
  1 = EXIT_FAILURE.
Proof.
  assert (H : exec_call build_curses (CGetch KEY_ESCAPE) T0 declared
              = Exited 1 (state_after (presenter_getch build_curses KEY_ESCAPE T0
                                         declared)))
    by (vm_compute; reflexivity).
  split; [exact H|].
  exact (every_exit_is_a_failure build_curses _ T0 _ _ _ H).
Defined.

Lemma halt_before_console_ready_at_startup :
  frontend build_curses = Curses /\
  fully_active (opened build_curses) = false /\
  vsprintf "cannot load %s" [ArgStr "fonts"] = Some "cannot load fonts" /\
  frames_plain (opened build_curses) /\
  exists s',
    halt build_curses "cannot load %s" [ArgStr "fonts"] T0 (opened build_curses)
      = Exited EXIT_FAILURE s' /\
    terminal s' = terminal (opened build_curses) /\
    message s' = message (opened build_curses).
Proof.
  assert (H1 : frontend build_curses = Curses) by reflexivity.
  assert (H2 : fully_active (opened build_curses) = false) by reflexivity.
  assert (H3 : vsprintf "cannot load %s" [ArgStr "fonts"] = Some "cannot load fonts")
    by reflexivity.
  assert (H4 : vsprintf "cannot load fonts" [] = Some "cannot load fonts")
    by reflexivity.
  assert (H5 : frames_plain (opened build_curses)) by constructor.
  repeat (split; [assumption|]).
  exact (halt_before_console_ready_exits build_curses _ _ T0 _ _ _ H1 H2 H3 H4 H5).
Defined.

Lemma long_message_is_cut_in_the_notice :
  frontend build_curses = Curses /\
  fully_active presentable = true /\
  dead_already presentable = false /\
  String.length long_message = 63%nat /\
  frames_plain presentable /\
  exists s',
    halt build_curses long_message [] T0 presentable = Presenting s' /\
    (String.length (message s') <= 39)%nat /\
    prefix (message s') long_message = true /\
    ((String.length long_message <= 39)%nat -> message s' = long_message) /\
    ((39 < String.length long_message)%nat -> String.length (message s') = 39%nat) /\
    terminal s' = (terminal presentable ++ [BANNER; message s'])%list.
Proof.
  assert (H1 : frontend build_curses = Curses) by reflexivity.
  assert (H2 : fully_active presentable = true) by reflexivity.
  assert (H3 : dead_already presentable = false) by reflexivity.
  assert (H4 : vsprintf long_message [] = Some long_message) by reflexivity.
  assert (H5 : frames_plain presentable) by constructor.
  split; [exact H1|]. split; [exact H2|]. split; [exact H3|].
  split; [reflexivity|]. split; [exact H5|].
  exact (halt_curses_notice_cut_to_39_characters build_curses _ _ T0 _ _ _
           H1 H2 H3 H4 H4 H5).
Defined.

Lemma console_halt_prints_two_lines :
  frontend build_console = Console /\
  dead_already (opened build_console) = false /\
  frames_plain (opened build_console) /\
  exists s',
    halt build_console "out of memory" [] T0 (opened build_console)
      = Exited EXIT_FAILURE s' /\
    terminal s' =
      (terminal (opened build_console) ++
       [(BANNER ++ newline)%string; ("out of memory" ++ newline)%string])%list /\
    message s' = "out of memory" /\
    (plain "out of memory" = true ->
     ("out of memory" ++ newline)%string = ("out of memory" ++ newline)%string).
Proof.
  assert (H1 : frontend build_console = Console) by reflexivity.
  assert (H2 : dead_already (opened build_console) = false) by reflexivity.
  assert (H3 : vsprintf "out of memory" [] = Some "out of memory") by reflexivity.
  assert (H4 : format ("out of memory" ++ newline) []
               = Some ("out of memory" ++ newline)%string) by reflexivity.
  assert (H5 : frames_plain (opened build_console)) by constructor.
  repeat (split; [assumption|]).
  exact (halt_console_prints_banner_and_message build_console _ _ T0 _ _ _ _
           H1 H2 H3 H3 H4 H5).
Defined.

Lemma halt_logs_percent_signs_halved_twice :
  frontend build_default = Headless /\
  stack_trace_on build_default = false /\
  dead_already (opened build_default) = false /\
  sink_ready (opened build_default) = true /\
  vsprintf "50%%%% done" [] = Some "50%% done" /\
  vsprintf "50%% done" [] = Some "50% done" /\
  exists s',
    halt build_default "50%%%% done" [] T0 (opened build_default)
      = Exited EXIT_FAILURE s' /\
    lines (syslog s') =
      (lines (syslog (opened build_default)) ++
       [log_line T0 GURU_CRITICAL BANNER; log_line T0 GURU_CRITICAL "50% done"])%list /\
    message s' = "50%% done" /\
    terminal s' = terminal (opened build_default).
Proof.
  assert (H1 : frontend build_default = Headless) by reflexivity.
  assert (H2 : stack_trace_on build_default = false) by reflexivity.
  assert (H3 : dead_already (opened build_default) = false) by reflexivity.
  assert (H4 : sink_ready (opened build_default) = true) by reflexivity.
  assert (H5 : last_log_message (opened build_default) <> BANNER) by discriminate.
  assert (H6 : "50%% done" <> BANNER) by discriminate.
  assert (H7 : vsprintf "50%%%% done" [] = Some "50%% done") by reflexivity.
  assert (H8 : vsprintf "50%% done" [] = Some "50% done") by reflexivity.
  repeat (split; [assumption|]).
  exact (halt_logs_banner_and_twice_rendered_message build_default _ _ T0 _ _ _
           H1 H2 H3 H4 H5 H6 H7 H8).
Defined.

Lemma halt_with_percent_in_argument_is_undefined :
  is_open (syslog (opened build_default)) = true /\
  vsprintf "%s" [ArgStr "100%d"] = Some "100%d" /\
  vsprintf "100%d" [] = None /\
  halt build_default "%s" [ArgStr "100%d"] T0 (opened build_default) = Undefined.
Proof.
  assert (H1 : is_open (syslog (opened build_default)) = true) by reflexivity.
  assert (H2 : "100%d" <> BANNER) by discriminate.
  assert (H3 : vsprintf "%s" [ArgStr "100%d"] = Some "100%d") by reflexivity.
  assert (H4 : vsprintf "100%d" [] = None) by reflexivity.
  split; [exact H1|]. split; [exact H3|]. split; [exact H4|].
  exact (halt_with_directive_left_in_message_is_undefined build_default _ _ T0 _ _
           H1 H2 H3 H4).
Defined.

Lemma critical_log_line_adds_no_pressure :
  is_nonfatal (CLog "reactor breach" GURU_CRITICAL []) = false /\
  outcome_state (exec_call build_default (CLog "reactor breach" GURU_CRITICAL []) T0
                   (pressured build_default))
    = Some (state_after (log "reactor breach" GURU_CRITICAL [] T0
                           (pressured build_default))) /\
  cascade_count (state_after (log "reactor breach" GURU_CRITICAL [] T0
                                (pressured build_default)))
    = cascade_count (pressured build_default) /\
  cascade_failure (state_after (log "reactor breach" GURU_CRITICAL [] T0
                                  (pressured build_default)))
    = cascade_failure (pressured build_default).
Proof.
  assert (H1 : is_nonfatal (CLog "reactor breach" GURU_CRITICAL []) = false)
    by reflexivity.
  assert (H2 : outcome_state (exec_call build_default
                  (CLog "reactor breach" GURU_CRITICAL []) T0 (pressured build_default))
               = Some (state_after (log "reactor breach" GURU_CRITICAL [] T0
                                      (pressured build_default))))
    by (vm_compute; reflexivity).
  split; [exact H1|]. split; [exact H2|].
  exact (only_nonfatal_changes_the_pressure build_default _ T0 _ _ H1 H2).
Defined.

Lemma pressure_in_range_after_the_trip :
  pressure_in_range (pressured build_default) /\
  outcome_state (exec_call build_default (CNonfatal "core dumped" GURU_CRITICAL []) T0
                   (pressured build_default))
    = Some (state_after (nonfatal build_default "core dumped" GURU_CRITICAL [] T0
                           (pressured build_default))) /\
  cascade_count (state_after (nonfatal build_default "core dumped" GURU_CRITICAL [] T0
                                (pressured build_default))) = 24 /\
  pressure_in_range (state_after (nonfatal build_default "core dumped" GURU_CRITICAL []
                                    T0 (pressured build_default))).
Proof.
  assert (H1 : pressure_in_range (pressured build_default)).
  { unfold pressure_in_range. vm_compute. repeat split; discriminate. }
  assert (H2 : outcome_state (exec_call build_default
                  (CNonfatal "core dumped" GURU_CRITICAL []) T0
                  (pressured build_default))
               = Some (state_after (nonfatal build_default "core dumped"
                                      GURU_CRITICAL [] T0 (pressured build_default))))
    by (vm_compute; reflexivity).
  split; [exact H1|]. split; [exact H2|]. split; [vm_compute; reflexivity|].
  exact (proj2 (pressure_stays_in_range build_default) _ T0 _ _ H1 H2).
Defined.

Lemma bad_severity_report_leaves_the_stack_balanced :
  is_guard (CNonfatal "low memory" GURU_INFO []) = false /\
  exec_call build_traced (CNonfatal "low memory" GURU_INFO []) T0 three_deep
    = Returned (state_after (nonfatal build_traced "low memory" GURU_INFO [] T0
                               three_deep)) /\
  funcs (state_after (nonfatal build_traced "low memory" GURU_INFO [] T0 three_deep))
    = funcs three_deep.
Proof.
  assert (H1 : is_guard (CNonfatal "low memory" GURU_INFO []) = false)
    by reflexivity.
  assert (H2 : exec_call build_traced (CNonfatal "low memory" GURU_INFO []) T0
                 three_deep
               = Returned (state_after (nonfatal build_traced "low memory" GURU_INFO
                                          [] T0 three_deep)))
    by (vm_compute; reflexivity).
  split; [exact H1|]. split; [exact H2|].
  exact (returning_calls_leave_the_stack_balanced build_traced _ T0 _ _ H1 H2).
Defined.

Lemma halt_three_deep_leaves_main :
  stack_trace_on build_traced = true /\
  outcome_state (halt build_traced "boom" [] T0 three_deep)
    = Some (state_after (halt build_traced "boom" [] T0 three_deep)) /\
  last (funcs three_deep) (pretty_function FHalt) = "int main()" /\
  funcs (state_after (halt build_traced "boom" [] T0 three_deep))
    = [last (funcs three_deep) (pretty_function FHalt)].
Proof.
  assert (H1 : stack_trace_on build_traced = true) by reflexivity.
  assert (H2 : outcome_state (halt build_traced "boom" [] T0 three_deep)
               = Some (state_after (halt build_traced "boom" [] T0 three_deep)))
    by (vm_compute; reflexivity).
  split; [exact H1|]. split; [exact H2|]. split; [reflexivity|].
  exact (halt_leaves_only_the_root_frame build_traced _ _ T0 _ _ H1 H2).
Defined.

Lemma escape_on_the_cascade_notice :
  sink_ready declared = true /\
  last_log_message declared <> MSG_SHUTTING_DOWN /\
  exists s',
    presenter_getch build_curses KEY_ESCAPE T0 declared = Exited EXIT_FAILURE s' /\
    lines (syslog s') =
      (lines (syslog declared) ++
       [log_line T0 GURU_INFO MSG_SHUTTING_DOWN; log_line T0 GURU_INFO MSG_SILENCE])%list /\
    is_open (syslog s') = false /\
    terminal s' = terminal declared.
Proof.
  assert (H1 : sink_ready declared = true) by (vm_compute; reflexivity).
  assert (H2 : last_log_message declared <> MSG_SHUTTING_DOWN)
    by (vm_compute; discriminate).
  split; [exact H1|]. split; [exact H2|].
  exact (proj1 (proj2 (proj2 (notice_keys_redraw_dismiss_or_ignore
           build_curses KEY_ESCAPE T0 declared))) eq_refl H1 H2).
Defined.

Lemma affirm_of_one_and_of_zero :
  1 <> 0 /\
  affirm build_traced 1 "unreachable" T0 three_deep = Returned three_deep /\
  affirm build_traced 0 "unreachable" T0 three_deep
    = halt build_traced "unreachable" [] T0 (enter build_traced FAffirm three_deep) /\
  has_returned (affirm build_traced 0 "unreachable" T0 three_deep) = false.
Proof.
  assert (H1 : 1 <> 0) by discriminate.
  split; [exact H1|]. split.
  - exact (proj1 (affirm_passes_or_halts build_traced 1 "unreachable" T0 three_deep) H1).
  - destruct (proj2 (affirm_passes_or_halts build_traced 0 "unreachable" T0 three_deep)
                eq_refl) as (A & B & _).
    split; [exact A|exact B].
Defined.

Lemma open_syslog_on_the_initial_state :
  is_open (syslog guru_init) = false /\
  (forall n, signal_succeeds n = false) /\
  last_log_message guru_init <> MSG_ONLINE /\
  exists s',
    open_syslog build_default true signal_succeeds T0 guru_init = Returned s' /\
    syslog s' = mkOfstream true false [log_line T0 GURU_INFO MSG_ONLINE] /\
    signals s' = all_hooked /\
    cascade_timer s' = T0 /\
    cascade_count s' = cascade_count guru_init /\
    cascade_failure s' = cascade_failure guru_init /\
    funcs s' = funcs guru_init.
Proof.
  assert (H1 : is_open (syslog guru_init) = false) by reflexivity.
  assert (H2 : forall n, signal_succeeds n = false) by reflexivity.
  assert (H3 : last_log_message guru_init <> MSG_ONLINE) by discriminate.
  repeat (split; [assumption|]).
  exact (open_syslog_starts_fresh_log_and_hooks_signals build_default _ T0 _ H1 H2 H3).
Defined.

Lemma open_syslog_with_sigill_unhookable :
  some_hook_fails sigill_fails = true /\
  has_returned (open_syslog build_default true sigill_fails T0 guru_init) = false.
Proof.
  assert (H : some_hook_fails sigill_fails = true) by reflexivity.
  split; [exact H|].
  exact (open_syslog_does_not_return_when_a_hook_fails build_default true _ T0 _ H).
Defined.

Lemma open_syslog_in_a_read_only_directory :
  is_open (syslog guru_init) = false /\
  (forall n, signal_succeeds n = false) /\
  exists s',
    open_syslog build_default false signal_succeeds T0 guru_init = Returned s' /\
    is_open (syslog s') = false /\
    lines (syslog s') = lines (syslog guru_init) /\
    last_log_message s' = last_log_message guru_init /\
    signals s' = all_hooked /\
    cascade_timer s' = T0 /\
    (forall msg type ap t, log msg type ap t s' = Returned s').
Proof.
  assert (H1 : is_open (syslog guru_init) = false) by reflexivity.
  assert (H2 : forall n, signal_succeeds n = false) by reflexivity.
  repeat (split; [assumption|]).
  exact (open_syslog_fails_silently_without_a_file build_default _ T0 _ H1 H2).
Defined.

Lemma four_reports_of_one_text_make_one_line :
  vsprintf "disk is slow" [] = Some "disk is slow" /\
  sink_ready (opened build_default) = true /\
  "disk is slow" <> last_log_message (opened build_default) /\
  exists s',
    log_each "disk is slow" ((GURU_WARN, T0) :: four_times) (opened build_default)
      = Returned s' /\
    lines (syslog s') =
      (lines (syslog (opened build_default)) ++ [log_line T0 GURU_WARN "disk is slow"])%list.
Proof.
  assert (H1 : vsprintf "disk is slow" [] = Some "disk is slow") by reflexivity.
  assert (H2 : sink_ready (opened build_default) = true) by reflexivity.
  assert (H3 : "disk is slow" <> last_log_message (opened build_default))
    by discriminate.
  repeat (split; [assumption|]).
  destruct (run_of_identical_plain_messages_is_logged_once "disk is slow" GURU_WARN T0
              four_times (opened build_default) H1 H2) as (s' & E & L & _).
  exists s'. split; [exact E|exact (L H3)].
Defined.

Lemma release_1_2_logs_percent_verbatim :
  sink_ready (opened build_default) = true /\
  "100%% done" <> last_log_message (opened build_default) /\
  exists s1,
    log_1_2 "100%% done" GURU_WARN T0 (opened build_default) = Returned s1 /\
    lines (syslog s1) =
      (lines (syslog (opened build_default)) ++ [log_line T0 GURU_WARN "100%% done"])%list /\
    last_log_message s1 = "100%% done" /\
    log_1_2 "100%% done" GURU_ERROR (T0 + TICKS_PER_SECOND) s1 = Returned s1.
Proof.
  assert (H1 : sink_ready (opened build_default) = true) by reflexivity.
  assert (H2 : "100%% done" <> last_log_message (opened build_default))
    by discriminate.
  repeat (split; [assumption|]).
  exact (log_1_2_writes_verbatim_and_drops_the_repeat "100%% done" GURU_WARN
           GURU_ERROR T0 (T0 + TICKS_PER_SECOND) (opened build_default) H1 H2).
Defined.


Lemma release_1_2_twenty_first_warning_returns :
  no_front_end_1_2 build_default = true /\
  cascade_failure (pressured build_default) = false /\
  dead_already (pressured build_default) = false /\
  is_default GURU_WARN = false /\
  within_timeout T0 (cascade_timer (pressured build_default)) = true /\
  cascade_count (pressured build_default) = 20 /\
  exists s',
    nonfatal_1_2 build_default "disk is slow" GURU_WARN T0 (pressured build_default)
      = Returned s' /\
    cascade_failure s' = true /\
    cascade_count s' = cascade_count (pressured build_default) + weight_for GURU_WARN /\
    message s' = MSG_CASCADE /\
    (forall e t n, nonfatal_1_2 build_default e t n s' = Returned s').
Proof.
  assert (H1 : no_front_end_1_2 build_default = true) by reflexivity.
  assert (H2 : cascade_failure (pressured build_default) = false) by reflexivity.
  assert (H3 : dead_already (pressured build_default) = false) by reflexivity.
  assert (H4 : is_default GURU_WARN = false) by reflexivity.
  assert (H5 : within_timeout T0 (cascade_timer (pressured build_default)) = true)
    by reflexivity.
  assert (H6 : 0 <= cascade_count (pressured build_default) <= CASCADE_THRESHOLD)
    by (vm_compute; split; discriminate).
  assert (H7 : CASCADE_THRESHOLD
               < cascade_count (pressured build_default) + weight_for GURU_WARN)
    by (vm_compute; reflexivity).
  repeat (split; [first [assumption | reflexivity]|]).
  exact (cascade_1_2_without_front_end_goes_on build_default "disk is slow" GURU_WARN
           T0 (pressured build_default) H1 H2 H3 H4 H5 H6 H7).
Defined.

Lemma release_1_2_notice_ends_the_log_with_loop :
  frontend build_curses = Curses /\
  fully_active presentable = true /\
  dead_already presentable = false /\
  sink_ready presentable = true /\
  exists s' before,
    halt_1_2 build_curses "first failure" T0 presentable = Presenting s' /\
    lines (syslog s') = (before ++ [log_line T0 GURU_INFO MSG_LOOP])%list /\
    last_log_message s' = MSG_LOOP /\
    (String.length (message s') <= 39)%nat /\
    terminal s' = (terminal presentable ++ [BANNER; message s'])%list.
Proof.
  assert (H1 : frontend build_curses = Curses) by reflexivity.
  assert (H2 : fully_active presentable = true) by reflexivity.
  assert (H3 : dead_already presentable = false) by reflexivity.
  assert (H4 : sink_ready presentable = true) by reflexivity.
  repeat (split; [assumption|]).
  exact (halt_1_2_curses_notice_logs_loop build_curses "first failure" T0 presentable
           H1 H2 H3 H4).
Defined.

Lemma window_one_tick_before_and_at_thirty_seconds :
  cascade_failure (opened build_default) = false /\
  is_default GURU_ERROR = false /\
  renders_twice "disk is full" [] = true /\
  (exists s',
     nonfatal build_default "disk is full" GURU_ERROR []
       (T0 + 30 * TICKS_PER_SECOND - 1) (opened build_default) = Returned s' /\
     cascade_count s' = cascade_count (opened build_default) + weight_for GURU_ERROR /\
     cascade_failure s' = false /\
     cascade_timer s' = cascade_timer (opened build_default)) /\
  (exists s',
     nonfatal build_default "disk is full" GURU_ERROR []
       (T0 + 30 * TICKS_PER_SECOND) (opened build_default) = Returned s' /\
     cascade_count s' = 0 /\
     cascade_failure s' = false /\
     cascade_timer s' = T0 + 30 * TICKS_PER_SECOND).
Proof.
  assert (H1 : cascade_failure (opened build_default) = false) by reflexivity.
  assert (H2 : is_default GURU_ERROR = false) by reflexivity.
  assert (H3 : renders_twice "disk is full" [] = true) by reflexivity.
  assert (H4 : T0 + 30 * TICKS_PER_SECOND - 1 - cascade_timer (opened build_default)
               < CASCADE_TIMEOUT * TICKS_PER_SECOND) by (vm_compute; reflexivity).
  assert (H5 : 0 <= cascade_count (opened build_default))
    by (vm_compute; discriminate).
  assert (H6 : cascade_count (opened build_default) + weight_for GURU_ERROR
               <= CASCADE_THRESHOLD) by (vm_compute; discriminate).
  assert (H7 : CASCADE_TIMEOUT * TICKS_PER_SECOND
               <= T0 + 30 * TICKS_PER_SECOND - cascade_timer (opened build_default))
    by (vm_compute; discriminate).
  repeat (split; [assumption|]).
  split.
  - exact (proj1 (window_is_open_for_less_than_thirty_seconds build_default
                    "disk is full" GURU_ERROR [] (T0 + 30 * TICKS_PER_SECOND - 1)
                    (opened build_default) H1 H2 H3) H4 H5 H6).
  - exact (proj2 (window_is_open_for_less_than_thirty_seconds build_default
                    "disk is full" GURU_ERROR [] (T0 + 30 * TICKS_PER_SECOND)
                    (opened build_default) H1 H2 H3) H7).
Defined.
